(** * CSVDataValidator: a shallow embedding of [CSVDataValidator.py]

    The development follows the Python source top to bottom:
    - characters and strings ([strip], [isdigit], [int] on one character);
    - the outcome of a call: a returned value, [sys.exit] or a raised
      exception;
    - the per-field validator dictionaries and the four [validate*] methods;
    - the [CSVDataValidator] object, [__init__], [getHeaderNames],
      [validateField], [validateRow];
    - the [__main__] block: configuration, header handling, the row loop.

    Strings are Rocq strings; a character is a code point below 256.
    Python dictionaries keyed by field number are [gmap nat _].  The
    integers of the script are [Z].

    Left out: the [DEBUG] printing (the flag is 0), the attribute
    [self.validatorDict] (a reference no method reads), the opening of the
    files, and the totals printed after the row loop (of that summary, the
    per-field lines are modelled).  The input file is the list of records
    its reader yields; an output file is the list of records written to
    it. *)

From Stdlib Require Import ZArith Ascii String List Lia.
From stdpp Require Import base option list gmap strings pretty fin_maps.

Local Open Scope string_scope.
Local Open Scope list_scope.
Local Open Scope Z_scope.

(** ** Outcomes of a call *)

Inductive exn : Set :=
| KeyError
| ValueError
| IndexError
| StopIteration
| re_error.

(** [Ret a]: the call returned [a].  [Exit msg]: [sys.exit(msg)] was called.
    [Raise e]: an exception propagated, which nothing in the script catches. *)
Inductive result (A : Type) : Type :=
| Ret (a : A)
| Exit (msg : string)
| Raise (e : exn).

Arguments Ret {A} a.
Arguments Exit {A} msg.
Arguments Raise {A} e.

Definition bind {A B : Type} (r : result A) (k : A -> result B) : result B :=
  match r with
  | Ret a => k a
  | Exit msg => Exit msg
  | Raise e => Raise e
  end.

Declare Scope result_scope.
Delimit Scope result_scope with result.
Notation "x <~ r ;; k" := (bind r (fun x => k))
  (at level 100, r at next level, right associativity) : result_scope.
Local Open Scope result_scope.

(** [dict[key]] on a dictionary entry that may be absent. *)
Definition getitem {A : Type} (o : option A) : result A :=
  match o with
  | Some a => Ret a
  | None => Raise KeyError
  end.

(** [seq[i]] for a non-negative index. *)
Definition index {A : Type} (l : list A) (i : nat) : result A :=
  match l !! i with
  | Some a => Ret a
  | None => Raise IndexError
  end.

(** ** Characters and strings *)

Definition code (c : ascii) : Z := Z.of_N (N_of_ascii c).

(** The code points below 256 that [str.strip()] removes. *)
Definition isspace (c : ascii) : bool :=
  let n := code c in
  ((9 <=? n) && (n <=? 13)) || ((28 <=? n) && (n <=? 32))
  || (n =? 133) || (n =? 160).

(** The code points below 256 on which [str.isdigit()] holds: the decimal
    digits and the superscripts two, three and one. *)
Definition isdigit_char (c : ascii) : bool :=
  let n := code c in
  ((48 <=? n) && (n <=? 57)) || (n =? 178) || (n =? 179) || (n =? 185).

Definition chars (s : string) : list ascii := list_ascii_of_string s.

Definition len (s : string) : Z := Z.of_nat (String.length s).

Fixpoint lstrip (s : string) : string :=
  match s with
  | EmptyString => EmptyString
  | String c s' => if isspace c then lstrip s' else s
  end.

Fixpoint rstrip (s : string) : string :=
  match s with
  | EmptyString => EmptyString
  | String c s' =>
      match rstrip s' with
      | EmptyString => if isspace c then EmptyString else String c EmptyString
      | r => String c r
      end
  end.

(** [field.strip()] *)
Definition strip (s : string) : string := rstrip (lstrip s).

(** [field.isdigit()]: false on the empty string. *)
Definition isdigit (s : string) : bool :=
  match chars s with
  | [] => false
  | cs => forallb isdigit_char cs
  end.

(** [int(digit)] on a one-character string: only a decimal digit converts. *)
Definition int (c : ascii) : result Z :=
  let n := code c in
  if (48 <=? n) && (n <=? 57) then Ret (n - 48) else Raise ValueError.

(** The list comprehension [[int(digit) for digit in field]]. *)
Fixpoint ints (cs : list ascii) : result (list Z) :=
  match cs with
  | [] => Ret []
  | c :: cs' =>
      d <~ int c ;;
      ds <~ ints cs' ;;
      Ret (d :: ds)
  end.

(** ** Field validators *)

(** One entry of the ["validators"] dictionary.  Every entry carries
    ["type"] and ["allowEmptyFields"]; the other keys are present or not,
    and reading an absent one raises [KeyError].  A compiled regular
    expression is represented by its [match(field) != None] test. *)
Record Validator : Type := mkValidator {
  type : string;
  allowEmptyFields : bool;
  strings : option (list string);
  regex : option string;
  compiledRegex : option (string -> bool);
  validate : option bool;
  checkNumeric : option bool;
  range : option (Z * Z)
}.

Definition set_compiledRegex (v : Validator) (c : string -> bool) : Validator :=
  mkValidator (type v) (allowEmptyFields v) (strings v) (regex v) (Some c)
    (validate v) (checkNumeric v) (range v).

Definition validateString (fieldValidator : Validator) (field : string)
  : result bool :=
  if len field =? 0 then
    if Bool.eqb (allowEmptyFields fieldValidator) false then Ret false
    else Ret true
  else
    bad <~ getitem (strings fieldValidator) ;;
    if bool_decide (field ∈ bad) then Ret false else Ret true.

Definition validateRegex (fieldValidator : Validator) (field : string)
  : result bool :=
  if len field =? 0 then
    if Bool.eqb (allowEmptyFields fieldValidator) false then Ret false
    else Ret true
  else
    matches <~ getitem (compiledRegex fieldValidator) ;;
    if negb (matches field) then Ret false else Ret true.

Definition checksum (d0 d1 d2 d3 d4 d5 d6 d7 d8 : Z) : Z :=
  ((3 * (d0 + d3 + d6)) + (7 * (d1 + d4 + d7)) + (d2 + d5 + d8)) mod 10.

Definition validateABAChecksum (fieldValidator : Validator) (field : string)
  : result bool :=
  let fieldLength := len field in
  if fieldLength =? 0 then
    if Bool.eqb (allowEmptyFields fieldValidator) false then Ret false
    else Ret true
  else
    doValidate <~ getitem (validate fieldValidator) ;;
    if doValidate then
      if negb (fieldLength =? 9) then Ret false
      else
        d <~ ints (chars field) ;;
        d0 <~ index d 0 ;; d3 <~ index d 3 ;; d6 <~ index d 6 ;;
        d1 <~ index d 1 ;; d4 <~ index d 4 ;; d7 <~ index d 7 ;;
        d2 <~ index d 2 ;; d5 <~ index d 5 ;; d8 <~ index d 8 ;;
        let result := checksum d0 d1 d2 d3 d4 d5 d6 d7 d8 in
        if negb (result =? 0) then Ret false else Ret true
    else Ret true.

Definition validateLength (fieldValidator : Validator) (field : string)
  : result bool :=
  let fieldLength := len field in
  if fieldLength =? 0 then
    if Bool.eqb (allowEmptyFields fieldValidator) false then Ret false
    else Ret true
  else
    numeric <~ getitem (checkNumeric fieldValidator) ;;
    if numeric && (0 <? fieldLength) && negb (isdigit field) then Ret false
    else
      range <~ getitem (range fieldValidator) ;;
      if negb (range.1 =? 0) && (fieldLength <? range.1) then Ret false
      else if negb (range.2 =? -1) && (range.2 <? fieldLength) then Ret false
      else Ret true.

(** ** The [CSVDataValidator] object *)

(** The argument of the constructor: a dictionary with the keys ["name"]
    and ["validators"], each present or not. *)
Record ValidatorDict : Type := mkValidatorDict {
  dict_name : option string;
  dict_validators : option (gmap nat Validator)
}.

Definition dict_len (validatorDict : ValidatorDict) : Z :=
  (if dict_name validatorDict is Some _ then 1 else 0)
  + (if dict_validators validatorDict is Some _ then 1 else 0).

(** The attributes of an instance. *)
Record CSVDataValidator : Type := mkCSVDataValidator {
  name : string;
  validators : gmap nat Validator;
  numFields : Z;
  maxEmptyFields : Z;
  badFieldCounters : gmap nat Z;
  fieldNames : gmap nat string
}.

Definition set_validators (self : CSVDataValidator) (vs : gmap nat Validator)
  : CSVDataValidator :=
  mkCSVDataValidator (name self) vs (numFields self) (maxEmptyFields self)
    (badFieldCounters self) (fieldNames self).

Definition set_badFieldCounters (self : CSVDataValidator) (cs : gmap nat Z)
  : CSVDataValidator :=
  mkCSVDataValidator (name self) (validators self) (numFields self)
    (maxEmptyFields self) cs (fieldNames self).

Definition set_fieldNames (self : CSVDataValidator) (ns : gmap nat string)
  : CSVDataValidator :=
  mkCSVDataValidator (name self) (validators self) (numFields self)
    (maxEmptyFields self) (badFieldCounters self) ns.

Section Construction.

(** [re.compile]: [None] when the pattern is rejected ([re.error]),
    otherwise the anchored-at-start match test of the compiled pattern. *)
Variable re_compile : string -> option (string -> bool).

(** The loop of [__init__] over [list(self.validators.items())].  Storing
    the compiled pattern in [validator] changes the entry of
    [self.validators] it is taken from.  The entries come in the order of
    the map, not in the order of insertion: when two rules both stop the
    constructor, the exception reported may be that of the other one.
    Whether the constructor succeeds, and the instance it returns, do not
    depend on the order. *)
Fixpoint init_for (items : list (nat * Validator)) (self : CSVDataValidator)
  : result CSVDataValidator :=
  match items with
  | [] => Ret self
  | (fieldNum, validator) :: rest =>
      let self :=
        set_badFieldCounters self (<[fieldNum := 0]> (badFieldCounters self)) in
      if String.eqb (type validator) "re" then
        pattern <~ getitem (regex validator) ;;
        match re_compile pattern with
        | None => Raise re_error
        | Some c =>
            init_for rest
              (set_validators self
                 (<[fieldNum := set_compiledRegex validator c]> (validators self)))
        end
      else init_for rest self
  end.

(** [CSVDataValidator.__init__] *)
Definition init (validatorDict : ValidatorDict) : result CSVDataValidator :=
  if 0 <? dict_len validatorDict then
    name <~ getitem (dict_name validatorDict) ;;
    validators <~ getitem (dict_validators validatorDict) ;;
    let numFields := Z.of_nat (size validators) in
    let maxEmptyFields := numFields - 1 in
    init_for (map_to_list validators)
      (mkCSVDataValidator name validators numFields maxEmptyFields ∅ ∅)
  else
    Exit "CSVDataValidator class instantiated with empty validatorList".

End Construction.

(** The loop of [getHeaderNames]: [index] runs over [range(len(row))],
    [fields] is what is left of the row from [index] on. *)
Fixpoint getHeaderNames_for (index : nat) (fields : list string)
  (fieldNames : gmap nat string) : gmap nat string :=
  match fields with
  | [] => fieldNames
  | field :: rest => getHeaderNames_for (S index) rest (<[index := field]> fieldNames)
  end.

Definition getHeaderNames (self : CSVDataValidator) (row : list string)
  : CSVDataValidator :=
  if 0 <? Z.of_nat (length row) then
    set_fieldNames self (getHeaderNames_for 0 row (fieldNames self))
  else self.

Definition validateField (self : CSVDataValidator) (fieldIndex : nat)
  (field : string) : result bool :=
  match validators self !! fieldIndex with
  | None => Ret true
  | Some fieldValidator =>
      if String.eqb (type fieldValidator) "str" then
        validateString fieldValidator field
      else if String.eqb (type fieldValidator) "re" then
        validateRegex fieldValidator field
      else if String.eqb (type fieldValidator) "len" then
        validateLength fieldValidator field
      else if String.eqb (type fieldValidator) "aba" then
        validateABAChecksum fieldValidator field
      else Exit ("ERROR!! BAD Validator Type" +:+ type fieldValidator)
  end.

(** The integers [validateRow] returns, under the names the specification
    gives the outcomes. *)
Definition Accepted : Z := -1.
Definition RejectedShapeMismatch : Z := -2.
Definition RejectedTooManyEmptyFields : Z := -3.
Definition RejectedFieldFailed (i : nat) : Z := Z.of_nat i.

(** The loop of [validateRow]: [index] runs over [range(len(row))],
    [fields] is what is left of the row from [index] on.  The object is
    returned with the outcome, since a failing field updates its counter. *)
Fixpoint validateRow_for (self : CSVDataValidator) (index : nat)
  (numEmptyFields : Z) (fields : list string)
  : CSVDataValidator * result Z :=
  match fields with
  | [] => (self, Ret (-1))
  | raw :: rest =>
      let field := strip raw in
      match validateField self index field with
      | Exit msg => (self, Exit msg)
      | Raise e => (self, Raise e)
      | Ret ok =>
          if negb (Bool.eqb ok true) then
            match badFieldCounters self !! index with
            | None => (self, Raise KeyError)
            | Some count =>
                (set_badFieldCounters self
                   (<[index := count + 1]> (badFieldCounters self)),
                 Ret (Z.of_nat index))
            end
          else if len field =? 0 then
            let numEmptyFields := numEmptyFields + 1 in
            if maxEmptyFields self <=? numEmptyFields then (self, Ret (-3))
            else validateRow_for self (S index) numEmptyFields rest
          else validateRow_for self (S index) numEmptyFields rest
      end
  end.

Definition validateRow (self : CSVDataValidator) (row : list string)
  : CSVDataValidator * result Z :=
  if String.eqb (name self) "novalidate" then (self, Ret (-1))
  else if negb (Z.of_nat (length row) =? Z.of_nat (size (validators self))) then
    (self, Ret (-2))
  else validateRow_for self 0 0 row.

(** ** The [__main__] block *)

(** A dictionary keyed by strings that remembers insertion order, for the
    registry [validators] of configured instances. *)
Fixpoint setitem {V : Type} (k : string) (v : V) (d : list (string * V))
  : list (string * V) :=
  match d with
  | [] => [(k, v)]
  | (k', v') :: rest =>
      if String.eqb k' k then (k, v) :: rest else (k', v') :: setitem k v rest
  end.

Fixpoint lookup_item {V : Type} (k : string) (d : list (string * V)) : option V :=
  match d with
  | [] => None
  | (k', v') :: rest => if String.eqb k' k then Some v' else lookup_item k rest
  end.

Definition nl : string := String (ascii_of_nat 10) EmptyString.

(** [seq[i]] for any integer index: a negative one counts from the end. *)
Definition index_int {A : Type} (l : list A) (i : Z) : result A :=
  if 0 <=? i then index l (Z.to_nat i)
  else if 0 <=? Z.of_nat (length l) + i then
    index l (Z.to_nat (Z.of_nat (length l) + i))
  else Raise IndexError.

(** [dict[i]] for an integer key on a dictionary keyed by field numbers. *)
Definition getitem_int {A : Type} (m : gmap nat A) (i : Z) : result A :=
  if 0 <=? i then getitem (m !! Z.to_nat i) else Raise KeyError.

Section Configuration.

Variable re_compile : string -> option (string -> bool).

(** The configuration section: each dictionary is turned into an instance
    and registered under its name, in order. *)
Fixpoint configure (config : list ValidatorDict)
  (validators : list (string * CSVDataValidator))
  : result (list (string * CSVDataValidator)) :=
  match config with
  | [] => Ret validators
  | validatorDict :: rest =>
      v <~ init re_compile validatorDict ;;
      configure rest (setitem (name v) v validators)
  end.

End Configuration.

Definition noValidateValidatorDict : ValidatorDict :=
  mkValidatorDict (Some "novalidate") (Some ∅).

Definition ssn_regex : string :=
  "^(?!000)(?!666)(?!9)\d{3}[- ]?(?!00)\d{2}[- ]?(?!0000)\d{4}$".

Definition EmployeeValidatorDict : ValidatorDict :=
  mkValidatorDict (Some "employee") (Some (list_to_map [
    (0%nat, mkValidator "str" false (Some []) None None None None None);
    (1%nat, mkValidator "re" false None (Some ssn_regex) None None None None);
    (2%nat, mkValidator "aba" true None None None (Some true) None None);
    (3%nat, mkValidator "len" true None None None None (Some true) (Some (4, -1)))
  ])).

Definition CustomerValidatorDict : ValidatorDict :=
  mkValidatorDict (Some "customer") (Some (list_to_map [
    (0%nat, mkValidator "str" false (Some []) None None None None None);
    (1%nat, mkValidator "re" false None (Some ssn_regex) None None None None);
    (2%nat, mkValidator "aba" true None None None (Some false) None None);
    (3%nat, mkValidator "len" true None None None None (Some false) (Some (4, -1)))
  ])).

(** The configuration the script ships with. *)
Definition shipped : list ValidatorDict :=
  [noValidateValidatorDict; EmployeeValidatorDict; CustomerValidatorDict].

(** [validatorNames]: the configured names, each followed by a space. *)
Fixpoint validatorNames (validators : list (string * CSVDataValidator)) : string :=
  match validators with
  | [] => ""
  | (_, validator) :: rest => name validator +:+ " " +:+ validatorNames rest
  end.

(** What the script holds once the files are open: the chosen instance, the
    rows written so far to the two output files, and the three counters. *)
Record Run : Type := mkRun {
  currentValidator : CSVDataValidator;
  goodDataFile : list (list string);
  badDataFile : list (list string);
  goodRowCounter : Z;
  badRowCounter : Z;
  totalRowCounter : Z
}.

(** Argument and source-type checks, then the choice of the instance. *)
Definition main_select (validators : list (string * CSVDataValidator))
  (argv : list string) : result CSVDataValidator :=
  if negb (Z.of_nat (length argv) =? 5) then
    Exit ("Usage:" +:+ nl
          +:+ "  CSVDataValidator.py sourcetype inputfile goodoutputfile badoutputfile"
          +:+ nl +:+ nl +:+ "Available sourcetype validators:" +:+ nl +:+ "  "
          +:+ validatorNames validators +:+ nl)
  else
    sourcetype <~ index argv 1 ;;
    match lookup_item sourcetype validators with
    | None =>
        Exit ("Unknown source data type: " +:+ sourcetype +:+ nl
              +:+ "Valid types are: " +:+ validatorNames validators +:+ nl)
    | Some v => Ret v
    end.

(** [str(n)] for a length. *)
Definition str (n : nat) : string := pretty n.

(** From [next(inputFileReader)] to the initialised counters: the header is
    read, checked against the configuration, recorded, and written to both
    files.  The rows that follow the header are returned with the state. *)
Definition main_header (currentValidator : CSVDataValidator)
  (input : list (list string)) : result (Run * list (list string)) :=
  match input with
  | [] => Raise StopIteration
  | headerRow :: rows =>
      if negb (String.eqb (name currentValidator) "novalidate")
         && negb (Z.of_nat (length headerRow)
                  =? Z.of_nat (size (validators currentValidator)))
      then
        Exit ("Number of fields in input does not match "
              +:+ name currentValidator +:+ " config. Got:"
              +:+ str (length headerRow) +:+ " Expected:"
              +:+ str (size (validators currentValidator)))
      else
        let currentValidator := getHeaderNames currentValidator headerRow in
        let badHeaderRow := headerRow ++ ["ERROR_MESSAGE"] in
        Ret (mkRun currentValidator [headerRow] [badHeaderRow] 0 0 0, rows)
  end.

(** The message appended to a row rejected at field [res] (the source's
    [result]). *)
Definition bad_data_message (currentValidator : CSVDataValidator)
  (row : list string) (res : Z) : result string :=
  raw <~ index_int row res ;;
  if 0 <? len raw then
    fieldName <~ getitem_int (fieldNames currentValidator) res ;;
    value <~ index_int row res ;;
    Ret ("BAD DATA IN FIELD: " +:+ fieldName +:+ " VALUE: " +:+ value)
  else
    fieldName <~ getitem_int (fieldNames currentValidator) res ;;
    Ret ("BAD DATA IN FIELD: " +:+ fieldName +:+ " VALUE: EMPTY").

(** One iteration of [for row in inputFileReader]. *)
Definition main_row (run : Run) (row : list string) : Run * result unit :=
  let total := totalRowCounter run + 1 in
  let '(validator, outcome) := validateRow (currentValidator run) row in
  match outcome with
  | Exit msg =>
      (mkRun validator (goodDataFile run) (badDataFile run)
         (goodRowCounter run) (badRowCounter run) total, Exit msg)
  | Raise e =>
      (mkRun validator (goodDataFile run) (badDataFile run)
         (goodRowCounter run) (badRowCounter run) total, Raise e)
  | Ret res =>
      if res =? -1 then
        (mkRun validator (goodDataFile run ++ [row]) (badDataFile run)
           (goodRowCounter run + 1) (badRowCounter run) total, Ret tt)
      else if res =? -2 then
        (mkRun validator (goodDataFile run)
           (badDataFile run ++ [row ++ ["INCORRECT NUMBER OF FIELDS"]])
           (goodRowCounter run) (badRowCounter run + 1) total, Ret tt)
      else if res =? -3 then
        (mkRun validator (goodDataFile run)
           (badDataFile run ++ [row ++ ["TOO MANY EMPTY FIELDS"]])
           (goodRowCounter run) (badRowCounter run + 1) total, Ret tt)
      else
        match bad_data_message validator row res with
        | Ret message =>
            (mkRun validator (goodDataFile run)
               (badDataFile run ++ [row ++ [message]])
               (goodRowCounter run) (badRowCounter run + 1) total, Ret tt)
        | Exit msg =>
            (mkRun validator (goodDataFile run) (badDataFile run)
               (goodRowCounter run) (badRowCounter run + 1) total, Exit msg)
        | Raise e =>
            (mkRun validator (goodDataFile run) (badDataFile run)
               (goodRowCounter run) (badRowCounter run + 1) total, Raise e)
        end
  end.

(** The loop [for row in inputFileReader]: it stops at the first row whose
    processing does not return, with everything written before in place. *)
Fixpoint main_loop (run : Run) (rows : list (list string)) : Run * result unit :=
  match rows with
  | [] => (run, Ret tt)
  | row :: rest =>
      match main_row run row with
      | (run', Ret _) => main_loop run' rest
      | (run', Exit msg) => (run', Exit msg)
      | (run', Raise e) => (run', Raise e)
      end
  end.

(** The script from the configuration section to the end of the row loop.
    [None] as state: it stopped before the output files were opened. *)
Definition main (re_compile : string -> option (string -> bool))
  (config : list ValidatorDict) (argv : list string)
  (input : list (list string)) : option Run * result unit :=
  match configure re_compile config [] with
  | Exit msg => (None, Exit msg)
  | Raise e => (None, Raise e)
  | Ret validators =>
      match main_select validators argv with
      | Exit msg => (None, Exit msg)
      | Raise e => (None, Raise e)
      | Ret currentValidator =>
          match main_header currentValidator input with
          | Exit msg => (Some (mkRun currentValidator [] [] 0 0 0), Exit msg)
          | Raise e => (Some (mkRun currentValidator [] [] 0 0 0), Raise e)
          | Ret (run, rows) =>
              let '(run', r) := main_loop run rows in (Some run', r)
          end
      end
  end.

(** The loop that ends the script: for each entry of [badFieldCounters] it
    prints the name of the field and the count.  A printed line is kept as
    that pair.  [fieldNames[fieldNum]] raises [KeyError] for a position
    without a name.  The order in which the entries come is not modelled:
    the statements about this loop do not depend on it. *)
Fixpoint main_summary_for (fieldNames : gmap nat string)
  (items : list (nat * Z)) : result (list (string * Z)) :=
  match items with
  | [] => Ret []
  | (fieldNum, count) :: rest =>
      fieldName <~ getitem (fieldNames !! fieldNum) ;;
      lines <~ main_summary_for fieldNames rest ;;
      Ret ((fieldName, count) :: lines)
  end.

Definition main_summary (run : Run) : result (list (string * Z)) :=
  main_summary_for (fieldNames (currentValidator run))
    (map_to_list (badFieldCounters (currentValidator run))).

(** * The vocabulary of the statements *)

(** ** Fields *)

(** A field made of characters that [strip] removes. *)
Definition whitespace_only (s : string) : Prop :=
  Forall (fun c => isspace c = true) (chars s).

(** The characters [int] converts. *)
Definition decimal (c : ascii) : bool := (48 <=? code c) && (code c <=? 57).

(** The character of a decimal digit, and the string of a digit sequence. *)
Definition digit (d : Z) : ascii := ascii_of_N (Z.to_N (48 + d)).

Definition digits (ds : list Z) : string := string_of_list_ascii (map digit ds).

(** A field that is empty once trimmed, and the number of such fields. *)
Definition is_empty_field (raw : string) : bool := len (strip raw) =? 0.

Definition count_empty (fields : list string) : Z :=
  Z.of_nat (length (List.filter is_empty_field fields)).

(** ** Rules and instances *)

(** The four kinds [validateField] dispatches on. *)
Definition known_kind (t : string) : Prop :=
  t = "str" \/ t = "re" \/ t = "len" \/ t = "aba".

(** The relations [__init__] sets up between the attributes, which neither
    [getHeaderNames] nor [validateRow] disturbs. *)
Definition wf (self : CSVDataValidator) : Prop :=
  numFields self = Z.of_nat (size (validators self))
  /\ maxEmptyFields self = numFields self - 1
  /\ dom (badFieldCounters self) =@{gset nat} dom (validators self).

(** Every one of [fields], placed at positions [index], [index + 1], ...,
    passes the rule of its position. *)
Definition passes (self : CSVDataValidator) (index : nat)
  (fields : list string) : Prop :=
  forall (j : nat) (raw : string),
    fields !! j = Some raw ->
    validateField self (index + j) (strip raw) = Ret true.

(** The budget test as the loop performs it after [fields]: some field was
    empty, and the count reached [maxEmptyFields]. *)
Definition budget_reached (self : CSVDataValidator) (numEmptyFields : Z)
  (fields : list string) : bool :=
  (0 <? count_empty fields)
  && (maxEmptyFields self <=? numEmptyFields + count_empty fields).

(** The only change [validateRow] makes: the counter of the failing field. *)
Definition counted_failure (self self' : CSVDataValidator) (outcome : result Z)
  : Prop :=
  exists (i : nat) (count : Z),
    outcome = Ret (RejectedFieldFailed i)
    /\ badFieldCounters self !! i = Some count
    /\ self' = set_badFieldCounters self
                 (<[i := count + 1]> (badFieldCounters self)).

(** ** Concrete rule sets

    Small configurations in the format of the script, each with the
    instance the constructor builds from it (see [concrete_instances]). *)

(** A blocklist rule with nothing on the list, as in the shipped
    configuration. *)
Definition str_rule (allowEmpty : bool) : Validator :=
  mkValidator "str" allowEmpty (Some []) None None None None None.

(** A routing-number rule with the check switched on. *)
Definition aba_rule : Validator :=
  mkValidator "aba" true None None None (Some true) None None.

(** One field: a checked routing number that may be empty. *)
Definition aba_only_dict : ValidatorDict :=
  mkValidatorDict (Some "routing") (Some {[ 0%nat := aba_rule ]}).

Definition aba_only : CSVDataValidator :=
  mkCSVDataValidator "routing" {[ 0%nat := aba_rule ]} 1 0 {[ 0%nat := 0 ]} ∅.

(** Two fields: the first may be empty, the second may not. *)
Definition two_fields_dict : ValidatorDict :=
  mkValidatorDict (Some "pair")
    (Some (list_to_map [(0%nat, str_rule true); (1%nat, str_rule false)])).

Definition two_fields : CSVDataValidator :=
  mkCSVDataValidator "pair"
    (list_to_map [(0%nat, str_rule true); (1%nat, str_rule false)])
    2 1 (list_to_map [(0%nat, 0); (1%nat, 0)]) ∅.

(** One field, which may not be empty. *)
Definition one_field_dict : ValidatorDict :=
  mkValidatorDict (Some "single") (Some {[ 0%nat := str_rule false ]}).

Definition one_field : CSVDataValidator :=
  mkCSVDataValidator "single" {[ 0%nat := str_rule false ]} 1 0
    {[ 0%nat := 0 ]} ∅.

(** The same instance once the header [name] has been read. *)
Definition named_one_field : CSVDataValidator := getHeaderNames one_field ["name"].

(** Two fields, the second with a kind the script does not know. *)
Definition unknown_kind_dict : ValidatorDict :=
  mkValidatorDict (Some "legacy")
    (Some (list_to_map
             [(0%nat, str_rule false);
              (1%nat, mkValidator "bogus" true None None None None None None)])).

Definition unknown_kind : CSVDataValidator :=
  mkCSVDataValidator "legacy"
    (list_to_map
       [(0%nat, str_rule false);
        (1%nat, mkValidator "bogus" true None None None None None None)])
    2 1 (list_to_map [(0%nat, 0); (1%nat, 0)]) ∅.

(** A command line and an input for that configuration: a header and three
    data rows. *)
Definition legacy_argv : list string :=
  ["CSVDataValidator.py"; "legacy"; "in.csv"; "good.csv"; "bad.csv"].

Definition legacy_input : list (list string) :=
  [["name"; "code"]; [""; "x"]; ["Bob"; "x"]; ["Al"; "y"]].

(** The instance for ["novalidate"]. *)
Definition novalidate : CSVDataValidator :=
  mkCSVDataValidator "novalidate" ∅ 0 (-1) ∅ ∅.

(** ** Complete rules and what stops the loop *)

Definition is_some {A : Type} (o : option A) : bool :=
  match o with
  | Some _ => true
  | None => false
  end.

(** A rule of one of the four kinds that carries the keys its method
    reads. *)
Definition well_configured (v : Validator) : bool :=
  if String.eqb (type v) "str" then is_some (strings v)
  else if String.eqb (type v) "re" then is_some (compiledRegex v)
  else if String.eqb (type v) "len" then
    is_some (checkNumeric v) && is_some (range v)
  else if String.eqb (type v) "aba" then is_some (validate v)
  else false.

(** A checked routing-number rule on a field of nine characters that are
    not all decimal digits. *)
Definition aba_crash (v : Validator) (field : string) : bool :=
  String.eqb (type v) "aba"
  && match validate v with Some true => true | _ => false end
  && (len field =? 9)
  && negb (forallb decimal (chars field)).

(** What [validateRow] returns when the field at [index] did not pass:
    [r] is what [validateField] gave there. *)
Definition stop (self : CSVDataValidator) (index : nat) (r : result bool)
  : CSVDataValidator * result Z :=
  match r with
  | Exit msg => (self, Exit msg)
  | Raise e => (self, Raise e)
  | Ret _ =>
      match badFieldCounters self !! index with
      | None => (self, Raise KeyError)
      | Some count =>
          (set_badFieldCounters self
             (<[index := count + 1]> (badFieldCounters self)),
           Ret (Z.of_nat index))
      end
  end.

(** A position whose rule, of a known kind, does not allow an empty
    field. *)
Definition required (self : CSVDataValidator) (p : nat) : Prop :=
  exists v : Validator,
    validators self !! p = Some v
    /\ known_kind (type v) /\ allowEmptyFields v = false.

(** Two states of an instance that decide rows alike: the same name, rules
    and budget, and counters for the same positions. *)
Definition same_rules (s s' : CSVDataValidator) : Prop :=
  name s' = name s
  /\ validators s' = validators s
  /\ numFields s' = numFields s
  /\ maxEmptyFields s' = maxEmptyFields s
  /\ dom (badFieldCounters s') =@{gset nat} dom (badFieldCounters s).

(** The instance after a sequence of rows has been validated. *)
Definition after_rows (self : CSVDataValidator) (rows : list (list string))
  : CSVDataValidator :=
  foldl (fun s row => fst (validateRow s row)) self rows.

(** ** Rows as the script sorts them *)

(** The row is answered with [-1]. *)
Definition accepted (self : CSVDataValidator) (row : list string) : bool :=
  match snd (validateRow self row) with
  | Ret r => r =? -1
  | _ => false
  end.

(** The row is answered with the field index [i]. *)
Definition failed_at (self : CSVDataValidator) (i : nat) (row : list string)
  : bool :=
  match snd (validateRow self row) with
  | Ret r => r =? Z.of_nat i
  | _ => false
  end.

(** A record of the bad file: the row with one more column. *)
Definition annotated (written row : list string) : Prop :=
  exists message : string, written = row ++ [message].

(** ** The constructor *)

(** What the constructor makes of a rule: an ['re'] rule gets the compiled
    form of its pattern, any other rule is kept as it is. *)
Definition compiled (re_compile : string -> option (string -> bool))
  (v v' : Validator) : Prop :=
  if String.eqb (type v) "re" then
    exists (pattern : string) (c : string -> bool),
      regex v = Some pattern /\ re_compile pattern = Some c
      /\ v' = set_compiledRegex v c
  else v' = v.

(** A rule the constructor can take: an ['re'] rule has a pattern, and
    [re.compile] accepts it. *)
Definition compilable (re_compile : string -> option (string -> bool))
  (v : Validator) : Prop :=
  type v = "re" ->
  exists (pattern : string) (c : string -> bool),
    regex v = Some pattern /\ re_compile pattern = Some c.

(** ** The registry *)

(** Every entry of the registry is filed under its own name and was built
    by the constructor from one of the dictionaries [config]. *)
Definition registered (re_compile : string -> option (string -> bool))
  (config : list ValidatorDict) (reg : list (string * CSVDataValidator))
  : Prop :=
  forall (k : string) (v : CSVDataValidator),
    lookup_item k reg = Some v ->
    name v = k /\ exists d : ValidatorDict, d ∈ config /\ init re_compile d = Ret v.

(** ** Sample data *)

Definition sample_rows : list (list string) :=
  [["Bob"; "x"]; [""; ""]; ["Al"]; ["Eve"; " "]; ["Z"; "z"]].

Definition sample_run : Run :=
  mkRun (getHeaderNames two_fields ["name"; "code"]) [["name"; "code"]]
    [["name"; "code"; "ERROR_MESSAGE"]] 0 0 0.

(** One rule, at position 1: the header has one column, position 0. *)
Definition sparse : CSVDataValidator :=
  mkCSVDataValidator "sparse" {[ 1%nat := str_rule false ]} 1 0
    {[ 1%nat := 0 ]} ∅.

Definition starts_clean (s : string) : Prop :=
  match s with
  | EmptyString => True
  | String c _ => isspace c = false
  end.

(** An ['re'] rule followed by a rule of an unknown kind. *)
Definition re_then_unknown : gmap nat Validator :=
  list_to_map
    [(0%nat, mkValidator "re" false None (Some "^x") None None None None);
     (1%nat, mkValidator "bogus" true None None None None None None)].

(** Two fields: the first may be empty, the second has an unknown kind. *)
Definition optional_then_unknown : CSVDataValidator :=
  mkCSVDataValidator "mixed"
    (list_to_map
       [(0%nat, str_rule true);
        (1%nat, mkValidator "bogus" true None None None None None None)])
    2 1 (list_to_map [(0%nat, 0); (1%nat, 0)]) ∅.

(** * Properties *)

(** Discharges [passes self index fields] on a concrete row. *)
Ltac solve_passes :=
  let j := fresh "j" in
  let raw := fresh "raw" in
  let H := fresh "H" in
  intros j raw H;
  repeat (destruct j as [|j]; [injection H as <-; vm_compute; reflexivity|]);
  discriminate H.


(** ** Strings *)

Lemma lstrip_whitespace_only (s : string) :
  whitespace_only s -> lstrip s = "".
Proof.
  unfold whitespace_only, chars.
  induction s as [|c s IH]; intros Hws; [reflexivity|].
  cbn [list_ascii_of_string] in Hws. inversion Hws as [|? ? Hc Hs]; subst.
  cbn [lstrip]. rewrite Hc. auto.
Qed.

Lemma strip_whitespace_only (s : string) :
  whitespace_only s -> strip s = "".
Proof. intros Hws. unfold strip. now rewrite lstrip_whitespace_only. Qed.

Lemma len_0 (s : string) : len s = 0 <-> s = "".
Proof.
  unfold len. destruct s; cbn [String.length]; split; intros H;
    try reflexivity; try discriminate; lia.
Qed.

Lemma len_eqb_0_empty : (len "" =? 0) = true.
Proof. reflexivity. Qed.

Lemma len_eqb_0_nonempty (s : string) : s <> "" -> (len s =? 0) = false.
Proof. intros Hs. apply Z.eqb_neq. rewrite len_0. exact Hs. Qed.

(** ** The empty-field pre-check *)

Lemma allow_empty_verbatim (b : bool) :
  (if Bool.eqb b false then Ret false else Ret true) = Ret b.
Proof. now destruct b. Qed.

(** On the empty string each method stops at its first test. *)
Lemma validate_methods_empty (fieldValidator : Validator) :
  validateString fieldValidator "" = Ret (allowEmptyFields fieldValidator)
  /\ validateRegex fieldValidator "" = Ret (allowEmptyFields fieldValidator)
  /\ validateLength fieldValidator "" = Ret (allowEmptyFields fieldValidator)
  /\ validateABAChecksum fieldValidator "" = Ret (allowEmptyFields fieldValidator).
Proof.
  unfold validateString, validateRegex, validateLength, validateABAChecksum.
  cbv zeta. rewrite len_eqb_0_empty.
  repeat split; apply allow_empty_verbatim.
Qed.

Lemma validateField_empty (self : CSVDataValidator) (fieldIndex : nat)
  (fieldValidator : Validator) :
  validators self !! fieldIndex = Some fieldValidator ->
  known_kind (type fieldValidator) ->
  validateField self fieldIndex "" = Ret (allowEmptyFields fieldValidator).
Proof.
  intros Hlookup Hkind. unfold validateField. rewrite Hlookup.
  destruct (validate_methods_empty fieldValidator) as (Hs & Hr & Hl & Ha).
  destruct Hkind as [-> | [-> | [-> | ->]]]; cbn [String.eqb Ascii.eqb Bool.eqb];
    assumption.
Qed.

(** C2.  Whatever the kind of a rule and whatever its other parameters
    (present or absent), each of the four validation methods returns the
    rule's [allowEmptyFields] flag on the empty string, and so does
    [validateField] at a position whose rule has one of the four kinds. *)
Theorem empty_field_returns_allowEmptyFields :
  (forall fieldValidator : Validator,
      validateString fieldValidator "" = Ret (allowEmptyFields fieldValidator)
      /\ validateRegex fieldValidator "" = Ret (allowEmptyFields fieldValidator)
      /\ validateLength fieldValidator "" = Ret (allowEmptyFields fieldValidator)
      /\ validateABAChecksum fieldValidator ""
         = Ret (allowEmptyFields fieldValidator))
  /\ (forall (self : CSVDataValidator) (fieldIndex : nat)
        (fieldValidator : Validator),
        validators self !! fieldIndex = Some fieldValidator ->
        known_kind (type fieldValidator) ->
        validateField self fieldIndex ""
        = Ret (allowEmptyFields fieldValidator)).
Proof.
  split.
  - exact validate_methods_empty.
  - exact validateField_empty.
Qed.

Lemma empty_field_returns_allowEmptyFields_witness :
  validateField two_fields 0 "" = Ret true
  /\ validateField two_fields 1 "" = Ret false
  /\ validateField aba_only 0 "" = Ret true.
Proof.
  destruct empty_field_returns_allowEmptyFields as [_ Hfield].
  split; [|split].
  - apply (Hfield two_fields 0%nat (str_rule true) eq_refl). left. reflexivity.
  - apply (Hfield two_fields 1%nat (str_rule false) eq_refl). left. reflexivity.
  - apply (Hfield aba_only 0%nat aba_rule eq_refl). do 3 right. reflexivity.
Defined.

(** ** The ABA checksum *)

Lemma int_digit (d : Z) : 0 <= d <= 9 -> int (digit d) = Ret d.
Proof.
  intros Hd.
  assert (Hcases : d = 0 \/ d = 1 \/ d = 2 \/ d = 3 \/ d = 4 \/ d = 5
                   \/ d = 6 \/ d = 7 \/ d = 8 \/ d = 9) by lia.
  repeat (destruct Hcases as [-> | Hcases]; [reflexivity|]).
  subst d. reflexivity.
Qed.

Lemma ints_digits (ds : list Z) :
  Forall (fun d => 0 <= d <= 9) ds -> ints (chars (digits ds)) = Ret ds.
Proof.
  unfold chars, digits. rewrite list_ascii_of_string_of_list_ascii.
  induction 1 as [|d ds Hd _ IH]; [reflexivity|].
  cbn [map ints]. rewrite int_digit by exact Hd. cbn [bind].
  rewrite IH. reflexivity.
Qed.

Lemma len_digits (ds : list Z) : len (digits ds) = Z.of_nat (length ds).
Proof.
  unfold len, digits. f_equal.
  induction ds as [|d ds IH]; [reflexivity|].
  cbn [map string_of_list_ascii String.length length]. now rewrite IH.
Qed.

Lemma int_not_decimal (c : ascii) : decimal c = false -> int c = Raise ValueError.
Proof. unfold decimal, int. cbv zeta. now intros ->. Qed.

Lemma int_decimal (c : ascii) : decimal c = true -> int c = Ret (code c - 48).
Proof. unfold decimal, int. cbv zeta. now intros ->. Qed.

(** A character that is not a decimal digit makes the comprehension raise. *)
Lemma ints_not_decimal (cs : list ascii) :
  Exists (fun c => decimal c = false) cs -> ints cs = Raise ValueError.
Proof.
  induction cs as [|c cs IH]; intros Hex; [inversion Hex|].
  cbn [ints]. destruct (decimal c) eqn:Hc.
  - rewrite (int_decimal _ Hc). cbn [bind].
    inversion Hex as [? ? Hbad | ? ? Hrest]; subst; [congruence|].
    rewrite (IH Hrest). reflexivity.
  - rewrite (int_not_decimal _ Hc). reflexivity.
Qed.

(** With checking switched on, a nonempty field of nine characters one of
    which is not a decimal digit does not return: [ValueError] propagates. *)
Lemma validateABAChecksum_not_decimal (fieldValidator : Validator)
  (field : string) :
  validate fieldValidator = Some true ->
  len field = 9 ->
  Exists (fun c => decimal c = false) (chars field) ->
  validateABAChecksum fieldValidator field = Raise ValueError.
Proof.
  intros Hv Hlen Hex. unfold validateABAChecksum. cbv zeta.
  rewrite Hlen, Hv. cbn [Z.eqb getitem bind negb Pos.eqb].
  rewrite (ints_not_decimal _ Hex). reflexivity.
Qed.

(** C3.  With ["validate"] true: a field of nine decimal digits passes
    exactly when the weighted sum is 0 modulo 10; a nonempty field whose
    length is not 9 fails; and [490000018] passes. *)
Theorem validateABAChecksum_checksum (fieldValidator : Validator) :
  validate fieldValidator = Some true ->
  (forall d0 d1 d2 d3 d4 d5 d6 d7 d8 : Z,
      Forall (fun d => 0 <= d <= 9) [d0; d1; d2; d3; d4; d5; d6; d7; d8] ->
      validateABAChecksum fieldValidator
        (digits [d0; d1; d2; d3; d4; d5; d6; d7; d8])
      = Ret ((3 * (d0 + d3 + d6) + 7 * (d1 + d4 + d7) + (d2 + d5 + d8)) mod 10
             =? 0))
  /\ (forall field : string,
        field <> "" -> len field <> 9 ->
        validateABAChecksum fieldValidator field = Ret false)
  /\ validateABAChecksum fieldValidator "490000018" = Ret true.
Proof.
  intros Hv. split; [|split].
  - intros d0 d1 d2 d3 d4 d5 d6 d7 d8 Hds.
    unfold validateABAChecksum. cbv zeta.
    rewrite len_digits, Hv, (ints_digits _ Hds).
    change (Z.of_nat (length [d0; d1; d2; d3; d4; d5; d6; d7; d8])) with 9.
    cbn [Z.eqb Pos.eqb getitem bind negb]. unfold index.
    cbn [lookup list_lookup bind]. unfold checksum.
    destruct (_ =? 0); reflexivity.
  - intros field Hne Hlen. unfold validateABAChecksum. cbv zeta.
    rewrite (len_eqb_0_nonempty _ Hne), Hv. cbn [getitem bind].
    apply Z.eqb_neq in Hlen. rewrite Hlen. reflexivity.
  - unfold validateABAChecksum. cbv zeta. rewrite Hv. reflexivity.
Qed.

Lemma validateABAChecksum_checksum_witness :
  validateABAChecksum aba_rule (digits [0; 2; 1; 0; 0; 0; 0; 2; 1]) = Ret true
  /\ validateABAChecksum aba_rule "4900000180" = Ret false.
Proof.
  destruct (validateABAChecksum_checksum aba_rule eq_refl) as (H9 & Hlen & _).
  split.
  - apply (H9 0 2 1 0 0 0 0 2 1). repeat constructor; lia.
  - apply Hlen; [discriminate | vm_compute; discriminate].
Defined.

(** C4.  The claim fails on the code: with ["validate"] true the nine
    characters [12345678a] reach [int('a')], which raises [ValueError];
    the call does not return [False], and neither [validateRow] nor the row
    loop catches the exception. *)
Theorem validateABAChecksum_nondigit_raises :
  validateABAChecksum aba_rule "12345678a" = Raise ValueError
  /\ validateRow aba_only ["12345678a"] = (aba_only, Raise ValueError)
  /\ snd (main_loop (mkRun aba_only [] [] 0 0 0) [["12345678a"]; ["021000021"]])
     = Raise ValueError.
Proof. repeat split; vm_compute; reflexivity. Qed.

(** ** What the constructor establishes *)

Lemma init_for_frame (re_compile : string -> option (string -> bool))
  (items : list (nat * Validator)) :
  forall self self' : CSVDataValidator,
    init_for re_compile items self = Ret self' ->
    (forall kv, kv ∈ items -> kv.1 ∈ dom (validators self)) ->
    name self' = name self
    /\ numFields self' = numFields self
    /\ maxEmptyFields self' = maxEmptyFields self
    /\ fieldNames self' = fieldNames self
    /\ dom (validators self') =@{gset nat} dom (validators self)
    /\ dom (badFieldCounters self')
       =@{gset nat} dom (badFieldCounters self) ∪ list_to_set items.*1.
Proof.
  induction items as [|[fieldNum validator] rest IH]; intros self self' Hrun Hin.
  - cbn in Hrun. injection Hrun as <-. repeat split; set_solver.
  - cbn [init_for] in Hrun.
    assert (Hk : fieldNum ∈ dom (validators self)).
    { apply (Hin (fieldNum, validator)). left. }
    destruct (String.eqb (type validator) "re").
    + destruct (regex validator) as [pattern|]; [|discriminate].
      cbn [getitem bind] in Hrun.
      destruct (re_compile pattern) as [c|]; [|discriminate].
      apply IH in Hrun.
      * cbn [set_validators set_badFieldCounters name numFields maxEmptyFields
               fieldNames validators badFieldCounters] in Hrun.
        destruct Hrun as (Hn & Hf & Hm & Hh & Hv & Hc).
        rewrite Hn, Hf, Hm, Hh, Hv, Hc, dom_insert_L.
        rewrite dom_insert_L. repeat split; set_solver.
      * intros kv Hkv.
        cbn [set_validators set_badFieldCounters validators].
        rewrite dom_insert_L. apply elem_of_union_r. apply Hin. now right.
    + apply IH in Hrun.
      * cbn [set_badFieldCounters name numFields maxEmptyFields fieldNames
               validators badFieldCounters] in Hrun.
        destruct Hrun as (Hn & Hf & Hm & Hh & Hv & Hc).
        rewrite Hn, Hf, Hm, Hh, Hv, Hc, dom_insert_L.
        repeat split; set_solver.
      * intros kv Hkv. cbn [set_badFieldCounters validators].
        apply Hin. now right.
Qed.

(** Every instance the constructor returns is well formed, keeps the name
    and the field positions of its dictionary, and has no field names yet. *)
Lemma init_wf (re_compile : string -> option (string -> bool))
  (validatorDict : ValidatorDict) (self : CSVDataValidator) :
  init re_compile validatorDict = Ret self ->
  wf self
  /\ dict_name validatorDict = Some (name self)
  /\ (exists vs, dict_validators validatorDict = Some vs
                 /\ dom (validators self) =@{gset nat} dom vs)
  /\ fieldNames self = ∅.
Proof.
  unfold init. destruct (0 <? dict_len validatorDict); [|discriminate].
  destruct (dict_name validatorDict) as [n|]; [|discriminate].
  destruct (dict_validators validatorDict) as [vs|]; [|discriminate].
  cbn [getitem bind]. intros Hrun.
  apply init_for_frame in Hrun.
  - cbn [name numFields maxEmptyFields fieldNames validators badFieldCounters]
      in Hrun.
    destruct Hrun as (Hn & Hf & Hm & Hh & Hv & Hc).
    assert (Hsize : size (validators self) = size vs).
    { rewrite <- !size_dom. now rewrite Hv. }
    split; [split; [|split] | split; [|split]].
    + rewrite Hf, Hsize. reflexivity.
    + rewrite Hm, Hf. reflexivity.
    + rewrite Hc, Hv, dom_empty_L, left_id_L by apply _.
      apply set_eq. intros k.
      rewrite elem_of_list_to_set, elem_of_dom, list_elem_of_fmap.
      split.
      * intros ([k' v] & -> & Hkv). apply elem_of_map_to_list in Hkv. eauto.
      * intros [v Hkv]. exists (k, v). split; [reflexivity|].
        now apply elem_of_map_to_list.
    + now rewrite Hn.
    + exists vs. split; [reflexivity | exact Hv].
    + exact Hh.
  - intros [k v] Hkv. cbn [validators fst].
    apply elem_of_map_to_list in Hkv. apply elem_of_dom. eauto.
Qed.

(** A dictionary without ["re"] rules is accepted whatever the kinds of its
    rules are: the constructor compares ["type"] with ['re'] only. *)
Lemma init_for_no_re (re_compile : string -> option (string -> bool))
  (items : list (nat * Validator)) :
  Forall (fun kv => type kv.2 <> "re") items ->
  forall self : CSVDataValidator,
    exists self' : CSVDataValidator,
      init_for re_compile items self = Ret self'
      /\ validators self' = validators self
      /\ name self' = name self.
Proof.
  induction 1 as [|[fieldNum validator] rest Hty _ IH]; intros self.
  - exists self. repeat split.
  - cbn [init_for]. cbn [snd] in Hty.
    apply String.eqb_neq in Hty. rewrite Hty.
    destruct (IH (set_badFieldCounters self
                    (<[fieldNum := 0]> (badFieldCounters self))))
      as (self' & Hrun & Hv & Hn).
    exists self'. repeat split; assumption.
Qed.

Lemma getHeaderNames_frame (self : CSVDataValidator) (row : list string) :
  name (getHeaderNames self row) = name self
  /\ validators (getHeaderNames self row) = validators self
  /\ numFields (getHeaderNames self row) = numFields self
  /\ maxEmptyFields (getHeaderNames self row) = maxEmptyFields self
  /\ badFieldCounters (getHeaderNames self row) = badFieldCounters self.
Proof.
  unfold getHeaderNames. destruct (0 <? Z.of_nat (length row));
    repeat split.
Qed.

Lemma getHeaderNames_wf (self : CSVDataValidator) (row : list string) :
  wf self -> wf (getHeaderNames self row).
Proof.
  unfold wf. destruct (getHeaderNames_frame self row) as (_ & -> & -> & -> & ->).
  trivial.
Qed.

(** After [getHeaderNames], position [i] of the header is the name of
    field [i]. *)
Lemma getHeaderNames_for_lookup (fields : list string) :
  forall (index : nat) (fieldNames : gmap nat string) (i : nat),
    getHeaderNames_for index fields fieldNames !! i
    = if decide (index <= i < index + length fields)%nat
      then fields !! (i - index)%nat else fieldNames !! i.
Proof.
  induction fields as [|field rest IH]; intros index0 names i.
  - cbn. case_decide; [lia | reflexivity].
  - cbn [getHeaderNames_for length]. rewrite IH.
    repeat case_decide; try lia.
    + replace (i - index0)%nat with (S (i - S index0)) by lia. reflexivity.
    + assert (i = index0) as -> by lia.
      rewrite lookup_insert_eq, Nat.sub_diag. reflexivity.
    + rewrite lookup_insert_ne by lia. reflexivity.
Qed.

Lemma getHeaderNames_lookup (self : CSVDataValidator) (row : list string)
  (i : nat) (field : string) :
  row !! i = Some field ->
  fieldNames (getHeaderNames self row) !! i = Some field.
Proof.
  intros Hi. assert (i < length row)%nat by (eapply lookup_lt_Some; eauto).
  unfold getHeaderNames. destruct (Z.ltb_spec 0 (Z.of_nat (length row))); [|lia].
  cbn [set_fieldNames fieldNames]. rewrite getHeaderNames_for_lookup.
  case_decide; [|lia]. now rewrite Nat.sub_0_r.
Qed.

(** Past the header test, every position of a rule set other than
    ["novalidate"] has the header label as its name. *)
Lemma main_header_names (currentValidator0 : CSVDataValidator)
  (input rows : list (list string)) (run : Run) (i : nat) :
  name currentValidator0 <> "novalidate" ->
  main_header currentValidator0 input = Ret (run, rows) ->
  (i < size (validators currentValidator0))%nat ->
  exists (headerRow : list string) (fieldName : string),
    input = headerRow :: rows
    /\ headerRow !! i = Some fieldName
    /\ fieldNames (currentValidator run) !! i = Some fieldName.
Proof.
  intros Hname Hrun Hi. unfold main_header in Hrun.
  destruct input as [|headerRow rest]; [discriminate|].
  apply String.eqb_neq in Hname. rewrite Hname in Hrun. cbn [negb andb] in Hrun.
  destruct (Z.eqb_spec (Z.of_nat (length headerRow))
              (Z.of_nat (size (validators currentValidator0)))) as [Hlen|];
    [|discriminate].
  cbn [negb] in Hrun. injection Hrun as <- <-.
  destruct (lookup_lt_is_Some_2 headerRow i) as [fieldName Hfield]; [lia|].
  exists headerRow, fieldName. repeat split; [exact Hfield|].
  cbn [currentValidator]. now apply getHeaderNames_lookup.
Qed.

(** ** The row loop *)

Lemma count_empty_nonneg (fields : list string) : 0 <= count_empty fields.
Proof. unfold count_empty. lia. Qed.

Lemma count_empty_cons (raw : string) (fields : list string) :
  count_empty (raw :: fields)
  = (if is_empty_field raw then 1 else 0) + count_empty fields.
Proof.
  unfold count_empty. cbn [List.filter].
  destruct (is_empty_field raw); cbn [length]; lia.
Qed.


Lemma passes_cons (self : CSVDataValidator) (index : nat) (raw : string)
  (fields : list string) :
  passes self index (raw :: fields) ->
  validateField self index (strip raw) = Ret true
  /\ passes self (S index) fields.
Proof.
  intros Hp. split.
  - specialize (Hp 0%nat raw eq_refl). now rewrite Nat.add_0_r in Hp.
  - intros j r Hj. specialize (Hp (S j) r Hj).
    now rewrite Nat.add_succ_r in Hp.
Qed.

(** The loop over a prefix whose fields all pass: either the budget test
    fires inside the prefix, or the loop continues after it with the index
    and the count advanced. *)
Lemma validateRow_for_app (self : CSVDataValidator) (pre rest : list string) :
  forall (index : nat) (numEmptyFields : Z),
    passes self index pre ->
    validateRow_for self index numEmptyFields (pre ++ rest)
    = if budget_reached self numEmptyFields pre then (self, Ret (-3))
      else validateRow_for self (index + length pre)
             (numEmptyFields + count_empty pre) rest.
Proof.
  unfold budget_reached.
  induction pre as [|raw pre IH]; intros index0 n Hp.
  - cbn [app length]. change (count_empty []) with 0.
    cbn [Z.ltb Z.compare andb]. now rewrite Nat.add_0_r, Z.add_0_r.
  - apply passes_cons in Hp as [Hraw Hpre].
    cbn [app validateRow_for]. cbv zeta. rewrite Hraw.
    cbn [Bool.eqb negb]. rewrite count_empty_cons.
    pose proof (count_empty_nonneg pre) as Hc.
    unfold is_empty_field. cbn [length].
    rewrite Nat.add_succ_r, <- Nat.add_succ_l.
    destruct (len (strip raw) =? 0).
    + destruct (Z.leb_spec (maxEmptyFields self) (n + 1)) as [Hle|Hgt].
      * destruct (Z.ltb_spec 0 (1 + count_empty pre)); [|lia].
        destruct (Z.leb_spec (maxEmptyFields self) (n + (1 + count_empty pre)));
          [reflexivity | lia].
      * rewrite (IH _ _ Hpre).
        replace (n + 1 + count_empty pre) with (n + (1 + count_empty pre)) by lia.
        destruct (Z.ltb_spec 0 (count_empty pre));
          destruct (Z.ltb_spec 0 (1 + count_empty pre)); try lia;
          cbn [andb]; [reflexivity|].
        destruct (Z.leb_spec (maxEmptyFields self) (n + (1 + count_empty pre)));
          [lia | reflexivity].
    + rewrite (IH _ _ Hpre). rewrite !Z.add_0_l. reflexivity.
Qed.

(** A row whose fields all pass is decided by the budget test alone. *)
Lemma validateRow_for_passes (self : CSVDataValidator) (fields : list string)
  (index : nat) (numEmptyFields : Z) :
  passes self index fields ->
  validateRow_for self index numEmptyFields fields
  = (self, Ret (if budget_reached self numEmptyFields fields then -3 else -1)).
Proof.
  intros Hp. rewrite <- (app_nil_r fields) at 1.
  rewrite (validateRow_for_app _ _ _ _ _ Hp).
  destruct (budget_reached _ _ _); reflexivity.
Qed.

(** A failing field on a well-formed instance has a counter. *)
Lemma failing_field_has_counter (self : CSVDataValidator) (i : nat)
  (field : string) :
  wf self ->
  validateField self i field = Ret false ->
  exists count : Z, badFieldCounters self !! i = Some count.
Proof.
  intros (_ & _ & Hdom) Hfail.
  assert (Hin : i ∈ dom (validators self)).
  { apply elem_of_dom. unfold validateField in Hfail.
    destruct (validators self !! i); [eauto | discriminate]. }
  rewrite <- Hdom in Hin. now apply elem_of_dom in Hin.
Qed.

Lemma validateRow_shape (self : CSVDataValidator) (row : list string) :
  name self <> "novalidate" ->
  length row = size (validators self) ->
  validateRow self row = validateRow_for self 0 0 row.
Proof.
  intros Hname Hlen. unfold validateRow.
  apply String.eqb_neq in Hname. rewrite Hname, Hlen, Z.eqb_refl.
  reflexivity.
Qed.

(** A row split at position [i]: the fields before, the field there, and
    the fields after. *)
Lemma row_split (row : list string) (i : nat) (raw : string) :
  row !! i = Some raw ->
  row = take i row ++ raw :: drop (S i) row /\ length (take i row) = i.
Proof.
  intros Hi. split.
  - symmetry. now apply take_drop_middle.
  - apply length_take_le. apply lookup_lt_Some in Hi. lia.
Qed.

Lemma passes_take (self : CSVDataValidator) (row : list string) (i : nat) :
  (forall (j : nat) (r : string),
      (j < i)%nat -> row !! j = Some r ->
      validateField self j (strip r) = Ret true) ->
  passes self 0 (take i row).
Proof.
  intros Hbefore j r Hj. cbn [Nat.add].
  apply lookup_take_Some in Hj as [Hj Hlt]. eauto.
Qed.

(** ** Concrete rule sets *)

(** These are the instances the constructor builds from the dictionaries,
    whatever [re.compile] does. *)
Lemma concrete_instances (re_compile : string -> option (string -> bool)) :
  init re_compile two_fields_dict = Ret two_fields
  /\ init re_compile one_field_dict = Ret one_field
  /\ init re_compile unknown_kind_dict = Ret unknown_kind
  /\ init re_compile noValidateValidatorDict = Ret novalidate
  /\ init re_compile aba_only_dict = Ret aba_only.
Proof. repeat split; vm_compute; reflexivity. Qed.

Lemma concrete_wf :
  wf two_fields /\ wf one_field /\ wf unknown_kind /\ wf novalidate
  /\ wf aba_only.
Proof.
  pose proof (concrete_instances (fun _ => None)) as (H2 & H1 & Hu & Hn & Ha).
  repeat split; eapply init_wf; eassumption.
Qed.

(** ** Row shape *)

(** C6.  Under a name other than ["novalidate"], a row whose length differs
    from the number of configured rules, in either direction, is answered
    with [-2] and the instance is left as it was.  Nothing is assumed of the
    fields or of the rules, so no rule decides the outcome. *)
Theorem shape_mismatch_first (self : CSVDataValidator) (row : list string) :
  name self <> "novalidate" ->
  length row <> size (validators self) ->
  validateRow self row = (self, Ret RejectedShapeMismatch).
Proof.
  intros Hname Hlen. unfold validateRow.
  apply String.eqb_neq in Hname. rewrite Hname.
  destruct (Z.eqb_spec (Z.of_nat (length row))
              (Z.of_nat (size (validators self)))) as [Heq|_];
    [lia | reflexivity].
Qed.

Lemma shape_mismatch_first_witness :
  validateRow unknown_kind ["Bob"] = (unknown_kind, Ret RejectedShapeMismatch)
  /\ validateRow unknown_kind ["Bob"; "x"; ""]
     = (unknown_kind, Ret RejectedShapeMismatch).
Proof.
  split; apply shape_mismatch_first; vm_compute; discriminate.
Defined.

(** ** The rule set named novalidate *)

Lemma main_row_accepted (run : Run) (row : list string) :
  validateRow (currentValidator run) row = (currentValidator run, Ret Accepted) ->
  main_row run row
  = (mkRun (currentValidator run) (goodDataFile run ++ [row]) (badDataFile run)
       (goodRowCounter run + 1) (badRowCounter run) (totalRowCounter run + 1),
     Ret tt).
Proof. intros Hrow. unfold main_row. rewrite Hrow. reflexivity. Qed.

(** C7.  An instance named ["novalidate"] answers [-1] for every row and is
    left unchanged; the header test of the script lets every header through
    for it; and the row loop then writes every row, as it is, to the good
    file, counting it as good. *)
Theorem novalidate_accepts_every_row (self : CSVDataValidator) :
  name self = "novalidate" ->
  (forall row : list string, validateRow self row = (self, Ret Accepted))
  /\ (forall (headerRow : list string) (rows : list (list string)),
         main_header self (headerRow :: rows)
         = Ret (mkRun (getHeaderNames self headerRow) [headerRow]
                  [headerRow ++ ["ERROR_MESSAGE"]] 0 0 0, rows))
  /\ (forall (rows : list (list string)) (run : Run),
         currentValidator run = self ->
         main_loop run rows
         = (mkRun self (goodDataFile run ++ rows) (badDataFile run)
              (goodRowCounter run + Z.of_nat (length rows)) (badRowCounter run)
              (totalRowCounter run + Z.of_nat (length rows)),
            Ret tt)).
Proof.
  intros Hname.
  assert (Hrow : forall row, validateRow self row = (self, Ret Accepted)).
  { intros row. unfold validateRow. rewrite Hname. reflexivity. }
  split; [exact Hrow | split].
  - intros headerRow rows. unfold main_header. rewrite Hname. reflexivity.
  - induction rows as [|row rest IH]; intros run Hrun.
    + cbn [main_loop length Z.of_nat]. rewrite app_nil_r, !Z.add_0_r.
      destruct run; cbn in *; subst; reflexivity.
    + cbn [main_loop]. rewrite main_row_accepted by (rewrite Hrun; apply Hrow).
      rewrite IH by (cbn; exact Hrun).
      cbn [goodDataFile badDataFile goodRowCounter badRowCounter totalRowCounter].
      rewrite <- app_assoc. cbn [app length]. rewrite Nat2Z.inj_succ.
      do 2 f_equal; lia.
Qed.

Lemma novalidate_accepts_every_row_witness :
  validateRow novalidate [] = (novalidate, Ret Accepted)
  /\ validateRow novalidate ["a"; ""; " "] = (novalidate, Ret Accepted)
  /\ main_header novalidate [["h1"; "h2"]; ["a"]; []]
     = Ret (mkRun (getHeaderNames novalidate ["h1"; "h2"]) [["h1"; "h2"]]
              [["h1"; "h2"; "ERROR_MESSAGE"]] 0 0 0, [["a"]; []])
  /\ main_loop (mkRun novalidate [["h1"; "h2"]] [] 0 0 0) [["a"]; []]
     = (mkRun novalidate [["h1"; "h2"]; ["a"]; []] [] 2 0 2, Ret tt).
Proof.
  destruct (novalidate_accepts_every_row novalidate eq_refl)
    as (Hrow & Hhdr & Hloop).
  split; [apply Hrow | split; [apply Hrow | split; [apply Hhdr|]]].
  apply (Hloop [["a"]; []] (mkRun novalidate [["h1"; "h2"]] [] 0 0 0) eq_refl).
Defined.

(** ** The empty-field budget *)





(** ** The first failing field *)

(** The loop at a failing field, reached through a prefix that passes. *)
Lemma validateRow_for_first_failure (self : CSVDataValidator)
  (pre post : list string) (raw : string) (count : Z) :
  passes self 0 pre ->
  validateField self (length pre) (strip raw) = Ret false ->
  badFieldCounters self !! length pre = Some count ->
  validateRow_for self 0 0 (pre ++ raw :: post)
  = if budget_reached self 0 pre then (self, Ret (-3))
    else (set_badFieldCounters self
            (<[length pre := count + 1]> (badFieldCounters self)),
          Ret (Z.of_nat (length pre))).
Proof.
  intros Hp Hfail Hcount. rewrite (validateRow_for_app _ _ _ _ _ Hp).
  destruct (budget_reached self 0 pre); [reflexivity|].
  cbn [Nat.add validateRow_for]. cbv zeta. rewrite Hfail, Hcount. reflexivity.
Qed.

(** C5, as the code has it.  In a shape-correct row, let [i] be a position
    whose trimmed field fails its rule while every earlier field passes.
    If the budget test has not fired before [i] (no earlier field is
    trimmed-empty, or fewer than [maxEmptyFields] are), the answer is [i],
    the counter of [i] goes up by one, and this holds whether or not the
    field at [i] is itself empty.  If the budget test has fired before [i],
    the answer is [-3] and the instance is unchanged.  In both cases the
    answer is the same for every row that agrees with this one up to [i]:
    no position after [i] has a say. *)
Theorem first_failing_field (self : CSVDataValidator) (row : list string)
  (i : nat) (raw : string) :
  wf self ->
  name self <> "novalidate" ->
  length row = size (validators self) ->
  row !! i = Some raw ->
  validateField self i (strip raw) = Ret false ->
  (forall (j : nat) (r : string),
      (j < i)%nat -> row !! j = Some r ->
      validateField self j (strip r) = Ret true) ->
  (count_empty (take i row) = 0
   \/ count_empty (take i row) < maxEmptyFields self ->
   exists count : Z,
     badFieldCounters self !! i = Some count
     /\ validateRow self row
        = (set_badFieldCounters self
             (<[i := count + 1]> (badFieldCounters self)),
           Ret (RejectedFieldFailed i)))
  /\ (0 < count_empty (take i row)
      /\ maxEmptyFields self <= count_empty (take i row) ->
      validateRow self row = (self, Ret RejectedTooManyEmptyFields))
  /\ (forall row' : list string,
         length row' = length row ->
         take (S i) row' = take (S i) row ->
         validateRow self row' = validateRow self row).
Proof.
  intros Hwf Hname Hlen Hi Hfail Hbefore.
  destruct (failing_field_has_counter _ _ _ Hwf Hfail) as [count Hcount].
  pose proof (passes_take self row i Hbefore) as Hp.
  assert (Hrun : forall row' : list string,
             length row' = length row ->
             take (S i) row' = take (S i) row ->
             validateRow self row'
             = if budget_reached self 0 (take i row) then (self, Ret (-3))
               else (set_badFieldCounters self
                       (<[i := count + 1]> (badFieldCounters self)),
                     Ret (Z.of_nat i))).
  { intros row' Hlen' Hpre.
    assert (Hi' : row' !! i = Some raw).
    { rewrite <- (lookup_take_lt row' (S i) i) by lia.
      rewrite Hpre, lookup_take_lt by lia. exact Hi. }
    assert (Hpre' : take i row' = take i row).
    { replace i with (Nat.min i (S i)) at 1 2 by lia.
      rewrite <- !take_take, Hpre. reflexivity. }
    destruct (row_split row' i raw Hi') as [Hsplit Hleni].
    rewrite (validateRow_shape self row' Hname) by congruence.
    rewrite Hsplit, Hpre'.
    destruct (row_split row i raw Hi) as [_ Hlent].
    rewrite <- Hlent in Hfail, Hcount.
    rewrite (validateRow_for_first_failure _ _ _ _ _ Hp Hfail Hcount).
    rewrite Hlent. reflexivity. }
  pose proof (count_empty_nonneg (take i row)) as Hnonneg.
  split; [|split].
  - intros Hfree. exists count. split; [exact Hcount|].
    rewrite (Hrun row eq_refl eq_refl). unfold budget_reached.
    rewrite Z.add_0_l.
    destruct (Z.ltb_spec 0 (count_empty (take i row))); cbn [andb];
      [|reflexivity].
    destruct (Z.leb_spec (maxEmptyFields self) (count_empty (take i row)));
      [lia | reflexivity].
  - intros [Hpos Hmax]. rewrite (Hrun row eq_refl eq_refl).
    unfold budget_reached. rewrite Z.add_0_l.
    destruct (Z.ltb_spec 0 (count_empty (take i row))); [|lia].
    destruct (Z.leb_spec (maxEmptyFields self) (count_empty (take i row)));
      [reflexivity | lia].
  - intros row' Hlen' Hpre.
    rewrite (Hrun row' Hlen' Hpre), (Hrun row eq_refl eq_refl). reflexivity.
Qed.

Lemma first_failing_field_witness :
  (exists count : Z,
      badFieldCounters two_fields !! 1%nat = Some count
      /\ validateRow two_fields ["Bob"; " "]
         = (set_badFieldCounters two_fields
              (<[1%nat := count + 1]> (badFieldCounters two_fields)),
            Ret (RejectedFieldFailed 1)))
  /\ validateRow two_fields [""; " "]
     = (two_fields, Ret RejectedTooManyEmptyFields)
  /\ validateRow unknown_kind [""; "x"] = validateRow unknown_kind [""; "y"].
Proof.
  destruct concrete_wf as (Hwf2 & _ & Hwfu & _).
  split; [|split].
  - refine (proj1 (first_failing_field two_fields ["Bob"; " "] 1 " "
                     Hwf2 _ eq_refl eq_refl eq_refl _) _).
    + vm_compute; discriminate.
    + intros j r Hj Hr. destruct j as [|j]; [|lia].
      injection Hr as <-. reflexivity.
    + left. reflexivity.
  - refine (proj1 (proj2 (first_failing_field two_fields [""; " "] 1 " "
                            Hwf2 _ eq_refl eq_refl eq_refl _)) _).
    + vm_compute; discriminate.
    + intros j r Hj Hr. destruct j as [|j]; [|lia].
      injection Hr as <-. reflexivity.
    + vm_compute. split; [reflexivity | discriminate].
  - refine (proj2 (proj2 (first_failing_field unknown_kind [""; "y"] 0 ""
                            Hwfu _ eq_refl eq_refl eq_refl _))
              [""; "x"] eq_refl eq_refl).
    + vm_compute; discriminate.
    + intros j r Hj. lia.
Defined.

(** C5, as stated, fails on the code.  Under [two_fields] the row [""; ""]
    has its lowest failing position at 1 (field 0 may be empty, field 1 may
    not), but the empty field at 0 already reaches the budget of 1, and the
    answer is [-3], not 1. *)
Lemma first_failing_field_counterexample :
  name two_fields <> "novalidate"
  /\ length [""; ""] = size (validators two_fields)
  /\ validateField two_fields 0 (strip "") = Ret true
  /\ validateField two_fields 1 (strip "") = Ret false
  /\ validateRow two_fields [""; ""]
     = (two_fields, Ret RejectedTooManyEmptyFields)
  /\ snd (validateRow two_fields [""; ""]) <> Ret (RejectedFieldFailed 1).
Proof.
  repeat split; try (vm_compute; reflexivity); vm_compute; discriminate.
Qed.

(** ** What validating a row changes *)

Lemma validateRow_for_change (self : CSVDataValidator) (fields : list string) :
  forall (index : nat) (numEmptyFields : Z),
    fst (validateRow_for self index numEmptyFields fields) = self
    \/ counted_failure self
         (fst (validateRow_for self index numEmptyFields fields))
         (snd (validateRow_for self index numEmptyFields fields)).
Proof.
  induction fields as [|raw rest IH]; intros index0 n; [now left|].
  cbn [validateRow_for]. cbv zeta.
  destruct (validateField self index0 (strip raw)) as [[|]| |];
    cbn [Bool.eqb negb]; try (now left).
  - destruct (len (strip raw) =? 0); [|apply IH].
    destruct (maxEmptyFields self <=? n + 1); [now left | apply IH].
  - destruct (badFieldCounters self !! index0) as [count|] eqn:Hcount;
      [|now left].
    right. exists index0, count. repeat split. exact Hcount.
Qed.

Lemma validateRow_change (self : CSVDataValidator) (row : list string) :
  fst (validateRow self row) = self
  \/ counted_failure self (fst (validateRow self row)) (snd (validateRow self row)).
Proof.
  unfold validateRow. destruct (String.eqb (name self) "novalidate");
    [now left|].
  destruct (negb _); [now left | apply validateRow_for_change].
Qed.

Lemma validateRow_frame (self : CSVDataValidator) (row : list string) :
  name (fst (validateRow self row)) = name self
  /\ validators (fst (validateRow self row)) = validators self
  /\ numFields (fst (validateRow self row)) = numFields self
  /\ maxEmptyFields (fst (validateRow self row)) = maxEmptyFields self
  /\ fieldNames (fst (validateRow self row)) = fieldNames self.
Proof.
  destruct (validateRow_change self row) as [-> | (i & count & _ & _ & ->)];
    repeat split.
Qed.

Lemma validateRow_wf (self : CSVDataValidator) (row : list string) :
  wf self -> wf (fst (validateRow self row)).
Proof.
  intros Hwf.
  destruct (validateRow_change self row) as [-> | (i & count & _ & Hc & ->)];
    [exact Hwf|].
  destruct Hwf as (Hn & Hm & Hdom). repeat split; cbn; try assumption.
  rewrite dom_insert_L, <- Hdom.
  assert (i ∈ dom (badFieldCounters self)) by (apply elem_of_dom; eauto).
  set_solver.
Qed.

Lemma main_row_validator (run : Run) (row : list string) :
  currentValidator (fst (main_row run row))
  = fst (validateRow (currentValidator run) row).
Proof.
  unfold main_row.
  destruct (validateRow (currentValidator run) row) as [validator outcome].
  destruct outcome as [res| |]; [|reflexivity..].
  destruct (res =? -1); [reflexivity|].
  destruct (res =? -2); [reflexivity|].
  destruct (res =? -3); [reflexivity|].
  destruct (bad_data_message validator row res); reflexivity.
Qed.

Lemma main_loop_fieldNames (rows : list (list string)) :
  forall run : Run,
    fieldNames (currentValidator (fst (main_loop run rows)))
    = fieldNames (currentValidator run).
Proof.
  induction rows as [|row rest IH]; intros run; [reflexivity|].
  cbn [main_loop].
  pose proof (main_row_validator run row) as Hv.
  destruct (validateRow_frame (currentValidator run) row) as (_ & _ & _ & _ & Hf).
  rewrite <- Hv in Hf.
  destruct (main_row run row) as [run' [[]| |]]; cbn [fst] in *;
    [rewrite IH|..]; exact Hf.
Qed.


(** ** Unknown rule kinds *)

Lemma known_kind_dec (t : string) :
  ~ known_kind t ->
  String.eqb t "str" = false /\ String.eqb t "re" = false
  /\ String.eqb t "len" = false /\ String.eqb t "aba" = false.
Proof.
  unfold known_kind. intros Hk.
  repeat split; apply String.eqb_neq; intros ->; apply Hk; auto.
Qed.

Lemma validateField_unknown_kind (self : CSVDataValidator) (i : nat)
  (fieldValidator : Validator) (field : string) :
  validators self !! i = Some fieldValidator ->
  ~ known_kind (type fieldValidator) ->
  validateField self i field
  = Exit ("ERROR!! BAD Validator Type" +:+ type fieldValidator).
Proof.
  intros Hi Hk. unfold validateField. rewrite Hi.
  destruct (known_kind_dec _ Hk) as (-> & -> & -> & ->). reflexivity.
Qed.

(** The loop stops where a row does not return. *)
Lemma main_loop_app_exit (rows rest : list (list string)) (row : list string) :
  forall (run run' : Run) (validator : CSVDataValidator) (msg : string),
    main_loop run rows = (run', Ret tt) ->
    validateRow (currentValidator run') row = (validator, Exit msg) ->
    main_loop run (rows ++ row :: rest)
    = (mkRun validator (goodDataFile run') (badDataFile run')
         (goodRowCounter run') (badRowCounter run') (totalRowCounter run' + 1),
       Exit msg).
Proof.
  induction rows as [|r rows IH]; intros run run' validator msg Hloop Hrow.
  - cbn in Hloop. injection Hloop as <-.
    cbn [app main_loop]. unfold main_row. rewrite Hrow. reflexivity.
  - cbn [app main_loop] in *.
    destruct (main_row run r) as [run1 [[]| |]]; try discriminate.
    eapply IH; eassumption.
Qed.

(** C8, as stated, fails on the code.  The dictionary with the unknown kind
    ["bogus"] at position 1 is constructed without error; the run over
    [legacy_input] writes the header, rejects the first data row at field 0
    and writes it to the bad file, and only then, at the second data row,
    exits with the message about the kind. *)
Lemma unknown_kind_exits_when_reached_counterexample :
  init (fun _ => None) unknown_kind_dict = Ret unknown_kind
  /\ snd (main (fun _ => None) [unknown_kind_dict] legacy_argv legacy_input)
     = Exit "ERROR!! BAD Validator Typebogus"
  /\ badDataFile
       <$> fst (main (fun _ => None) [unknown_kind_dict] legacy_argv legacy_input)
     = Some [["name"; "code"; "ERROR_MESSAGE"];
             [""; "x"; "BAD DATA IN FIELD: name VALUE: EMPTY"]]
  /\ totalRowCounter
       <$> fst (main (fun _ => None) [unknown_kind_dict] legacy_argv legacy_input)
     = Some 2.
Proof. repeat split; vm_compute; reflexivity. Qed.

(** ** The message of a rejected field *)

Lemma index_int_of_nat {A : Type} (l : list A) (i : nat) (a : A) :
  l !! i = Some a -> index_int l (Z.of_nat i) = Ret a.
Proof.
  intros Hi. unfold index_int, index.
  destruct (Z.leb_spec 0 (Z.of_nat i)); [|lia].
  now rewrite Nat2Z.id, Hi.
Qed.

Lemma getitem_int_of_nat {A : Type} (m : gmap nat A) (i : nat) (a : A) :
  m !! i = Some a -> getitem_int m (Z.of_nat i) = Ret a.
Proof.
  intros Hi. unfold getitem_int.
  destruct (Z.leb_spec 0 (Z.of_nat i)); [|lia].
  now rewrite Nat2Z.id, Hi.
Qed.

Lemma whitespace_only_fails_required (self : CSVDataValidator) (i : nat)
  (fieldValidator : Validator) (raw : string) :
  validators self !! i = Some fieldValidator ->
  known_kind (type fieldValidator) ->
  allowEmptyFields fieldValidator = false ->
  whitespace_only raw ->
  validateField self i (strip raw) = Ret false.
Proof.
  intros Hi Hk Hallow Hws. rewrite (strip_whitespace_only _ Hws).
  rewrite (validateField_empty self i fieldValidator Hi Hk), Hallow.
  reflexivity.
Qed.

(** C10.  When [validateRow] answers with the field index [i], the script
    appends to the row the message built from the name of field [i] and
    from the field as it was read: the test is on the length of the raw
    field, not of the trimmed one.  A field of whitespace only is not
    empty, trims to the empty string, fails a rule of a known kind that
    does not allow empty fields, and is written in the message as it is,
    not as [EMPTY]. *)
Theorem bad_data_message_uses_raw_field (run : Run) (row : list string)
  (i : nat) (raw fieldName : string) (validator : CSVDataValidator) :
  validateRow (currentValidator run) row
  = (validator, Ret (RejectedFieldFailed i)) ->
  row !! i = Some raw ->
  fieldNames validator !! i = Some fieldName ->
  main_row run row
  = (mkRun validator (goodDataFile run)
       (badDataFile run
        ++ [row ++ ["BAD DATA IN FIELD: " +:+ fieldName +:+ " VALUE: "
                    +:+ (if 0 <? len raw then raw else "EMPTY")]])
       (goodRowCounter run) (badRowCounter run + 1) (totalRowCounter run + 1),
     Ret tt)
  /\ (raw <> "" -> whitespace_only raw ->
      strip raw = ""
      /\ (if 0 <? len raw then raw else "EMPTY") = raw
      /\ forall fieldValidator : Validator,
          validators (currentValidator run) !! i = Some fieldValidator ->
          known_kind (type fieldValidator) ->
          allowEmptyFields fieldValidator = false ->
          validateField (currentValidator run) i (strip raw) = Ret false).
Proof.
  intros Hrow Hi Hname. split.
  - unfold main_row. rewrite Hrow. unfold RejectedFieldFailed.
    destruct (Z.eqb_spec (Z.of_nat i) (-1)); [lia|].
    destruct (Z.eqb_spec (Z.of_nat i) (-2)); [lia|].
    destruct (Z.eqb_spec (Z.of_nat i) (-3)); [lia|].
    unfold bad_data_message.
    rewrite (index_int_of_nat _ _ _ Hi), (getitem_int_of_nat _ _ _ Hname).
    cbn [bind]. destruct (0 <? len raw); reflexivity.
  - intros Hne Hws. split; [now apply strip_whitespace_only | split].
    + assert (len raw <> 0) by (rewrite len_0; exact Hne).
      unfold len in *. destruct (Z.ltb_spec 0 (Z.of_nat (String.length raw)));
        [reflexivity | lia].
    + intros fv Hfv Hk Hallow.
      eapply whitespace_only_fails_required; eassumption.
Qed.

Lemma bad_data_message_uses_raw_field_witness :
  main_row (mkRun named_one_field [["name"]] [["name"; "ERROR_MESSAGE"]] 0 0 0)
    ["  "]
  = (mkRun (fst (validateRow named_one_field ["  "])) [["name"]]
       [["name"; "ERROR_MESSAGE"]; ["  "; "BAD DATA IN FIELD: name VALUE:   "]]
       0 1 1,
     Ret tt)
  /\ strip "  " = ""
  /\ validateField named_one_field 0 (strip "  ") = Ret false.
Proof.
  pose proof (bad_data_message_uses_raw_field
                (mkRun named_one_field [["name"]] [["name"; "ERROR_MESSAGE"]] 0 0 0)
                ["  "] 0 "  " "name" (fst (validateRow named_one_field ["  "]))
                eq_refl eq_refl eq_refl) as [Hmsg Hws].
  split; [exact Hmsg|].
  destruct Hws as (Hstrip & _ & Hfail).
  - discriminate.
  - repeat constructor.
  - split; [exact Hstrip|].
    apply (Hfail (str_rule false) eq_refl); [left; reflexivity | reflexivity].
Defined.

(** * Further properties *)

(** ** What a single field check can do *)

Lemma length_chars (s : string) : length (chars s) = String.length s.
Proof.
  unfold chars. induction s as [|c s IH]; [reflexivity|].
  cbn [list_ascii_of_string length String.length]. now rewrite IH.
Qed.

Lemma ints_decimal (cs : list ascii) :
  forallb decimal cs = true ->
  exists ds : list Z, ints cs = Ret ds /\ length ds = length cs.
Proof.
  induction cs as [|c cs IH]; intros Hall.
  - exists []. split; reflexivity.
  - cbn [forallb] in Hall. apply andb_prop in Hall as [Hc Hcs].
    destruct (IH Hcs) as (ds & Hds & Hlen).
    exists (code c - 48 :: ds). cbn [ints].
    rewrite (int_decimal _ Hc), Hds. cbn [bind length]. now rewrite Hlen.
Qed.

Lemma forallb_false_Exists {A : Type} (p : A -> bool) (l : list A) :
  forallb p l = false -> Exists (fun a => p a = false) l.
Proof.
  induction l as [|a l IH]; [discriminate|].
  cbn [forallb]. destruct (p a) eqn:Ha; cbn [andb]; intros H.
  - right. auto.
  - left. exact Ha.
Qed.

(** Nine converted digits are enough for the nine subscripts. *)
Lemma checksum_of_nine (ds : list Z) :
  length ds = 9%nat ->
  exists b : bool,
    (d0 <~ index ds 0 ;; d3 <~ index ds 3 ;; d6 <~ index ds 6 ;;
     d1 <~ index ds 1 ;; d4 <~ index ds 4 ;; d7 <~ index ds 7 ;;
     d2 <~ index ds 2 ;; d5 <~ index ds 5 ;; d8 <~ index ds 8 ;;
     if negb (checksum d0 d1 d2 d3 d4 d5 d6 d7 d8 =? 0) then Ret false
     else Ret true) = Ret b.
Proof.
  intros Hlen.
  do 9 (destruct ds as [|? ds]; [discriminate|]).
  destruct ds; [|discriminate].
  unfold index. cbn [lookup list_lookup bind].
  destruct (negb _); eauto.
Qed.

Lemma validateABAChecksum_outcome (v : Validator) (field : string) :
  is_some (validate v) = true ->
  validateABAChecksum v field
  = (if match validate v with Some true => true | _ => false end
        && (len field =? 9) && negb (forallb decimal (chars field))
     then Raise ValueError else validateABAChecksum v field)
  /\ (match validate v with Some true => true | _ => false end
      && (len field =? 9) && negb (forallb decimal (chars field)) = false ->
      exists b : bool, validateABAChecksum v field = Ret b).
Proof.
  intros Hv. destruct (validate v) as [doValidate|] eqn:Hval; [|discriminate].
  unfold validateABAChecksum. cbv zeta. rewrite Hval. cbn [getitem bind].
  destruct (Z.eqb_spec (len field) 0) as [H0|H0].
  - assert ((len field =? 9) = false) as -> by (apply Z.eqb_neq; lia).
    rewrite andb_false_r. cbn [andb].
    split; [reflexivity|]. intros _. rewrite allow_empty_verbatim. eauto.
  - destruct doValidate; cbn [andb]; [|split; eauto].
    destruct (Z.eqb_spec (len field) 9) as [H9|H9]; cbn [negb andb];
      [|split; eauto].
    destruct (forallb decimal (chars field)) eqn:Hdec; cbn [negb].
    + split; [reflexivity|]. intros _.
      destruct (ints_decimal _ Hdec) as (ds & Hds & Hlen).
      rewrite Hds. cbn [bind]. apply checksum_of_nine.
      rewrite Hlen, length_chars. unfold len in H9. lia.
    + rewrite (ints_not_decimal _ (forallb_false_Exists _ _ Hdec)).
      split; [reflexivity | discriminate].
Qed.

Lemma validateField_complete_rule (self : CSVDataValidator) (i : nat)
  (v : Validator) (field : string) :
  validators self !! i = Some v ->
  well_configured v = true ->
  (aba_crash v field = true -> validateField self i field = Raise ValueError)
  /\ (aba_crash v field = false ->
      exists b : bool, validateField self i field = Ret b).
Proof.
  intros Hi Hwc. unfold validateField. rewrite Hi.
  unfold well_configured in Hwc. unfold aba_crash.
  destruct (String.eqb (type v) "str") eqn:Hstr.
  { assert (String.eqb (type v) "aba" = false) as ->.
    { apply String.eqb_eq in Hstr. rewrite Hstr. reflexivity. }
    cbn [andb]. split; [discriminate|]. intros _.
    unfold validateString. destruct (len field =? 0).
    - rewrite allow_empty_verbatim. eauto.
    - destruct (strings v); [|discriminate]. cbn [getitem bind].
      destruct (bool_decide _); eauto. }
  destruct (String.eqb (type v) "re") eqn:Hre.
  { assert (String.eqb (type v) "aba" = false) as ->.
    { apply String.eqb_eq in Hre. rewrite Hre. reflexivity. }
    cbn [andb]. split; [discriminate|]. intros _.
    unfold validateRegex. destruct (len field =? 0).
    - rewrite allow_empty_verbatim. eauto.
    - destruct (compiledRegex v); [|discriminate]. cbn [getitem bind].
      destruct (negb _); eauto. }
  destruct (String.eqb (type v) "len") eqn:Hlen.
  { assert (String.eqb (type v) "aba" = false) as ->.
    { apply String.eqb_eq in Hlen. rewrite Hlen. reflexivity. }
    cbn [andb]. split; [discriminate|]. intros _.
    unfold validateLength. cbv zeta. destruct (len field =? 0).
    - rewrite allow_empty_verbatim. eauto.
    - apply andb_prop in Hwc as [Hn Hr].
      destruct (checkNumeric v); [|discriminate].
      destruct (range v) as [[lo hi]|]; [|discriminate]. cbn [getitem bind].
      repeat match goal with |- context [if ?c then _ else _] =>
               destruct c end; eauto. }
  destruct (String.eqb (type v) "aba") eqn:Haba; [|discriminate].
  cbn [andb].
  destruct (validateABAChecksum_outcome v field Hwc) as [Hcrash Hret].
  split.
  - intros Hc. rewrite Hcrash, Hc. reflexivity.
  - exact Hret.
Qed.

(** X1.  A rule that carries the keys of its kind has only one way not
    to return: a checked routing number of nine characters, one of which is
    not a decimal digit, raises [ValueError].  In every other case
    [validateField] returns a boolean. *)
Theorem validateField_outcome (self : CSVDataValidator) (i : nat)
  (v : Validator) (field : string) :
  validators self !! i = Some v ->
  well_configured v = true ->
  (aba_crash v field = true -> validateField self i field = Raise ValueError)
  /\ (aba_crash v field = false ->
      exists b : bool, validateField self i field = Ret b).
Proof. apply validateField_complete_rule. Qed.

Lemma validateField_outcome_witness :
  validateField aba_only 0 "12x456789" = Raise ValueError
  /\ exists b : bool, validateField two_fields 1 "x" = Ret b.
Proof.
  split.
  - apply (proj1 (validateField_outcome aba_only 0 aba_rule "12x456789"
                    eq_refl eq_refl)).
    reflexivity.
  - apply (proj2 (validateField_outcome two_fields 1 (str_rule false) "x"
                    eq_refl eq_refl)).
    reflexivity.
Defined.

(** ** The routing-number checksum as an error-detecting code *)

Lemma validateABAChecksum_digits (v : Validator)
  (d0 d1 d2 d3 d4 d5 d6 d7 d8 : Z) :
  validate v = Some true ->
  Forall (fun d => 0 <= d <= 9) [d0; d1; d2; d3; d4; d5; d6; d7; d8] ->
  validateABAChecksum v (digits [d0; d1; d2; d3; d4; d5; d6; d7; d8])
  = Ret ((3 * (d0 + d3 + d6) + 7 * (d1 + d4 + d7) + (d2 + d5 + d8)) mod 10
         =? 0).
Proof.
  intros Hv Hds. unfold validateABAChecksum. cbv zeta.
  rewrite len_digits, Hv, (ints_digits _ Hds).
  change (Z.of_nat (length [d0; d1; d2; d3; d4; d5; d6; d7; d8])) with 9.
  cbn [Z.eqb Pos.eqb getitem bind negb]. unfold index.
  cbn [lookup list_lookup bind]. unfold checksum.
  destruct (_ =? 0); reflexivity.
Qed.

(** X2.  The checksum detects every single-digit error.  If a sequence of
    nine decimal digits passes the check, replacing any one of its digits
    by a different decimal digit gives a sequence that fails it. *)
Theorem aba_detects_single_digit_error (v : Validator) (ds : list Z)
  (k : nat) (d d' : Z) :
  validate v = Some true ->
  length ds = 9%nat ->
  Forall (fun x => 0 <= x <= 9) ds ->
  ds !! k = Some d ->
  0 <= d' <= 9 ->
  d' <> d ->
  validateABAChecksum v (digits ds) = Ret true ->
  validateABAChecksum v (digits (<[k := d']> ds)) = Ret false.
Proof.
  intros Hv Hlen Hds Hk Hd' Hne Hok.
  do 9 (destruct ds as [|? ds]; [discriminate|]).
  destruct ds; [|discriminate].
  rewrite (validateABAChecksum_digits _ _ _ _ _ _ _ _ _ _ Hv Hds) in Hok.
  injection Hok as Hok. apply Z.eqb_eq in Hok.
  repeat match goal with H : Forall _ (_ :: _) |- _ =>
           apply Forall_cons in H as [? H] end.
  do 9 (destruct k as [|k];
        [ cbn in Hk; injection Hk as <-; cbn [insert list_insert] in *;
          rewrite validateABAChecksum_digits
            by (assumption
                || (repeat (constructor; [assumption|]); constructor));
          f_equal; apply Z.eqb_neq;
          revert Hok; Z.div_mod_to_equations; lia
        | ]).
  cbn in Hk. discriminate Hk.
Qed.

Lemma aba_detects_single_digit_error_witness :
  validateABAChecksum aba_rule (digits [0; 2; 1; 0; 0; 0; 0; 2; 1]) = Ret true
  /\ validateABAChecksum aba_rule (digits (<[4%nat := 7]> [0; 2; 1; 0; 0; 0; 0; 2; 1]))
     = Ret false.
Proof.
  split; [reflexivity|].
  apply (aba_detects_single_digit_error aba_rule [0; 2; 1; 0; 0; 0; 0; 2; 1]
           4 0 7 eq_refl eq_refl).
  - repeat constructor; lia.
  - reflexivity.
  - lia.
  - lia.
  - reflexivity.
Defined.

(** ** Where the row loop stops *)

Lemma passes_cons_intro (self : CSVDataValidator) (index : nat) (raw : string)
  (fields : list string) :
  validateField self index (strip raw) = Ret true ->
  passes self (S index) fields ->
  passes self index (raw :: fields).
Proof.
  intros Hraw Hrest [|j] r Hj.
  - injection Hj as <-. now rewrite Nat.add_0_r.
  - rewrite Nat.add_succ_r. apply (Hrest j r Hj).
Qed.

Lemma passes_nil (self : CSVDataValidator) (index : nat) : passes self index [].
Proof. intros j r Hj. discriminate Hj. Qed.

Lemma budget_reached_cons (self : CSVDataValidator) (n : Z) (raw : string)
  (fields : list string) :
  budget_reached self n (raw :: fields)
  = if is_empty_field raw
    then (maxEmptyFields self <=? n + 1) || budget_reached self (n + 1) fields
    else budget_reached self n fields.
Proof.
  unfold budget_reached. rewrite count_empty_cons.
  pose proof (count_empty_nonneg fields).
  destruct (is_empty_field raw); [|now rewrite !Z.add_0_l].
  replace (n + 1 + count_empty fields) with (n + (1 + count_empty fields)) by lia.
  destruct (Z.ltb_spec 0 (1 + count_empty fields)); [|lia].
  destruct (Z.ltb_spec 0 (count_empty fields));
    destruct (Z.leb_spec (maxEmptyFields self) (n + 1));
    destruct (Z.leb_spec (maxEmptyFields self) (n + (1 + count_empty fields)));
    cbn [andb orb]; try reflexivity; lia.
Qed.

(** The three ways the loop ends: at the end of the row, at an empty field
    that reaches the budget, or at a field that does not pass. *)
Lemma validateRow_for_inv (self : CSVDataValidator) (fields : list string) :
  forall (index : nat) (n : Z),
    (passes self index fields
     /\ budget_reached self n fields = false
     /\ validateRow_for self index n fields = (self, Ret (-1)))
    \/ (exists (pre : list string) (raw : string) (post : list string),
          fields = pre ++ raw :: post
          /\ passes self index (pre ++ [raw])
          /\ is_empty_field raw = true
          /\ budget_reached self n pre = false
          /\ maxEmptyFields self <= n + count_empty (pre ++ [raw])
          /\ validateRow_for self index n fields = (self, Ret (-3)))
    \/ (exists (pre : list string) (raw : string) (post : list string),
          fields = pre ++ raw :: post
          /\ passes self index pre
          /\ budget_reached self n pre = false
          /\ validateField self (index + length pre) (strip raw) <> Ret true
          /\ validateRow_for self index n fields
             = stop self (index + length pre)
                 (validateField self (index + length pre) (strip raw))).
Proof.
  induction fields as [|raw rest IH]; intros index0 n.
  - left. split; [apply passes_nil | split; reflexivity].
  - cbn [validateRow_for]. cbv zeta.
    destruct (validateField self index0 (strip raw)) as [[|]| |] eqn:Hraw;
      cbn [Bool.eqb negb].
    + (* the field passes *)
      assert (Hlift : forall m : Z,
                 budget_reached self n [raw] = false ->
                 (if is_empty_field raw then m = n + 1 else m = n) ->
                 (passes self index0 (raw :: rest)
                  /\ budget_reached self n (raw :: rest) = false
                  /\ validateRow_for self (S index0) m rest = (self, Ret (-1)))
                 \/ (exists pre raw0 post,
                        raw :: rest = pre ++ raw0 :: post
                        /\ passes self index0 (pre ++ [raw0])
                        /\ is_empty_field raw0 = true
                        /\ budget_reached self n pre = false
                        /\ maxEmptyFields self <= n + count_empty (pre ++ [raw0])
                        /\ validateRow_for self (S index0) m rest
                           = (self, Ret (-3)))
                 \/ (exists pre raw0 post,
                        raw :: rest = pre ++ raw0 :: post
                        /\ passes self index0 pre
                        /\ budget_reached self n pre = false
                        /\ validateField self (index0 + length pre) (strip raw0)
                           <> Ret true
                        /\ validateRow_for self (S index0) m rest
                           = stop self (index0 + length pre)
                               (validateField self (index0 + length pre)
                                  (strip raw0)))).
      { intros m Hone Hm.
        assert (Hbr : forall l, budget_reached self n (raw :: l)
                                = budget_reached self m l).
        { intros l. rewrite budget_reached_cons.
          rewrite budget_reached_cons in Hone.
          destruct (is_empty_field raw); subst m; [|reflexivity].
          change (budget_reached self (n + 1) []) with
            ((0 <? 0) && (maxEmptyFields self <=? n + 1 + 0)) in Hone.
          cbn [Z.ltb Z.compare andb] in Hone. rewrite orb_false_r in Hone.
          now rewrite Hone. }
        assert (Hce : forall l, n + count_empty (raw :: l) = m + count_empty l).
        { intros l. rewrite count_empty_cons.
          destruct (is_empty_field raw); subst m; lia. }
        destruct (IH (S index0) m)
          as [(Hp & Hb & Hr)
             | [(pre & raw0 & post & -> & Hp & He & Hb & Hmax & Hr)
               | (pre & raw0 & post & -> & Hp & Hb & Hne & Hr)]].
        - left. split; [now apply passes_cons_intro|].
          split; [now rewrite Hbr | exact Hr].
        - right; left. exists (raw :: pre), raw0, post.
          split; [reflexivity|].
          split; [now apply (passes_cons_intro self index0 raw (pre ++ [raw0]))|].
          split; [exact He|]. split; [now rewrite Hbr|].
          split; [|exact Hr].
          change ((raw :: pre) ++ [raw0]) with (raw :: (pre ++ [raw0])).
          now rewrite Hce.
        - right; right. exists (raw :: pre), raw0, post.
          cbn [length]. rewrite Nat.add_succ_r.
          split; [reflexivity|]. split; [now apply passes_cons_intro|].
          split; [now rewrite Hbr|]. split; assumption. }
      fold (is_empty_field raw).
      destruct (is_empty_field raw) eqn:Hempty.
      * destruct (Z.leb_spec (maxEmptyFields self) (n + 1)) as [Hle|Hgt].
        -- right; left. exists [], raw, rest.
           split; [reflexivity|].
           split; [apply passes_cons_intro; [exact Hraw | apply passes_nil]|].
           split; [exact Hempty|]. split; [reflexivity|].
           split; [|reflexivity].
           cbn [app]. rewrite count_empty_cons, Hempty.
           change (count_empty []) with 0. lia.
        -- apply Hlift; [|reflexivity].
           rewrite budget_reached_cons, Hempty.
           destruct (Z.leb_spec (maxEmptyFields self) (n + 1)); [lia|].
           reflexivity.
      * apply Hlift; [|reflexivity].
        rewrite budget_reached_cons, Hempty. reflexivity.
    + (* the field fails *)
      right; right. exists [], raw, rest. cbn [app length].
      rewrite Nat.add_0_r, Hraw.
      split; [reflexivity|]. split; [apply passes_nil|].
      split; [reflexivity|]. split; [discriminate|]. reflexivity.
    + right; right. exists [], raw, rest. cbn [app length].
      rewrite Nat.add_0_r, Hraw.
      split; [reflexivity|]. split; [apply passes_nil|].
      split; [reflexivity|]. split; [discriminate|]. reflexivity.
    + right; right. exists [], raw, rest. cbn [app length].
      rewrite Nat.add_0_r, Hraw.
      split; [reflexivity|]. split; [apply passes_nil|].
      split; [reflexivity|]. split; [discriminate|]. reflexivity.
Qed.

(** ** What each answer of [validateRow] means *)

Lemma stop_not_negative (self s' : CSVDataValidator) (index : nat)
  (r : result bool) (z : Z) :
  stop self index r = (s', Ret z) -> 0 <= z.
Proof.
  unfold stop. destruct r as [b| |]; try discriminate.
  destruct (badFieldCounters self !! index); [|discriminate].
  intros [= _ <-]. lia.
Qed.

Lemma validateRow_unfold (self : CSVDataValidator) (row : list string) :
  name self <> "novalidate" ->
  validateRow self row
  = if decide (length row = size (validators self))
    then validateRow_for self 0 0 row else (self, Ret (-2)).
Proof.
  intros Hname. unfold validateRow.
  apply String.eqb_neq in Hname. rewrite Hname.
  destruct (Z.eqb_spec (Z.of_nat (length row))
              (Z.of_nat (size (validators self))));
    case_decide; try lia; reflexivity.
Qed.

Lemma budget_reached_false (self : CSVDataValidator) (fields : list string) :
  budget_reached self 0 fields = false
  <-> count_empty fields = 0 \/ count_empty fields < maxEmptyFields self.
Proof.
  unfold budget_reached. rewrite Z.add_0_l.
  pose proof (count_empty_nonneg fields).
  destruct (Z.ltb_spec 0 (count_empty fields));
    destruct (Z.leb_spec (maxEmptyFields self) (count_empty fields));
    cbn [andb]; split; intros; try reflexivity; try discriminate; lia.
Qed.

(** X3.  The exact acceptance criterion.  Under a name other than
    ["novalidate"], [validateRow] answers [-1] exactly when the row has as
    many fields as there are rules, every trimmed field passes the rule of
    its position, and the row has no trimmed-empty field or fewer of them
    than [maxEmptyFields]; the instance is then unchanged. *)
Theorem validateRow_accepted_iff (self : CSVDataValidator) (row : list string) :
  name self <> "novalidate" ->
  (exists s', validateRow self row = (s', Ret Accepted))
  <-> length row = size (validators self)
      /\ passes self 0 row
      /\ (count_empty row = 0 \/ count_empty row < maxEmptyFields self).
Proof.
  intros Hname. rewrite (validateRow_unfold _ _ Hname). unfold Accepted.
  split.
  - intros [s' Hrun]. case_decide as Hlen; [|discriminate].
    split; [exact Hlen|].
    destruct (validateRow_for_inv self row 0 0)
      as [(Hp & Hb & _)
         | [(pre & raw & post & _ & _ & _ & _ & _ & Hr)
           | (pre & raw & post & _ & _ & _ & _ & Hr)]].
    + split; [exact Hp | now apply budget_reached_false].
    + rewrite Hr in Hrun. discriminate.
    + rewrite Hr in Hrun. apply stop_not_negative in Hrun. lia.
  - intros (Hlen & Hp & Hb). case_decide; [|contradiction].
    exists self. rewrite (validateRow_for_passes _ _ _ _ Hp).
    apply budget_reached_false in Hb. now rewrite Hb.
Qed.

Lemma validateRow_accepted_iff_witness :
  (exists s', validateRow two_fields ["Bob"; "x"] = (s', Ret Accepted))
  /\ (length ["Bob"; ""] = size (validators two_fields)
      /\ passes two_fields 0 ["Bob"; ""]
      /\ (count_empty ["Bob"; ""] = 0
          \/ count_empty ["Bob"; ""] < maxEmptyFields two_fields) -> False).
Proof.
  assert (Hname : name two_fields <> "novalidate") by (vm_compute; discriminate).
  split.
  - apply (proj2 (validateRow_accepted_iff two_fields ["Bob"; "x"] Hname)).
    split; [reflexivity | split; [solve_passes | left; reflexivity]].
  - intros H.
    apply (proj2 (validateRow_accepted_iff two_fields ["Bob"; ""] Hname)) in H.
    destruct H as [s' H]. vm_compute in H. discriminate H.
Defined.

Lemma validateRow_nonneg_inv (self s' : CSVDataValidator)
  (row : list string) (r : Z) :
  validateRow self row = (s', Ret r) ->
  0 <= r ->
  exists (i : nat) (raw : string) (count : Z),
    r = RejectedFieldFailed i
    /\ (i < size (validators self))%nat
    /\ row !! i = Some raw
    /\ is_Some (validators self !! i)
    /\ validateField self i (strip raw) = Ret false
    /\ passes self 0 (take i row)
    /\ badFieldCounters self !! i = Some count
    /\ s' = set_badFieldCounters self
              (<[i := count + 1]> (badFieldCounters self)).
Proof.
  intros Hrun Hr.
  assert (Hname : name self <> "novalidate").
  { intros Hn. unfold validateRow in Hrun. rewrite Hn in Hrun.
    cbn in Hrun. injection Hrun as _ <-. lia. }
  rewrite (validateRow_unfold _ _ Hname) in Hrun.
  case_decide as Hlen; [|injection Hrun as _ <-; lia].
  destruct (validateRow_for_inv self row 0 0)
    as [(_ & _ & Hr')
       | [(pre & raw & post & _ & _ & _ & _ & _ & Hr')
         | (pre & raw & post & Hrow & Hp & _ & Hne & Hr')]];
    rewrite Hr' in Hrun; try (injection Hrun as _ <-; lia).
  cbn [Nat.add] in *. unfold stop in Hrun.
  destruct (validateField self (length pre) (strip raw)) as [[|]| |] eqn:Hf;
    try discriminate; [congruence|].
  destruct (badFieldCounters self !! length pre) as [count|] eqn:Hc;
    [|discriminate].
  injection Hrun as <- <-.
  exists (length pre), raw, count.
  assert (Hi : row !! length pre = Some raw).
  { rewrite Hrow. apply list_lookup_middle. reflexivity. }
  split; [reflexivity|]. split.
  { rewrite <- Hlen. eapply lookup_lt_Some. exact Hi. }
  split; [exact Hi|]. split.
  { unfold validateField in Hf.
    destruct (validators self !! length pre); [eauto | discriminate]. }
  split; [exact Hf|]. split.
  { rewrite Hrow, take_app_length. exact Hp. }
  split; [exact Hc | reflexivity].
Qed.

(** X4.  A field index as answer is justified.  When [validateRow] answers
    with a non-negative integer, that integer is a position [i] of the row
    below the number of rules, position [i] has a rule, the trimmed field
    there fails it, every earlier field passes, and the returned instance
    is the given one with the counter of [i] raised by one. *)
Theorem validateRow_field_index_inv (self s' : CSVDataValidator)
  (row : list string) (r : Z) :
  validateRow self row = (s', Ret r) ->
  0 <= r ->
  exists (i : nat) (raw : string) (count : Z),
    r = RejectedFieldFailed i
    /\ (i < size (validators self))%nat
    /\ row !! i = Some raw
    /\ is_Some (validators self !! i)
    /\ validateField self i (strip raw) = Ret false
    /\ passes self 0 (take i row)
    /\ badFieldCounters self !! i = Some count
    /\ s' = set_badFieldCounters self
              (<[i := count + 1]> (badFieldCounters self)).
Proof. apply validateRow_nonneg_inv. Qed.

Lemma validateRow_field_index_inv_witness :
  exists (i : nat) (raw : string) (count : Z),
    1 = RejectedFieldFailed i
    /\ (i < size (validators two_fields))%nat
    /\ ["Bob"; " "] !! i = Some raw
    /\ is_Some (validators two_fields !! i)
    /\ validateField two_fields i (strip raw) = Ret false
    /\ passes two_fields 0 (take i ["Bob"; " "])
    /\ badFieldCounters two_fields !! i = Some count
    /\ fst (validateRow two_fields ["Bob"; " "])
       = set_badFieldCounters two_fields
           (<[i := count + 1]> (badFieldCounters two_fields)).
Proof.
  apply (validateRow_field_index_inv two_fields
           (fst (validateRow two_fields ["Bob"; " "])) ["Bob"; " "] 1).
  - reflexivity.
  - lia.
Defined.

(** X5.  The answer [-3] is justified.  When [validateRow] answers [-3],
    some position [i] holds a trimmed-empty field, every field up to and
    including [i] passes its rule, the trimmed-empty fields up to [i]
    number at least [maxEmptyFields], and the instance is unchanged. *)
Theorem validateRow_too_many_empty_inv (self s' : CSVDataValidator)
  (row : list string) :
  validateRow self row = (s', Ret RejectedTooManyEmptyFields) ->
  s' = self
  /\ length row = size (validators self)
  /\ exists (i : nat) (raw : string),
      row !! i = Some raw
      /\ strip raw = ""
      /\ passes self 0 (take (S i) row)
      /\ maxEmptyFields self <= count_empty (take (S i) row).
Proof.
  unfold RejectedTooManyEmptyFields. intros Hrun.
  assert (Hname : name self <> "novalidate").
  { intros Hn. unfold validateRow in Hrun. rewrite Hn in Hrun.
    cbn in Hrun. discriminate Hrun. }
  rewrite (validateRow_unfold _ _ Hname) in Hrun.
  case_decide as Hlen; [|discriminate].
  destruct (validateRow_for_inv self row 0 0)
    as [(_ & _ & Hr')
       | [(pre & raw & post & Hrow & Hp & He & _ & Hmax & Hr')
         | (pre & raw & post & _ & _ & _ & _ & Hr')]];
    rewrite Hr' in Hrun; try discriminate.
  - injection Hrun as <-. split; [reflexivity|]. split; [exact Hlen|].
    exists (length pre), raw.
    assert (Htake : take (S (length pre)) row = pre ++ [raw]).
    { rewrite Hrow. rewrite (cons_middle raw pre post), app_assoc.
      rewrite take_app_length'; [reflexivity|].
      rewrite length_app. cbn. lia. }
    split; [rewrite Hrow; now apply list_lookup_middle|].
    split; [apply len_0; now apply Z.eqb_eq|].
    rewrite Htake. split; [exact Hp | lia].
  - apply stop_not_negative in Hrun. lia.
Qed.

Lemma validateRow_too_many_empty_inv_witness :
  exists (i : nat) (raw : string),
    [""; "x"] !! i = Some raw
    /\ strip raw = ""
    /\ passes two_fields 0 (take (S i) [""; "x"])
    /\ maxEmptyFields two_fields <= count_empty (take (S i) [""; "x"]).
Proof.
  apply (validateRow_too_many_empty_inv two_fields two_fields [""; "x"]).
  reflexivity.
Defined.

(** ** Rows that do not return *)

(** X6.  On a well-formed instance, a row ends the run only through a field
    check.  If [validateRow] does not return an integer, the instance is
    unchanged and some field of the row, reached through fields that all
    pass, made [validateField] exit or raise in just that way. *)
Theorem validateRow_error_origin (self s' : CSVDataValidator)
  (row : list string) (out : result Z) :
  wf self ->
  validateRow self row = (s', out) ->
  (forall r : Z, out <> Ret r) ->
  s' = self
  /\ exists (i : nat) (raw : string),
      row !! i = Some raw
      /\ passes self 0 (take i row)
      /\ match out with
         | Ret _ => False
         | Exit msg => validateField self i (strip raw) = Exit msg
         | Raise e => validateField self i (strip raw) = Raise e
         end.
Proof.
  intros Hwf Hrun Hout.
  assert (Hname : name self <> "novalidate").
  { intros Hn. unfold validateRow in Hrun. rewrite Hn in Hrun.
    cbn in Hrun. injection Hrun as _ <-. now apply (Hout (-1)). }
  rewrite (validateRow_unfold _ _ Hname) in Hrun.
  case_decide as Hlen; [|injection Hrun as _ <-; now destruct (Hout (-2))].
  destruct (validateRow_for_inv self row 0 0)
    as [(_ & _ & Hr')
       | [(pre & raw & post & _ & _ & _ & _ & _ & Hr')
         | (pre & raw & post & Hrow & Hp & _ & Hne & Hr')]];
    rewrite Hr' in Hrun.
  - injection Hrun as _ <-. now destruct (Hout (-1)).
  - injection Hrun as _ <-. now destruct (Hout (-3)).
  - cbn [Nat.add] in *.
    assert (Hi : row !! length pre = Some raw).
    { rewrite Hrow. now apply list_lookup_middle. }
    assert (Htake : take (length pre) row = pre).
    { rewrite Hrow. apply take_app_length. }
    unfold stop in Hrun.
    destruct (validateField self (length pre) (strip raw)) as [[|]| |] eqn:Hf.
    + congruence.
    + destruct (failing_field_has_counter _ _ _ Hwf Hf) as [count Hc].
      rewrite Hc in Hrun. injection Hrun as _ <-.
      now destruct (Hout (Z.of_nat (length pre))).
    + injection Hrun as <- <-. split; [reflexivity|].
      exists (length pre), raw. rewrite Htake. auto.
    + injection Hrun as <- <-. split; [reflexivity|].
      exists (length pre), raw. rewrite Htake. auto.
Qed.

Lemma validateRow_error_origin_witness :
  exists (i : nat) (raw : string),
    ["Bob"; "x"] !! i = Some raw
    /\ passes unknown_kind 0 (take i ["Bob"; "x"])
    /\ validateField unknown_kind i (strip raw)
       = Exit "ERROR!! BAD Validator Typebogus".
Proof.
  destruct concrete_wf as (_ & _ & Hwf & _).
  refine (proj2 (validateRow_error_origin unknown_kind unknown_kind
                   ["Bob"; "x"] (Exit "ERROR!! BAD Validator Typebogus")
                   Hwf eq_refl _)).
  intros r. discriminate.
Defined.

Lemma validateRow_complete_rules (self : CSVDataValidator) (row : list string) :
  wf self ->
  (forall (i : nat) (v : Validator),
      validators self !! i = Some v -> well_configured v = true) ->
  (exists r : Z, snd (validateRow self row) = Ret r)
  \/ (snd (validateRow self row) = Raise ValueError
      /\ exists (i : nat) (raw : string) (v : Validator),
          row !! i = Some raw
          /\ validators self !! i = Some v
          /\ aba_crash v (strip raw) = true).
Proof.
  intros Hwf Hall.
  destruct (validateRow self row) as [s' out] eqn:Hrun. cbn [snd].
  assert (Hname_or : (exists r, out = Ret r) \/ forall r, out <> Ret r).
  { destruct out; [left; eauto | right; discriminate..]. }
  destruct Hname_or as [Hret | Hnot]; [left; exact Hret | right].
  assert (Hname : name self <> "novalidate").
  { intros Hn. unfold validateRow in Hrun. rewrite Hn in Hrun.
    cbn in Hrun. injection Hrun as _ <-. now apply (Hnot (-1)). }
  rewrite (validateRow_unfold _ _ Hname) in Hrun.
  case_decide as Hlen; [|injection Hrun as _ <-; now destruct (Hnot (-2))].
  destruct (validateRow_for_inv self row 0 0)
    as [(_ & _ & Hr')
       | [(pre & raw & post & _ & _ & _ & _ & _ & Hr')
         | (pre & raw & post & Hrow & Hp & _ & Hne & Hr')]];
    rewrite Hr' in Hrun.
  - injection Hrun as _ <-. now destruct (Hnot (-1)).
  - injection Hrun as _ <-. now destruct (Hnot (-3)).
  - cbn [Nat.add] in *.
    assert (Hi : row !! length pre = Some raw).
    { rewrite Hrow. now apply list_lookup_middle. }
    destruct (validators self !! length pre) as [v|] eqn:Hv.
    2:{ unfold validateField in Hne. rewrite Hv in Hne. congruence. }
    destruct (validateField_complete_rule self (length pre) v (strip raw) Hv
                (Hall _ _ Hv)) as [Hcrash Hret].
    destruct (aba_crash v (strip raw)) eqn:Haba.
    + rewrite (Hcrash eq_refl) in Hrun. cbn in Hrun. injection Hrun as _ <-.
      split; [reflexivity|]. exists (length pre), raw, v. auto.
    + destruct (Hret eq_refl) as [[|] Hb]; [congruence|].
      rewrite Hb in Hrun. unfold stop in Hrun.
      destruct (failing_field_has_counter _ _ _ Hwf Hb) as [count Hc].
      rewrite Hc in Hrun. injection Hrun as _ <-.
      now destruct (Hnot (Z.of_nat (length pre))).
Qed.

(** X7.  A completely configured rule set can fail on a row in one way
    only, and exactly then.  On a well-formed instance whose rules all
    carry the keys of their kind, [validateRow] either returns an integer
    or raises [ValueError]; and it raises [ValueError] exactly when the
    name is not ["novalidate"], the row has as many fields as there are
    rules, and some field of the row is nine characters that are not all
    decimal digits under a checked routing-number rule while every field
    before it passes and the budget has not been reached before it. *)
Theorem validateRow_returns_or_aba (self : CSVDataValidator)
  (row : list string) :
  wf self ->
  (forall (i : nat) (v : Validator),
      validators self !! i = Some v -> well_configured v = true) ->
  ((exists r : Z, snd (validateRow self row) = Ret r)
   \/ snd (validateRow self row) = Raise ValueError)
  /\ (snd (validateRow self row) = Raise ValueError
      <-> name self <> "novalidate"
          /\ length row = size (validators self)
          /\ exists (i : nat) (raw : string) (v : Validator),
              row !! i = Some raw
              /\ validators self !! i = Some v
              /\ aba_crash v (strip raw) = true
              /\ passes self 0 (take i row)
              /\ (count_empty (take i row) = 0
                  \/ count_empty (take i row) < maxEmptyFields self)).
Proof.
  intros Hwf Hall. split.
  - destruct (validateRow_complete_rules self row Hwf Hall) as [Hr | [Hr _]];
      [left | right]; exact Hr.
  - split.
    + intros Hrun.
      assert (Hname : name self <> "novalidate").
      { intros Hn. unfold validateRow in Hrun. rewrite Hn in Hrun.
        cbn in Hrun. discriminate Hrun. }
      split; [exact Hname|].
      rewrite (validateRow_unfold _ _ Hname) in Hrun.
      case_decide as Hlen; [|discriminate Hrun].
      split; [exact Hlen|].
      destruct (validateRow_for_inv self row 0 0)
        as [(_ & _ & Hr')
           | [(pre & raw & post & _ & _ & _ & _ & _ & Hr')
             | (pre & raw & post & Hrow & Hp & Hb & Hne & Hr')]];
        rewrite Hr' in Hrun; try discriminate Hrun.
      cbn [Nat.add] in *. unfold stop in Hrun.
      destruct (validateField self (length pre) (strip raw)) as [b| |] eqn:Hf.
      * destruct (badFieldCounters self !! length pre); discriminate Hrun.
      * discriminate Hrun.
      * cbn [snd] in Hrun. injection Hrun as ->.
        destruct (validators self !! length pre) as [v|] eqn:Hv.
        2:{ unfold validateField in Hf. rewrite Hv in Hf. discriminate Hf. }
        exists (length pre), raw, v.
        split; [rewrite Hrow; now apply list_lookup_middle|].
        split; [exact Hv|].
        destruct (validateField_complete_rule self (length pre) v (strip raw)
                    Hv (Hall _ _ Hv)) as [_ Hret].
        split.
        { destruct (aba_crash v (strip raw)); [reflexivity|].
          destruct (Hret eq_refl) as [b Hb']. congruence. }
        assert (Htake : take (length pre) row = pre).
        { rewrite Hrow. apply take_app_length. }
        rewrite Htake. split; [exact Hp | now apply budget_reached_false].
    + intros (Hname & Hlen & i & raw & v & Hi & Hv & Hcrash & Hp & Hb).
      destruct (row_split row i raw Hi) as [Hsplit Hleni].
      rewrite (validateRow_shape _ _ Hname Hlen), Hsplit.
      rewrite (validateRow_for_app _ _ _ _ _ Hp).
      apply budget_reached_false in Hb. rewrite Hb, Hleni.
      cbn [Nat.add validateRow_for]. cbv zeta.
      destruct (validateField_complete_rule self i v (strip raw) Hv (Hall _ _ Hv))
        as [Hraise _].
      rewrite (Hraise Hcrash). reflexivity.
Qed.

Lemma all_rules_complete_two_fields :
  forall (i : nat) (v : Validator),
    validators two_fields !! i = Some v -> well_configured v = true.
Proof.
  intros i v Hv. apply elem_of_list_to_map_2 in Hv.
  rewrite !elem_of_cons, elem_of_nil in Hv.
  destruct Hv as [Hv | [Hv | []]]; injection Hv as -> ->; reflexivity.
Qed.

Lemma validateRow_returns_or_aba_witness :
  (exists r : Z, snd (validateRow two_fields ["Bob"; "x"]) = Ret r)
  /\ snd (validateRow aba_only ["12345678a"]) = Raise ValueError.
Proof.
  destruct concrete_wf as (Hwf2 & _ & _ & _ & Hwfa).
  split.
  - destruct (proj1 (validateRow_returns_or_aba two_fields ["Bob"; "x"] Hwf2
                       all_rules_complete_two_fields)) as [Hr | Hr];
      [exact Hr | vm_compute in Hr; discriminate Hr].
  - refine (proj2 (proj2 (validateRow_returns_or_aba aba_only ["12345678a"]
                            Hwfa _)) _).
    + intros i v Hv. change (validators aba_only) with
        ({[ 0%nat := aba_rule ]} : gmap nat Validator) in Hv.
      apply lookup_singleton_Some in Hv as [_ <-]. reflexivity.
    + split; [vm_compute; discriminate|]. split; [reflexivity|].
      exists 0%nat, "12345678a", aba_rule.
      split; [reflexivity|]. split; [reflexivity|]. split; [reflexivity|].
      split; [intros j r Hj; discriminate Hj | left; reflexivity].
Defined.

(** ** Rule sets in which the budget never rejects *)

Lemma count_empty_app (l1 l2 : list string) :
  count_empty (l1 ++ l2) = count_empty l1 + count_empty l2.
Proof.
  unfold count_empty. rewrite List.filter_app, length_app. lia.
Qed.

Lemma count_empty_le_length (fields : list string) :
  count_empty fields <= Z.of_nat (length fields).
Proof.
  induction fields as [|raw fields IH]; [reflexivity|].
  rewrite count_empty_cons. cbn [length].
  destruct (is_empty_field raw); lia.
Qed.

Lemma count_empty_one_filled (fields : list string) :
  forall (p : nat) (raw : string),
    fields !! p = Some raw ->
    is_empty_field raw = false ->
    count_empty fields <= Z.of_nat (length fields) - 1.
Proof.
  induction fields as [|r fields IH]; intros p raw Hp Hraw; [discriminate|].
  rewrite count_empty_cons. cbn [length].
  destruct p as [|p].
  - injection Hp as ->. rewrite Hraw.
    pose proof (count_empty_le_length fields). lia.
  - specialize (IH p raw Hp Hraw). destruct (is_empty_field r); lia.
Qed.

Lemma count_empty_two_filled (fields : list string) (p q : nat)
  (rp rq : string) :
  (p < q)%nat ->
  fields !! p = Some rp -> is_empty_field rp = false ->
  fields !! q = Some rq -> is_empty_field rq = false ->
  count_empty fields <= Z.of_nat (length fields) - 2.
Proof.
  intros Hpq Hp Hrp Hq Hrq.
  assert (Hlt : (q < length fields)%nat) by (eapply lookup_lt_Some; eauto).
  rewrite <- (take_drop q fields) at 1. rewrite count_empty_app.
  assert (H1 : count_empty (take q fields) <= Z.of_nat q - 1).
  { rewrite <- (length_take_le fields q) at 2 by lia.
    apply (count_empty_one_filled _ p rp); [|exact Hrp].
    rewrite lookup_take_lt by lia. exact Hp. }
  assert (H2 : count_empty (drop q fields)
               <= Z.of_nat (length fields - q) - 1).
  { rewrite <- length_drop.
    apply (count_empty_one_filled _ 0%nat rq); [|exact Hrq].
    rewrite lookup_drop, Nat.add_0_r. exact Hq. }
  lia.
Qed.

(** A required position holds a filled field in any stretch that passes. *)
Lemma required_is_filled (self : CSVDataValidator) (fields : list string)
  (p : nat) (raw : string) :
  passes self 0 fields ->
  required self p ->
  fields !! p = Some raw ->
  is_empty_field raw = false.
Proof.
  intros Hp (v & Hv & Hk & Hallow) Hraw.
  specialize (Hp p raw Hraw). cbn [Nat.add] in Hp.
  unfold is_empty_field. destruct (Z.eqb_spec (len (strip raw)) 0) as [H0|];
    [|reflexivity].
  apply len_0 in H0. rewrite H0, (validateField_empty _ _ _ Hv Hk), Hallow in Hp.
  discriminate Hp.
Qed.

Lemma two_required_no_budget_rejection (self : CSVDataValidator) (p q : nat)
  (row : list string) :
  wf self ->
  required self p ->
  required self q ->
  (p < q < size (validators self))%nat ->
  snd (validateRow self row) <> Ret RejectedTooManyEmptyFields.
Proof.
  unfold RejectedTooManyEmptyFields.
  intros (Hn & Hm & _) Hrp Hrq [Hpq Hq] Hrun.
  assert (Hname : name self <> "novalidate").
  { intros Hname. unfold validateRow in Hrun. rewrite Hname in Hrun.
    cbn in Hrun. discriminate Hrun. }
  rewrite (validateRow_unfold _ _ Hname) in Hrun.
  case_decide as Hlen; [|discriminate].
  destruct (validateRow_for_inv self row 0 0)
    as [(_ & _ & Hr')
       | [(pre & raw & post & Hrow & Hp & _ & _ & Hmax & Hr')
         | (pre & raw & post & _ & _ & _ & _ & Hr')]];
    rewrite Hr' in Hrun; cbn [snd] in Hrun.
  - discriminate.
  - rewrite Z.add_0_l, Hm, Hn, <- Hlen in Hmax.
    assert (Hl : (length (pre ++ [raw]) <= length row)%nat).
    { rewrite Hrow, !length_app. cbn [length]. lia. }
    pose proof (count_empty_le_length (pre ++ [raw])) as Hle.
    destruct (decide (q < length (pre ++ [raw]))%nat) as [Hqin|Hqout].
    + destruct (lookup_lt_is_Some_2 (pre ++ [raw]) p) as [rp Hp']; [lia|].
      destruct (lookup_lt_is_Some_2 (pre ++ [raw]) q) as [rq Hq']; [lia|].
      pose proof (count_empty_two_filled _ _ _ _ _ Hpq
                    Hp' (required_is_filled _ _ _ _ Hp Hrp Hp')
                    Hq' (required_is_filled _ _ _ _ Hp Hrq Hq')).
      lia.
    + destruct (decide (p < length (pre ++ [raw]))%nat) as [Hpin|Hpout]; [|lia].
      destruct (lookup_lt_is_Some_2 (pre ++ [raw]) p) as [rp Hp']; [lia|].
      pose proof (count_empty_one_filled _ _ _ Hp'
                    (required_is_filled _ _ _ _ Hp Hrp Hp')).
      lia.
  - destruct (stop self (0 + length pre)
                (validateField self (0 + length pre) (strip raw)))
      as [s' out] eqn:Hstop.
    cbn [snd] in Hrun. subst out. apply stop_not_negative in Hstop. lia.
Qed.

(** X8.  With two required fields the budget never rejects.  On a
    well-formed instance with two distinct positions, both below the
    number of rules, whose rules are of a known kind and do not allow an
    empty field, no row is answered with [-3]: a row with enough empty
    fields to reach the budget fails at one of the two positions first. *)
Theorem two_required_never_too_many (self : CSVDataValidator) (p q : nat)
  (row : list string) :
  wf self ->
  required self p ->
  required self q ->
  (p < q < size (validators self))%nat ->
  snd (validateRow self row) <> Ret RejectedTooManyEmptyFields.
Proof. apply two_required_no_budget_rejection. Qed.

(** Three fields, the first two required, the third free. *)
Lemma two_required_never_too_many_witness :
  let self :=
    mkCSVDataValidator "triple"
      (list_to_map [(0%nat, str_rule false); (1%nat, str_rule false);
                    (2%nat, str_rule true)])
      3 2 (list_to_map [(0%nat, 0); (1%nat, 0); (2%nat, 0)]) ∅ in
  snd (validateRow self [""; ""; ""]) <> Ret RejectedTooManyEmptyFields
  /\ snd (validateRow self ["a"; "b"; ""]) <> Ret RejectedTooManyEmptyFields.
Proof.
  intros self.
  assert (Hwf : wf self) by (repeat split; vm_compute; reflexivity).
  assert (H0 : required self 0).
  { exists (str_rule false). repeat split. left. reflexivity. }
  assert (H1 : required self 1).
  { exists (str_rule false). repeat split. left. reflexivity. }
  assert (Hlt : (0 < 1 < size (validators self))%nat) by (vm_compute; lia).
  split; apply (two_required_never_too_many self 0 1 _ Hwf H0 H1 Hlt).
Defined.

(** X9.  Under the two shipped rule sets the answer [-3] cannot occur.
    Whatever [re.compile] returns for the pattern, an instance built from
    the employee or the customer dictionary never answers a row with
    [-3]: the name and the number fields are required. *)
Theorem shipped_never_too_many (re_compile : string -> option (string -> bool))
  (self : CSVDataValidator) (row : list string) :
  init re_compile EmployeeValidatorDict = Ret self
  \/ init re_compile CustomerValidatorDict = Ret self ->
  snd (validateRow self row) <> Ret RejectedTooManyEmptyFields.
Proof.
  intros Hinit.
  assert (Hwf : wf self).
  { destruct Hinit as [H | H]; apply init_wf in H; tauto. }
  assert (Hshape : required self 0 /\ required self 1
                   /\ size (validators self) = 4%nat).
  { destruct Hinit as [H | H]; vm_compute in H;
      (destruct (re_compile _) as [c|]; [|discriminate H]);
      injection H as <-;
      (split; [|split]);
      [ exists (str_rule false) | eexists | | exists (str_rule false) | eexists | ];
      repeat split; try (left; reflexivity); try (right; left; reflexivity);
      reflexivity. }
  destruct Hshape as (H0 & H1 & H4).
  apply (two_required_no_budget_rejection self 0 1 row Hwf H0 H1).
  rewrite H4. lia.
Qed.

Lemma shipped_never_too_many_witness :
  match init (fun _ => Some (fun _ => true)) EmployeeValidatorDict with
  | Ret self =>
      snd (validateRow self ["Bob"; "123-45-6789"; ""; ""])
      <> Ret RejectedTooManyEmptyFields
  | _ => False
  end.
Proof.
  destruct (init (fun _ => Some (fun _ => true)) EmployeeValidatorDict)
    as [self| |] eqn:Hinit; [|vm_compute in Hinit; discriminate Hinit..].
  apply (shipped_never_too_many (fun _ => Some (fun _ => true)) self).
  left. exact Hinit.
Defined.

(** ** Rows are judged independently *)

Lemma same_rules_refl (s : CSVDataValidator) : same_rules s s.
Proof. repeat split. Qed.

Lemma same_rules_trans (s1 s2 s3 : CSVDataValidator) :
  same_rules s1 s2 -> same_rules s2 s3 -> same_rules s1 s3.
Proof.
  intros (Hn & Hv & Hf & Hm & Hd) (Hn' & Hv' & Hf' & Hm' & Hd').
  repeat split; congruence.
Qed.

Lemma validateField_same_rules (s s' : CSVDataValidator) (i : nat)
  (field : string) :
  same_rules s s' -> validateField s' i field = validateField s i field.
Proof. intros (_ & Hv & _). unfold validateField. now rewrite Hv. Qed.

Lemma validateRow_for_same_rules (s s' : CSVDataValidator)
  (fields : list string) :
  same_rules s s' ->
  forall (index : nat) (n : Z),
    snd (validateRow_for s' index n fields)
    = snd (validateRow_for s index n fields).
Proof.
  intros Hsame. pose proof Hsame as (_ & _ & _ & Hm & Hd).
  induction fields as [|raw rest IH]; intros index0 n; [reflexivity|].
  cbn [validateRow_for]. cbv zeta.
  rewrite (validateField_same_rules _ _ _ _ Hsame), Hm.
  destruct (validateField s index0 (strip raw)) as [[|]| |];
    cbn [Bool.eqb negb]; try reflexivity.
  - destruct (len (strip raw) =? 0); [|apply IH].
    destruct (maxEmptyFields s <=? n + 1); [reflexivity | apply IH].
  - assert (Hiff : is_Some (badFieldCounters s' !! index0)
                   <-> is_Some (badFieldCounters s !! index0)).
    { rewrite <- !elem_of_dom, Hd. reflexivity. }
    destruct (badFieldCounters s' !! index0) as [c'|] eqn:Hc';
      destruct (badFieldCounters s !! index0) as [c|] eqn:Hc;
      try reflexivity.
    + destruct (proj1 Hiff (mk_is_Some _ _ eq_refl)) as [? [=]].
    + destruct (proj2 Hiff (mk_is_Some _ _ eq_refl)) as [? [=]].
Qed.

Lemma validateRow_same_rules (s s' : CSVDataValidator) (row : list string) :
  same_rules s s' ->
  snd (validateRow s' row) = snd (validateRow s row).
Proof.
  intros Hsame. pose proof Hsame as (Hn & Hv & _).
  unfold validateRow. rewrite Hn, Hv.
  destruct (String.eqb (name s) "novalidate"); [reflexivity|].
  destruct (negb _); [reflexivity|].
  now apply validateRow_for_same_rules.
Qed.

Lemma validateRow_keeps_rules (s : CSVDataValidator) (row : list string) :
  same_rules s (fst (validateRow s row)).
Proof.
  destruct (validateRow_change s row) as [-> | (i & count & _ & Hc & ->)];
    [apply same_rules_refl|].
  repeat split. cbn [set_badFieldCounters badFieldCounters].
  rewrite dom_insert_L.
  assert (i ∈ dom (badFieldCounters s)) by (apply elem_of_dom; eauto).
  set_solver.
Qed.

Lemma after_rows_keeps_rules (rows : list (list string)) :
  forall s : CSVDataValidator, same_rules s (after_rows s rows).
Proof.
  unfold after_rows.
  induction rows as [|row rows IH]; intros s; [apply same_rules_refl|].
  cbn [foldl]. eapply same_rules_trans; [apply validateRow_keeps_rules|].
  apply IH.
Qed.

Lemma getHeaderNames_keeps_rules (s : CSVDataValidator) (headerRow : list string) :
  same_rules s (getHeaderNames s headerRow).
Proof.
  destruct (getHeaderNames_frame s headerRow) as (Hn & Hv & Hf & Hm & Hc).
  repeat split; try assumption. now rewrite Hc.
Qed.

Lemma verdict_stable (self : CSVDataValidator) (headerRow : list string)
  (rows : list (list string)) (row : list string) :
  snd (validateRow (after_rows (getHeaderNames self headerRow) rows) row)
  = snd (validateRow self row).
Proof.
  apply validateRow_same_rules.
  eapply same_rules_trans; [apply getHeaderNames_keeps_rules|].
  apply after_rows_keeps_rules.
Qed.

(** X10.  The answer for a row does not depend on what came before.  Whatever
    header has been recorded and whatever rows have been validated since,
    [validateRow] gives a row the answer it gives on the instance as
    constructed: the counters and the field names play no part in it. *)
Theorem validateRow_independent_of_history (self : CSVDataValidator)
  (headerRow : list string) (rows : list (list string)) (row : list string) :
  snd (validateRow (after_rows (getHeaderNames self headerRow) rows) row)
  = snd (validateRow self row).
Proof. apply verdict_stable. Qed.

(** ** The row loop of the script *)

Lemma accepted_same_rules (s s' : CSVDataValidator) (row : list string) :
  same_rules s s' -> accepted s' row = accepted s row.
Proof. intros H. unfold accepted. now rewrite (validateRow_same_rules _ _ _ H). Qed.

Lemma failed_at_same_rules (s s' : CSVDataValidator) (i : nat)
  (row : list string) :
  same_rules s s' -> failed_at s' i row = failed_at s i row.
Proof. intros H. unfold failed_at. now rewrite (validateRow_same_rules _ _ _ H). Qed.

(** One row that is processed to the end goes to exactly one file. *)
Lemma main_row_ret (run run1 : Run) (row : list string) :
  main_row run row = (run1, Ret tt) ->
  currentValidator run1 = fst (validateRow (currentValidator run) row)
  /\ totalRowCounter run1 = totalRowCounter run + 1
  /\ ((accepted (currentValidator run) row = true
       /\ goodDataFile run1 = goodDataFile run ++ [row]
       /\ badDataFile run1 = badDataFile run
       /\ goodRowCounter run1 = goodRowCounter run + 1
       /\ badRowCounter run1 = badRowCounter run)
      \/ (accepted (currentValidator run) row = false
          /\ goodDataFile run1 = goodDataFile run
          /\ (exists written, badDataFile run1 = badDataFile run ++ [written]
                              /\ annotated written row)
          /\ goodRowCounter run1 = goodRowCounter run
          /\ badRowCounter run1 = badRowCounter run + 1)).
Proof.
  unfold main_row, accepted, annotated.
  destruct (validateRow (currentValidator run) row) as [validator outcome].
  cbn [fst snd]. destruct outcome as [res| |]; [|discriminate..].
  destruct (res =? -1) eqn:H1.
  { intros [= <-]. cbn. split; [reflexivity|]. split; [reflexivity|].
    left. repeat split. }
  destruct (res =? -2).
  { intros [= <-]. cbn. split; [reflexivity|]. split; [reflexivity|].
    right. repeat split. eauto. }
  destruct (res =? -3).
  { intros [= <-]. cbn. split; [reflexivity|]. split; [reflexivity|].
    right. repeat split. eauto. }
  destruct (bad_data_message validator row res) as [message| |];
    [|discriminate..].
  intros [= <-]. cbn. split; [reflexivity|]. split; [reflexivity|].
  right. repeat split. eauto.
Qed.

(** One row that is not processed to the end leaves both files alone. *)
Lemma main_row_stopped (run run1 : Run) (row : list string)
  (out : result unit) :
  main_row run row = (run1, out) ->
  out <> Ret tt ->
  goodDataFile run1 = goodDataFile run
  /\ badDataFile run1 = badDataFile run
  /\ goodRowCounter run1 = goodRowCounter run
  /\ totalRowCounter run1 = totalRowCounter run + 1.
Proof.
  unfold main_row.
  destruct (validateRow (currentValidator run) row) as [validator outcome].
  destruct outcome as [res| |].
  - destruct (res =? -1); [intros [= <- <-]; congruence|].
    destruct (res =? -2); [intros [= <- <-]; congruence|].
    destruct (res =? -3); [intros [= <- <-]; congruence|].
    destruct (bad_data_message validator row res);
      intros [= <- <-] Hout; try congruence; repeat split.
  - intros [= <- <-] _. repeat split.
  - intros [= <- <-] _. repeat split.
Qed.

Lemma filter_accepted_same_rules (s s' : CSVDataValidator)
  (rows : list (list string)) :
  same_rules s s' ->
  List.filter (accepted s') rows = List.filter (accepted s) rows.
Proof.
  intros H. apply List.filter_ext. intros row. now apply accepted_same_rules.
Qed.

Lemma filter_rejected_same_rules (s s' : CSVDataValidator)
  (rows : list (list string)) :
  same_rules s s' ->
  List.filter (fun row => negb (accepted s' row)) rows
  = List.filter (fun row => negb (accepted s row)) rows.
Proof.
  intros H. apply List.filter_ext. intros row.
  now rewrite (accepted_same_rules _ _ _ H).
Qed.

(** A loop that ends normally, in full. *)
Lemma main_loop_ret (rows : list (list string)) :
  forall run run' : Run,
    main_loop run rows = (run', Ret tt) ->
    currentValidator run' = after_rows (currentValidator run) rows
    /\ goodDataFile run'
       = goodDataFile run ++ List.filter (accepted (currentValidator run)) rows
    /\ (exists written : list (list string),
           badDataFile run' = badDataFile run ++ written
           /\ Forall2 annotated written
                (List.filter (fun row => negb (accepted (currentValidator run) row))
                   rows))
    /\ goodRowCounter run'
       = goodRowCounter run
         + Z.of_nat (length (List.filter (accepted (currentValidator run)) rows))
    /\ badRowCounter run'
       = badRowCounter run
         + Z.of_nat (length (List.filter
                               (fun row => negb (accepted (currentValidator run) row))
                               rows))
    /\ totalRowCounter run' = totalRowCounter run + Z.of_nat (length rows).
Proof.
  induction rows as [|row rest IH]; intros run run' Hloop.
  - cbn in Hloop. injection Hloop as <-. cbn [List.filter length Z.of_nat].
    rewrite app_nil_r, !Z.add_0_r. split; [reflexivity|]. split; [reflexivity|].
    split; [exists []; rewrite app_nil_r; split; [reflexivity | constructor]|].
    repeat split.
  - cbn [main_loop] in Hloop.
    destruct (main_row run row) as [run1 [[]| |]] eqn:Hrow; try discriminate.
    apply main_row_ret in Hrow as (Hv & Ht & Hcase).
    apply IH in Hloop as (Hv' & Hg & (written & Hb & Hann) & Hgc & Hbc & Htc).
    assert (Hsame : same_rules (currentValidator run) (currentValidator run1)).
    { rewrite Hv. apply validateRow_keeps_rules. }
    rewrite (filter_accepted_same_rules _ _ _ Hsame) in Hg, Hgc.
    rewrite (filter_rejected_same_rules _ _ _ Hsame) in Hann, Hbc.
    cbn [List.filter length].
    split.
    { rewrite Hv', Hv. reflexivity. }
    destruct Hcase as [(Hacc & Hg1 & Hb1 & Hgc1 & Hbc1)
                      | (Hacc & Hg1 & (w & Hb1 & Hw) & Hgc1 & Hbc1)];
      rewrite Hacc; cbn [negb length].
    + split; [rewrite Hg, Hg1, <- app_assoc; reflexivity|].
      split; [exists written; rewrite Hb, Hb1; auto|].
      split; [lia|]. split; lia.
    + split; [rewrite Hg, Hg1; reflexivity|].
      split.
      { exists (w :: written). rewrite Hb, Hb1, <- app_assoc.
        split; [reflexivity | now constructor]. }
      split; [lia|]. split; lia.
Qed.

(** X11.  The good file is the accepted rows, unchanged and in input order.
    When the row loop ends normally, the good file is what it was before
    followed by exactly those rows that the instance answers with [-1], as
    they were read and in the order of the input. *)
Theorem main_loop_good_file (run run' : Run) (rows : list (list string)) :
  main_loop run rows = (run', Ret tt) ->
  goodDataFile run'
  = goodDataFile run ++ List.filter (accepted (currentValidator run)) rows.
Proof. intros H. apply main_loop_ret in H. tauto. Qed.

(** X12.  The bad file is the other rows, each with one more column.  When
    the row loop ends normally, the records added to the bad file
    correspond one to one, in input order, to the rows not answered with
    [-1], and each is its row followed by exactly one message column. *)
Theorem main_loop_bad_file (run run' : Run) (rows : list (list string)) :
  main_loop run rows = (run', Ret tt) ->
  exists written : list (list string),
    badDataFile run' = badDataFile run ++ written
    /\ Forall2 annotated written
         (List.filter (fun row => negb (accepted (currentValidator run) row))
            rows).
Proof. intros H. apply main_loop_ret in H. tauto. Qed.

(** X13.  The three counters add up.  When the row loop ends normally, the
    total has grown by the number of rows, the good and the bad counter by
    the number of rows written to the good and to the bad file, and so a
    total that was the sum of the other two still is. *)
Theorem main_loop_counters (run run' : Run) (rows : list (list string)) :
  main_loop run rows = (run', Ret tt) ->
  totalRowCounter run' = totalRowCounter run + Z.of_nat (length rows)
  /\ goodRowCounter run' - goodRowCounter run
     = Z.of_nat (length (goodDataFile run') - length (goodDataFile run))
  /\ badRowCounter run' - badRowCounter run
     = Z.of_nat (length (badDataFile run') - length (badDataFile run))
  /\ (totalRowCounter run = goodRowCounter run + badRowCounter run ->
      totalRowCounter run' = goodRowCounter run' + badRowCounter run').
Proof.
  intros H.
  apply main_loop_ret in H as (_ & Hg & (written & Hb & Hann) & Hgc & Hbc & Htc).
  apply Forall2_length in Hann.
  rewrite Hg, Hb, !length_app, Hann.
  split; [exact Htc|]. split; [lia|]. split; [lia|].
  intros Hsum. rewrite Htc, Hgc, Hbc.
  pose proof (List.filter_length (accepted (currentValidator run)) rows). lia.
Qed.

Lemma main_loop_good_file_witness :
  goodDataFile (fst (main_loop sample_run sample_rows))
  = [["name"; "code"]; ["Bob"; "x"]; ["Z"; "z"]].
Proof.
  rewrite (main_loop_good_file sample_run (fst (main_loop sample_run sample_rows))
             sample_rows eq_refl).
  reflexivity.
Defined.

Lemma main_loop_bad_file_witness :
  exists written : list (list string),
    badDataFile (fst (main_loop sample_run sample_rows))
    = badDataFile sample_run ++ written
    /\ Forall2 annotated written [[""; ""]; ["Al"]; ["Eve"; " "]].
Proof.
  apply (main_loop_bad_file sample_run (fst (main_loop sample_run sample_rows))
           sample_rows eq_refl).
Defined.

Lemma main_loop_counters_witness :
  totalRowCounter (fst (main_loop sample_run sample_rows)) = 5
  /\ totalRowCounter (fst (main_loop sample_run sample_rows))
     = goodRowCounter (fst (main_loop sample_run sample_rows))
       + badRowCounter (fst (main_loop sample_run sample_rows)).
Proof.
  destruct (main_loop_counters sample_run (fst (main_loop sample_run sample_rows))
              sample_rows eq_refl) as (Ht & _ & _ & Hsum).
  split; [exact Ht | apply Hsum; reflexivity].
Defined.

Lemma main_loop_stopped (rows : list (list string)) :
  forall (run run' : Run) (out : result unit),
    main_loop run rows = (run', out) ->
    out <> Ret tt ->
    exists (before : list (list string)) (row : list string)
           (rest : list (list string)) (run1 : Run),
      rows = before ++ row :: rest
      /\ main_loop run before = (run1, Ret tt)
      /\ main_row run1 row = (run', out)
      /\ goodDataFile run' = goodDataFile run1
      /\ badDataFile run' = badDataFile run1
      /\ totalRowCounter run' = totalRowCounter run1 + 1.
Proof.
  induction rows as [|row rest IH]; intros run run' out Hloop Hout.
  - cbn in Hloop. injection Hloop as _ <-. congruence.
  - cbn [main_loop] in Hloop.
    destruct (main_row run row) as [run1 res] eqn:Hrow.
    assert (Hstop : res <> Ret tt -> (run1, res) = (run', out)).
    { intros Hres. destruct res as [[]| |]; [congruence | exact Hloop..]. }
    destruct res as [[]| |].
    + destruct (IH _ _ _ Hloop Hout)
        as (before & r & rest' & run2 & -> & Hb & Hr & Hfiles).
      exists (row :: before), r, rest', run2.
      split; [reflexivity|]. split; [|split; assumption].
      cbn [main_loop]. rewrite Hrow. exact Hb.
    + injection (Hstop ltac:(discriminate)) as <- <-.
      destruct (main_row_stopped _ _ _ _ Hrow Hout) as (Hg & Hb & _ & Ht).
      exists [], row, rest, run. repeat split; assumption.
    + injection (Hstop ltac:(discriminate)) as <- <-.
      destruct (main_row_stopped _ _ _ _ Hrow Hout) as (Hg & Hb & _ & Ht).
      exists [], row, rest, run. repeat split; assumption.
Qed.

(** X14.  The loop stops at the first row that does not return.  When the
    row loop ends with an exit or an exception, the input splits into the
    rows before a row, that row, and the rest: the rows before were
    processed normally, the row itself ended the loop, and the two files
    hold what they held after the rows before it.  Nothing of that row or
    of any later row is written; the total counter does count the row. *)
Theorem main_loop_stops_at_first_failure (run run' : Run)
  (rows : list (list string)) (out : result unit) :
  main_loop run rows = (run', out) ->
  out <> Ret tt ->
  exists (before : list (list string)) (row : list string)
         (rest : list (list string)) (run1 : Run),
    rows = before ++ row :: rest
    /\ main_loop run before = (run1, Ret tt)
    /\ main_row run1 row = (run', out)
    /\ goodDataFile run' = goodDataFile run1
    /\ badDataFile run' = badDataFile run1
    /\ totalRowCounter run' = totalRowCounter run1 + 1.
Proof. apply main_loop_stopped. Qed.

Lemma main_loop_stops_at_first_failure_witness :
  exists (before : list (list string)) (row : list string)
         (rest : list (list string)) (run1 : Run),
    [["12345678a"]; ["021000021"]] = before ++ row :: rest
    /\ main_loop (mkRun aba_only [] [] 0 0 0) before = (run1, Ret tt)
    /\ main_row run1 row
       = (fst (main_loop (mkRun aba_only [] [] 0 0 0)
                 [["12345678a"]; ["021000021"]]),
          Raise ValueError)
    /\ goodDataFile (fst (main_loop (mkRun aba_only [] [] 0 0 0)
                            [["12345678a"]; ["021000021"]]))
       = goodDataFile run1
    /\ badDataFile (fst (main_loop (mkRun aba_only [] [] 0 0 0)
                           [["12345678a"]; ["021000021"]]))
       = badDataFile run1
    /\ totalRowCounter (fst (main_loop (mkRun aba_only [] [] 0 0 0)
                               [["12345678a"]; ["021000021"]]))
       = totalRowCounter run1 + 1.
Proof.
  apply (main_loop_stops_at_first_failure (mkRun aba_only [] [] 0 0 0)
           (fst (main_loop (mkRun aba_only [] [] 0 0 0)
                   [["12345678a"]; ["021000021"]]))
           [["12345678a"]; ["021000021"]] (Raise ValueError) eq_refl).
  discriminate.
Defined.

(** ** The failure counters *)

Lemma validateRow_counter (self : CSVDataValidator) (row : list string)
  (i : nat) :
  badFieldCounters (fst (validateRow self row)) !! i
  = (fun count => count + (if failed_at self i row then 1 else 0))
      <$> badFieldCounters self !! i.
Proof.
  unfold failed_at.
  destruct (validateRow self row) as [s' out] eqn:Hrun. cbn [fst snd].
  assert (Hsame : forall o : option Z, (fun count => count + 0) <$> o = o).
  { intros [c|]; cbn; [f_equal; lia | reflexivity]. }
  destruct out as [r| |].
  - destruct (Z.le_gt_cases 0 r) as [Hr|Hr].
    + destruct (validateRow_nonneg_inv _ _ _ _ Hrun Hr)
        as (j & raw & count & -> & _ & _ & _ & _ & _ & Hc & ->).
      cbn [set_badFieldCounters badFieldCounters]. unfold RejectedFieldFailed.
      destruct (decide (j = i)) as [->|Hne].
      * rewrite lookup_insert_eq, Hc, Z.eqb_refl. reflexivity.
      * rewrite lookup_insert_ne by exact Hne.
        destruct (Z.eqb_spec (Z.of_nat j) (Z.of_nat i)); [lia|]. apply eq_sym, Hsame.
    + destruct (Z.eqb_spec r (Z.of_nat i)); [lia|].
      pose proof (validateRow_change self row) as Hch. rewrite Hrun in Hch.
      cbn [fst snd] in Hch.
      destruct Hch as [-> | (j & c & [= ->] & _)];
        [apply eq_sym, Hsame | unfold RejectedFieldFailed in Hr; lia].
  - pose proof (validateRow_change self row) as Hch. rewrite Hrun in Hch.
    cbn [fst snd] in Hch.
    destruct Hch as [-> | (j & c & [=] & _)]. apply eq_sym, Hsame.
  - pose proof (validateRow_change self row) as Hch. rewrite Hrun in Hch.
    cbn [fst snd] in Hch.
    destruct Hch as [-> | (j & c & [=] & _)]. apply eq_sym, Hsame.
Qed.

Lemma after_rows_counter (rows : list (list string)) (i : nat) :
  forall self : CSVDataValidator,
    badFieldCounters (after_rows self rows) !! i
    = (fun count =>
         count + Z.of_nat (length (List.filter (failed_at self i) rows)))
        <$> badFieldCounters self !! i.
Proof.
  unfold after_rows.
  induction rows as [|row rest IH]; intros self.
  - cbn. destruct (badFieldCounters self !! i); cbn; [f_equal; lia | reflexivity].
  - cbn [foldl List.filter]. rewrite IH, validateRow_counter.
    rewrite (List.filter_ext _ _ (fun r => failed_at_same_rules _ _ i r
                                             (validateRow_keeps_rules self row))).
    destruct (badFieldCounters self !! i) as [count|]; [|reflexivity].
    cbn. f_equal. destruct (failed_at self i row); cbn [length]; lia.
Qed.

(** X15.  A failure counter counts the rows rejected at its field.  When the
    row loop ends normally, the counter of each position has grown by the
    number of rows that were answered with that position, and by nothing
    else: rows rejected for their shape or for empty fields are not
    counted at any position. *)
Theorem main_loop_failure_counters (run run' : Run)
  (rows : list (list string)) (i : nat) :
  main_loop run rows = (run', Ret tt) ->
  badFieldCounters (currentValidator run') !! i
  = (fun count =>
       count
       + Z.of_nat (length (List.filter (failed_at (currentValidator run) i) rows)))
      <$> badFieldCounters (currentValidator run) !! i.
Proof.
  intros H. apply main_loop_ret in H as (-> & _). apply after_rows_counter.
Qed.

Lemma main_loop_failure_counters_witness :
  badFieldCounters (currentValidator (fst (main_loop sample_run sample_rows)))
    !! 1%nat
  = Some 1.
Proof.
  rewrite (main_loop_failure_counters sample_run
             (fst (main_loop sample_run sample_rows)) sample_rows 1 eq_refl).
  reflexivity.
Defined.

(** ** The answers there are, and runs that end normally *)

Lemma validateRow_codes (self s' : CSVDataValidator) (row : list string)
  (r : Z) :
  validateRow self row = (s', Ret r) ->
  r = Accepted \/ r = RejectedShapeMismatch \/ r = RejectedTooManyEmptyFields
  \/ (0 <= r < Z.of_nat (length row)
      /\ length row = size (validators self)
      /\ name self <> "novalidate").
Proof.
  unfold Accepted, RejectedShapeMismatch, RejectedTooManyEmptyFields.
  intros Hrun.
  destruct (decide (name self = "novalidate")) as [Hn|Hname].
  { unfold validateRow in Hrun. rewrite Hn in Hrun. cbn in Hrun.
    injection Hrun as _ <-. auto. }
  pose proof Hrun as Hrun0.
  rewrite (validateRow_unfold _ _ Hname) in Hrun.
  case_decide as Hlen; [|injection Hrun as _ <-; auto].
  destruct (validateRow_for_inv self row 0 0)
    as [(_ & _ & Hr')
       | [(pre & raw & post & _ & _ & _ & _ & _ & Hr')
         | (pre & raw & post & Hrow & _ & _ & _ & Hr')]];
    rewrite Hr' in Hrun; try (injection Hrun as _ <-; auto).
  apply stop_not_negative in Hrun as Hr.
  destruct (validateRow_nonneg_inv _ _ _ _ Hrun0 Hr)
    as (i & _ & _ & -> & Hi & _).
  unfold RejectedFieldFailed. do 3 right. repeat split; try assumption; lia.
Qed.

(** X16.  The answers of [validateRow] are [-1], [-2], [-3] and the positions
    of the row.  An integer it returns that is none of the three negative
    codes is a valid position of the row, and then the row has as many
    fields as there are rules and the name is not ["novalidate"]. *)
Theorem validateRow_answer_range (self s' : CSVDataValidator)
  (row : list string) (r : Z) :
  validateRow self row = (s', Ret r) ->
  r = Accepted \/ r = RejectedShapeMismatch \/ r = RejectedTooManyEmptyFields
  \/ (0 <= r < Z.of_nat (length row)
      /\ length row = size (validators self)
      /\ name self <> "novalidate").
Proof. apply validateRow_codes. Qed.

Lemma validateRow_answer_range_witness :
  1 = Accepted \/ 1 = RejectedShapeMismatch \/ 1 = RejectedTooManyEmptyFields
  \/ (0 <= 1 < Z.of_nat (length ["Bob"; " "])
      /\ length ["Bob"; " "] = size (validators two_fields)
      /\ name two_fields <> "novalidate").
Proof.
  apply (validateRow_answer_range two_fields
           (fst (validateRow two_fields ["Bob"; " "])) ["Bob"; " "] 1 eq_refl).
Defined.

(** A run whose instance has the rules of [v], is well formed, and has a
    name for every position below the number of rules. *)
Lemma main_row_completes (v : CSVDataValidator) (run : Run)
  (row : list string) :
  same_rules v (currentValidator run) ->
  wf (currentValidator run) ->
  (forall i : nat, (i < size (validators v))%nat ->
                   is_Some (fieldNames (currentValidator run) !! i)) ->
  (forall (i : nat) (rule : Validator),
      validators v !! i = Some rule -> well_configured rule = true) ->
  (forall (i : nat) (raw : string) (rule : Validator),
      row !! i = Some raw -> validators v !! i = Some rule ->
      aba_crash rule (strip raw) = false) ->
  exists run1 : Run,
    main_row run row = (run1, Ret tt)
    /\ same_rules v (currentValidator run1)
    /\ wf (currentValidator run1)
    /\ fieldNames (currentValidator run1) = fieldNames (currentValidator run).
Proof.
  intros Hsame Hwf Hnames Hrules Hrow.
  pose proof Hsame as (_ & Hv & _).
  assert (Hret : exists r, snd (validateRow (currentValidator run) row) = Ret r).
  { destruct (validateRow_complete_rules (currentValidator run) row Hwf)
      as [Hr | (_ & i & raw & rule & Hi & Hrule & Hcrash)].
    - intros i rule. rewrite Hv. apply Hrules.
    - exact Hr.
    - rewrite Hv in Hrule. rewrite (Hrow _ _ _ Hi Hrule) in Hcrash.
      discriminate Hcrash. }
  destruct Hret as [r Hr].
  assert (Hafter : same_rules v (fst (validateRow (currentValidator run) row))
                   /\ wf (fst (validateRow (currentValidator run) row))
                   /\ fieldNames (fst (validateRow (currentValidator run) row))
                      = fieldNames (currentValidator run)).
  { split; [eapply same_rules_trans; [exact Hsame|];
            apply validateRow_keeps_rules|].
    split; [now apply validateRow_wf|]. apply validateRow_frame. }
  pose proof (main_row_validator run row) as Hcv.
  unfold main_row in *.
  destruct (validateRow (currentValidator run) row) as [s' out] eqn:Hrun.
  cbn [fst snd] in *. subst out.
  destruct (validateRow_codes _ _ _ _ Hrun)
    as [-> | [-> | [-> | (Hr & Hlen & Hname)]]];
    try (eexists; split; [reflexivity | exact Hafter]).
  destruct (Z.eqb_spec r (-1)); [lia|].
  destruct (Z.eqb_spec r (-2)); [lia|].
  destruct (Z.eqb_spec r (-3)); [lia|].
  destruct (validateRow_nonneg_inv _ _ _ _ Hrun (proj1 Hr))
    as (i & raw & count & -> & Hi & Hraw & _).
  rewrite Hv in Hi. destruct (Hnames i Hi) as [fieldName Hfn].
  destruct Hafter as (Ha & Hb & Hc). rewrite <- Hc in Hfn.
  unfold bad_data_message, RejectedFieldFailed.
  rewrite (index_int_of_nat _ _ _ Hraw), (getitem_int_of_nat _ _ _ Hfn).
  cbn [bind]. destruct (0 <? len raw);
    (eexists; split;
     [reflexivity | split; [exact Ha | split; [exact Hb | exact Hc]]]).
Qed.

Lemma main_loop_completes (v : CSVDataValidator) (rows : list (list string)) :
  (forall (i : nat) (rule : Validator),
      validators v !! i = Some rule -> well_configured rule = true) ->
  (forall (row : list string) (i : nat) (raw : string) (rule : Validator),
      row ∈ rows -> row !! i = Some raw -> validators v !! i = Some rule ->
      aba_crash rule (strip raw) = false) ->
  forall run : Run,
    same_rules v (currentValidator run) ->
    wf (currentValidator run) ->
    (forall i : nat, (i < size (validators v))%nat ->
                     is_Some (fieldNames (currentValidator run) !! i)) ->
    exists run' : Run, main_loop run rows = (run', Ret tt).
Proof.
  intros Hrules.
  induction rows as [|row rest IH]; intros Hrows run Hsame Hwf Hnames.
  - exists run. reflexivity.
  - destruct (main_row_completes v run row Hsame Hwf Hnames Hrules)
      as (run1 & Hrow & Hsame1 & Hwf1 & Hfn1).
    { intros i raw rule. apply Hrows. left. }
    cbn [main_loop]. rewrite Hrow.
    apply IH; try assumption.
    + intros r i raw rule Hr. apply Hrows. now right.
    + rewrite Hfn1. exact Hnames.
Qed.

(** X17.  A run over a completely configured rule set ends normally.  Let the
    instance be well formed with rules that all carry the keys of their
    kind, under a name other than ["novalidate"].  Once the header has
    been accepted, the row loop processes every row to the end, provided
    no field meets a checked routing-number rule with nine characters that
    are not all decimal digits. *)
Theorem run_completes (v : CSVDataValidator) (input rows : list (list string))
  (run : Run) :
  wf v ->
  name v <> "novalidate" ->
  (forall (i : nat) (rule : Validator),
      validators v !! i = Some rule -> well_configured rule = true) ->
  main_header v input = Ret (run, rows) ->
  (forall (row : list string) (i : nat) (raw : string) (rule : Validator),
      row ∈ rows -> row !! i = Some raw -> validators v !! i = Some rule ->
      aba_crash rule (strip raw) = false) ->
  exists run' : Run, main_loop run rows = (run', Ret tt).
Proof.
  intros Hwf Hname Hrules Hheader Hrows.
  apply (main_loop_completes v rows Hrules Hrows).
  - unfold main_header in Hheader.
    destruct input as [|headerRow rest]; [discriminate|].
    destruct (_ && _); [discriminate|]. injection Hheader as <- _.
    apply getHeaderNames_keeps_rules.
  - unfold main_header in Hheader.
    destruct input as [|headerRow rest]; [discriminate|].
    destruct (_ && _); [discriminate|]. injection Hheader as <- _.
    now apply getHeaderNames_wf.
  - intros i Hi.
    destruct (main_header_names v input rows run i Hname Hheader Hi)
      as (headerRow & fieldName & _ & _ & Hfn).
    eauto.
Qed.

Lemma run_completes_witness :
  exists run' : Run,
    main_loop sample_run sample_rows = (run', Ret tt).
Proof.
  destruct concrete_wf as (Hwf & _).
  apply (run_completes two_fields (["name"; "code"] :: sample_rows) sample_rows
           sample_run Hwf).
  - vm_compute; discriminate.
  - apply all_rules_complete_two_fields.
  - reflexivity.
  - intros row i raw rule _ _ Hrule.
    apply elem_of_list_to_map_2 in Hrule.
    rewrite !elem_of_cons, elem_of_nil in Hrule.
    destruct Hrule as [Hrule | [Hrule | []]]; injection Hrule as -> ->;
      reflexivity.
Defined.

(** ** The header names *)

Lemma getHeaderNames_fieldNames (self : CSVDataValidator) (row : list string)
  (i : nat) :
  fieldNames (getHeaderNames self row) !! i
  = match row !! i with
    | Some field => Some field
    | None => fieldNames self !! i
    end.
Proof.
  unfold getHeaderNames.
  destruct (Z.ltb_spec 0 (Z.of_nat (length row))) as [Hpos|Hnil].
  - cbn [set_fieldNames fieldNames]. rewrite getHeaderNames_for_lookup.
    rewrite Nat.sub_0_r. case_decide as Hi.
    + destruct (lookup_lt_is_Some_2 row i) as [field Hf]; [lia|].
      now rewrite Hf.
    + rewrite (lookup_ge_None_2 row i) by lia. reflexivity.
  - destruct row; [reflexivity | cbn [length] in Hnil; lia].
Qed.

(** X18.  [getHeaderNames] records the header position by position and
    forgets nothing.  Afterwards the name of a position of the header is
    the label found there, and a position beyond the header keeps the name
    it had: a shorter header read later does not erase earlier names. *)
Theorem getHeaderNames_names (self : CSVDataValidator) (row : list string)
  (i : nat) :
  fieldNames (getHeaderNames self row) !! i
  = match row !! i with
    | Some field => Some field
    | None => fieldNames self !! i
    end.
Proof. apply getHeaderNames_fieldNames. Qed.

(** ** The constructor *)

Lemma init_for_result (re_compile : string -> option (string -> bool))
  (items : list (nat * Validator)) :
  forall self self' : CSVDataValidator,
    NoDup items.*1 ->
    (forall (k : nat) (v : Validator),
        (k, v) ∈ items -> validators self !! k = Some v) ->
    init_for re_compile items self = Ret self' ->
    forall i : nat,
      (i ∉ items.*1 ->
       validators self' !! i = validators self !! i
       /\ badFieldCounters self' !! i = badFieldCounters self !! i)
      /\ (forall v : Validator,
             (i, v) ∈ items ->
             badFieldCounters self' !! i = Some 0
             /\ exists v' : Validator,
                 validators self' !! i = Some v' /\ compiled re_compile v v').
Proof.
  induction items as [|[k v] rest IH]; intros self self' Hnd Hpre Hrun i.
  - cbn in Hrun. injection Hrun as <-. split; [auto|].
    intros w Hw. apply elem_of_nil in Hw. contradiction.
  - cbn [fmap list_fmap fst] in Hnd. apply NoDup_cons in Hnd as [Hk Hnd].
    cbn [init_for] in Hrun.
    assert (Hkv : validators self !! k = Some v) by (apply Hpre; left).
    (* the state after the entry [k], and that the loop goes on from it *)
    assert (Hstep : exists (self1 : CSVDataValidator) (v' : Validator),
               init_for re_compile rest self1 = Ret self'
               /\ compiled re_compile v v'
               /\ validators self1 = <[k := v']> (validators self)
               /\ badFieldCounters self1 = <[k := 0]> (badFieldCounters self)).
    { unfold compiled. destruct (String.eqb (type v) "re").
      - destruct (regex v) as [pattern|]; [|discriminate].
        cbn [getitem bind] in Hrun.
        destruct (re_compile pattern) as [c|] eqn:Hc; [|discriminate].
        eexists _, (set_compiledRegex v c).
        split; [exact Hrun|]. split; [eauto|]. split; reflexivity.
      - eexists _, v. split; [exact Hrun|]. split; [reflexivity|].
        split; [|reflexivity].
        cbn [set_badFieldCounters validators]. now rewrite insert_id. }
    destruct Hstep as (self1 & v' & Hrest & Hcomp & Hv1 & Hc1).
    assert (Hpre1 : forall (k' : nat) (w : Validator),
               (k', w) ∈ rest -> validators self1 !! k' = Some w).
    { intros k' w Hw. rewrite Hv1, lookup_insert_ne.
      - apply Hpre. now right.
      - intros ->. apply Hk. apply list_elem_of_fmap. exists (k', w). auto. }
    destruct (IH self1 self' Hnd Hpre1 Hrest i) as [Hout Hin].
    cbn [fmap list_fmap fst]. split.
    + intros Hi. apply not_elem_of_cons in Hi as [Hik Hi].
      destruct (Hout Hi) as [Hv Hc].
      rewrite Hv, Hc, Hv1, Hc1, !lookup_insert_ne by congruence. auto.
    + intros w Hw. apply elem_of_cons in Hw as [[= -> ->] | Hw].
      * destruct (IH self1 self' Hnd Hpre1 Hrest k) as [Hout' _].
        destruct (Hout' Hk) as [Hv Hc].
        rewrite Hv, Hc, Hv1, Hc1, !lookup_insert_eq. eauto.
      * apply (Hin w Hw).
Qed.

Lemma init_result (re_compile : string -> option (string -> bool))
  (validatorDict : ValidatorDict) (self : CSVDataValidator) :
  init re_compile validatorDict = Ret self ->
  wf self
  /\ dict_name validatorDict = Some (name self)
  /\ fieldNames self = ∅
  /\ exists vs : gmap nat Validator,
      dict_validators validatorDict = Some vs
      /\ forall i : nat,
          match vs !! i with
          | None =>
              validators self !! i = None /\ badFieldCounters self !! i = None
          | Some v =>
              badFieldCounters self !! i = Some 0
              /\ exists v' : Validator,
                  validators self !! i = Some v' /\ compiled re_compile v v'
          end.
Proof.
  intros Hinit.
  destruct (init_wf _ _ _ Hinit) as (Hwf & Hn & _ & Hf).
  split; [exact Hwf|]. split; [exact Hn|]. split; [exact Hf|].
  unfold init in Hinit. destruct (0 <? dict_len validatorDict); [|discriminate].
  destruct (dict_name validatorDict) as [n|]; [|discriminate].
  destruct (dict_validators validatorDict) as [vs|]; [|discriminate].
  cbn [getitem bind] in Hinit. exists vs. split; [reflexivity|].
  intros i.
  set (self0 := mkCSVDataValidator n vs (Z.of_nat (size vs))
                  (Z.of_nat (size vs) - 1) ∅ ∅) in Hinit.
  assert (Hpre : forall (k : nat) (v : Validator),
             (k, v) ∈ map_to_list vs -> validators self0 !! k = Some v).
  { intros k v Hkv. now apply elem_of_map_to_list in Hkv. }
  destruct (init_for_result re_compile (map_to_list vs) self0 self
              (NoDup_fst_map_to_list vs) Hpre Hinit i) as [Hout Hin].
  destruct (vs !! i) as [v|] eqn:Hi.
  - apply Hin. now apply elem_of_map_to_list.
  - destruct Hout as [Hv Hc].
    { intros Hmem. apply list_elem_of_fmap in Hmem as ([k v] & -> & Hkv).
      apply elem_of_map_to_list in Hkv. cbn in Hi. congruence. }
    rewrite Hv, Hc. subst self0. cbn [validators badFieldCounters].
    split; [exact Hi | apply lookup_empty].
Qed.

(** X19.  What the constructor returns.  An instance returned by the
    constructor is well formed, carries the name of the dictionary and no
    field names, has a counter at 0 for exactly the positions of the
    dictionary, and has at each of them the rule of the dictionary, an
    ['re'] rule with its pattern compiled and any other rule unchanged. *)
Theorem init_postcondition (re_compile : string -> option (string -> bool))
  (validatorDict : ValidatorDict) (self : CSVDataValidator) :
  init re_compile validatorDict = Ret self ->
  wf self
  /\ dict_name validatorDict = Some (name self)
  /\ fieldNames self = ∅
  /\ exists vs : gmap nat Validator,
      dict_validators validatorDict = Some vs
      /\ forall i : nat,
          match vs !! i with
          | None =>
              validators self !! i = None /\ badFieldCounters self !! i = None
          | Some v =>
              badFieldCounters self !! i = Some 0
              /\ exists v' : Validator,
                  validators self !! i = Some v' /\ compiled re_compile v v'
          end.
Proof. apply init_result. Qed.

Lemma init_postcondition_witness :
  wf two_fields
  /\ dict_name two_fields_dict = Some (name two_fields)
  /\ fieldNames two_fields = ∅.
Proof.
  destruct (init_postcondition (fun _ => None) two_fields_dict two_fields eq_refl)
    as (Hwf & Hn & Hf & _).
  auto.
Defined.

Lemma init_for_succeeds (re_compile : string -> option (string -> bool))
  (items : list (nat * Validator)) :
  Forall (fun kv => compilable re_compile kv.2) items ->
  forall self : CSVDataValidator,
    exists self' : CSVDataValidator, init_for re_compile items self = Ret self'.
Proof.
  induction 1 as [|[k v] rest Hv _ IH]; intros self.
  - exists self. reflexivity.
  - cbn [init_for]. cbn [snd] in Hv. unfold compilable in Hv.
    destruct (String.eqb_spec (type v) "re") as [Hre|_]; [|apply IH].
    destruct (Hv Hre) as (pattern & c & -> & Hc).
    cbn [getitem bind]. rewrite Hc. apply IH.
Qed.

(** X20.  When the constructor succeeds.  It returns an instance exactly when
    the dictionary has both of its keys and every ['re'] rule has a
    pattern that [re.compile] accepts; the kinds of the other rules and
    their parameters are not looked at. *)
Theorem init_succeeds_iff (re_compile : string -> option (string -> bool))
  (validatorDict : ValidatorDict) :
  (exists self : CSVDataValidator, init re_compile validatorDict = Ret self)
  <-> exists (n : string) (vs : gmap nat Validator),
      dict_name validatorDict = Some n
      /\ dict_validators validatorDict = Some vs
      /\ forall (i : nat) (v : Validator),
          vs !! i = Some v -> compilable re_compile v.
Proof.
  split.
  - intros [self Hinit].
    destruct (init_result _ _ _ Hinit) as (_ & Hn & _ & vs & Hvs & Hall).
    exists (name self), vs. split; [exact Hn|]. split; [exact Hvs|].
    intros i v Hi Hre. specialize (Hall i). rewrite Hi in Hall.
    destruct Hall as (_ & v' & _ & Hcomp). unfold compiled in Hcomp.
    rewrite Hre in Hcomp. cbn in Hcomp.
    destruct Hcomp as (pattern & c & Hp & Hc & _). eauto.
  - intros (n & vs & Hn & Hvs & Hall). unfold init, dict_len.
    rewrite Hn, Hvs. cbn [Z.add Z.ltb Z.compare Pos.add getitem bind].
    apply init_for_succeeds. apply Forall_forall. intros [k v] Hkv.
    apply elem_of_map_to_list in Hkv. cbn [snd]. eauto.
Qed.

Lemma init_succeeds_iff_witness :
  (exists self : CSVDataValidator,
      init (fun _ => None) unknown_kind_dict = Ret self)
  /\ ~ (exists self : CSVDataValidator,
           init (fun _ => None) EmployeeValidatorDict = Ret self).
Proof.
  split.
  - apply (proj2 (init_succeeds_iff (fun _ => None) unknown_kind_dict)).
    eexists _, _. split; [reflexivity|]. split; [reflexivity|].
    intros i v Hv Hre. apply elem_of_list_to_map_2 in Hv.
    rewrite !elem_of_cons, elem_of_nil in Hv.
    destruct Hv as [Hv | [Hv | []]]; injection Hv as -> ->; discriminate Hre.
  - intros Hex.
    apply (proj1 (init_succeeds_iff (fun _ => None) EmployeeValidatorDict)) in Hex.
    destruct Hex as (n & vs & _ & [= <-] & Hall).
    destruct (Hall 1%nat _ eq_refl eq_refl) as (pattern & c & _ & Hc).
    discriminate Hc.
Defined.

(** ** The registry and the choice of the instance *)

Lemma lookup_setitem {V : Type} (k k' : string) (v : V)
  (d : list (string * V)) :
  lookup_item k (setitem k' v d)
  = if String.eqb k' k then Some v else lookup_item k d.
Proof.
  induction d as [|[k0 v0] rest IH]; [reflexivity|].
  cbn [setitem lookup_item].
  destruct (String.eqb_spec k0 k') as [->|Hne]; cbn [lookup_item].
  - destruct (String.eqb k' k); reflexivity.
  - rewrite IH. destruct (String.eqb_spec k0 k) as [->|]; [|reflexivity].
    destruct (String.eqb_spec k' k) as [->|]; [congruence | reflexivity].
Qed.

Lemma configure_registered (re_compile : string -> option (string -> bool))
  (all config : list ValidatorDict) :
  (forall d, d ∈ config -> d ∈ all) ->
  forall reg reg' : list (string * CSVDataValidator),
    registered re_compile all reg ->
    configure re_compile config reg = Ret reg' ->
    registered re_compile all reg'.
Proof.
  induction config as [|d rest IH]; intros Hsub reg reg' Hreg Hrun.
  - cbn in Hrun. injection Hrun as <-. exact Hreg.
  - cbn [configure] in Hrun.
    destruct (init re_compile d) as [v| |] eqn:Hinit; try discriminate.
    cbn [bind] in Hrun.
    apply (IH (fun d' Hd' => Hsub d' (list_elem_of_further _ _ _ Hd'))
             _ _) in Hrun; [exact Hrun|].
    intros k w Hk. rewrite lookup_setitem in Hk.
    destruct (String.eqb_spec (name v) k) as [Hname|_].
    + injection Hk as <-. split; [exact Hname|].
      exists d. split; [apply Hsub; left | exact Hinit].
    + apply (Hreg k w Hk).
Qed.

(** X21.  The instance chosen is the one configured under the requested
    name.  After the configuration section has built the registry, the
    choice succeeds only for a command line of five arguments, and the
    chosen instance was constructed from one of the configured
    dictionaries and has the first argument as its name.  With five
    arguments and a first argument that no configured dictionary has as
    its name, the script exits naming the argument and the configured
    names. *)
Theorem main_select_result (re_compile : string -> option (string -> bool))
  (config : list ValidatorDict) (validators : list (string * CSVDataValidator))
  (argv : list string) :
  configure re_compile config [] = Ret validators ->
  (forall v : CSVDataValidator,
      main_select validators argv = Ret v ->
      length argv = 5%nat
      /\ argv !! 1%nat = Some (name v)
      /\ exists d : ValidatorDict, d ∈ config /\ init re_compile d = Ret v)
  /\ (forall sourcetype : string,
         length argv = 5%nat ->
         argv !! 1%nat = Some sourcetype ->
         (forall d : ValidatorDict, d ∈ config -> dict_name d <> Some sourcetype) ->
         main_select validators argv
         = Exit ("Unknown source data type: " +:+ sourcetype +:+ nl
                 +:+ "Valid types are: " +:+ validatorNames validators +:+ nl)).
Proof.
  intros Hconf.
  assert (Hreg : registered re_compile config validators).
  { apply (configure_registered re_compile config config (fun d H => H) []);
      [|exact Hconf].
    intros k v Hk. discriminate Hk. }
  split.
  - intros v Hsel. unfold main_select in Hsel.
    destruct (Z.eqb_spec (Z.of_nat (length argv)) 5) as [Hlen|];
      [|discriminate].
    cbn [negb] in Hsel. unfold index in Hsel.
    destruct (argv !! 1%nat) as [sourcetype|] eqn:Harg; [|discriminate].
    cbn [bind] in Hsel.
    destruct (lookup_item sourcetype validators) as [w|] eqn:Hw;
      [|discriminate].
    injection Hsel as ->. destruct (Hreg _ _ Hw) as [Hname Hd].
    split; [lia|]. split; [now rewrite Hname | exact Hd].
  - intros sourcetype Hlen Harg Hnone. unfold main_select, index.
    rewrite Hlen, Harg. cbn [Z.of_nat Pos.of_succ_nat Pos.succ Z.eqb Pos.eqb negb bind].
    destruct (lookup_item sourcetype validators) as [w|] eqn:Hw; [|reflexivity].
    destruct (Hreg _ _ Hw) as [Hname (d & Hd & Hinit)].
    destruct (init_wf _ _ _ Hinit) as (_ & Hdn & _).
    rewrite Hname in Hdn. destruct (Hnone d Hd Hdn).
Qed.

Lemma main_select_result_witness :
  main_select [("pair", two_fields); ("single", one_field)]
    ["CSVDataValidator.py"; "customer"; "in.csv"; "good.csv"; "bad.csv"]
  = Exit ("Unknown source data type: customer" +:+ nl
          +:+ "Valid types are: pair single " +:+ nl)
  /\ (forall v : CSVDataValidator,
         main_select [("pair", two_fields); ("single", one_field)]
           ["CSVDataValidator.py"; "single"; "in.csv"; "good.csv"; "bad.csv"]
         = Ret v ->
         name v = "single").
Proof.
  destruct (main_select_result (fun _ => None) [two_fields_dict; one_field_dict]
              [("pair", two_fields); ("single", one_field)]
              ["CSVDataValidator.py"; "customer"; "in.csv"; "good.csv"; "bad.csv"]
              eq_refl) as [_ Hunknown].
  destruct (main_select_result (fun _ => None) [two_fields_dict; one_field_dict]
              [("pair", two_fields); ("single", one_field)]
              ["CSVDataValidator.py"; "single"; "in.csv"; "good.csv"; "bad.csv"]
              eq_refl) as [Hknown _].
  split.
  - apply (Hunknown "customer" eq_refl eq_refl).
    intros d Hd. rewrite !elem_of_cons, elem_of_nil in Hd.
    destruct Hd as [-> | [-> | []]]; discriminate.
  - intros v Hv. destruct (Hknown v Hv) as (_ & Harg & _).
    now injection Harg.
Defined.

(** ** The summary after the row loop *)

Lemma main_summary_for_missing (names : gmap nat string)
  (items : list (nat * Z)) :
  Exists (fun kv => names !! kv.1 = None) items ->
  main_summary_for names items = Raise KeyError.
Proof.
  induction items as [|[k c] rest IH]; intros Hex; [inversion Hex|].
  cbn [main_summary_for].
  destruct (names !! k) as [fieldName|] eqn:Hk; [|reflexivity].
  cbn [getitem bind].
  inversion Hex as [? ? Hbad | ? ? Hrest]; subst.
  - cbn [fst] in Hbad. congruence.
  - now rewrite (IH Hrest).
Qed.

Lemma main_summary_for_named (names : gmap nat string)
  (items : list (nat * Z)) :
  Forall (fun kv => is_Some (names !! kv.1)) items ->
  exists lines : list (string * Z),
    main_summary_for names items = Ret lines
    /\ Forall2 (fun line kv => names !! kv.1 = Some line.1 /\ line.2 = kv.2)
         lines items.
Proof.
  induction 1 as [|[k c] rest [fieldName Hk] _ (lines & Hrun & Hlines)].
  - exists []. split; [reflexivity | constructor].
  - exists ((fieldName, c) :: lines). cbn [main_summary_for].
    cbn [fst] in Hk. rewrite Hk, Hrun. cbn [getitem bind].
    split; [reflexivity|]. constructor; [split; [exact Hk | reflexivity]|].
    exact Hlines.
Qed.

Lemma summary_lines_elem (names : gmap nat string) (lines : list (string * Z))
  (items : list (nat * Z)) (fieldName : string) (count : Z) :
  Forall2 (fun line kv => names !! kv.1 = Some line.1 /\ line.2 = kv.2)
    lines items ->
  (fieldName, count) ∈ lines
  <-> exists k : nat, (k, count) ∈ items /\ names !! k = Some fieldName.
Proof.
  induction 1 as [|[fn c] [k c'] lines items [Hn Hc] _ IH].
  - split; [intros H; now apply elem_of_nil in H|].
    intros (k & H & _). now apply elem_of_nil in H.
  - cbn [fst snd] in Hn, Hc. subst c'. rewrite elem_of_cons, IH. split.
    + intros [[= -> ->] | (k' & Hk' & Hn')].
      * exists k. split; [left | exact Hn].
      * exists k'. split; [now right | exact Hn'].
    + intros (k' & Hk' & Hn'). apply elem_of_cons in Hk' as [[= -> ->] | Hk'].
      * left. congruence.
      * right. eauto.
Qed.

Lemma main_summary_cases (run : Run) :
  ((exists i : nat,
       is_Some (badFieldCounters (currentValidator run) !! i)
       /\ fieldNames (currentValidator run) !! i = None) ->
   main_summary run = Raise KeyError)
  /\ ((forall i : nat,
          is_Some (badFieldCounters (currentValidator run) !! i) ->
          is_Some (fieldNames (currentValidator run) !! i)) ->
      exists lines : list (string * Z),
        main_summary run = Ret lines
        /\ length lines = size (badFieldCounters (currentValidator run))
        /\ forall (fieldName : string) (count : Z),
            (fieldName, count) ∈ lines
            <-> exists i : nat,
                badFieldCounters (currentValidator run) !! i = Some count
                /\ fieldNames (currentValidator run) !! i = Some fieldName).
Proof.
  unfold main_summary. split.
  - intros (i & [count Hc] & Hn). apply main_summary_for_missing.
    apply Exists_exists. exists (i, count).
    split; [now apply elem_of_map_to_list | exact Hn].
  - intros Hall.
    destruct (main_summary_for_named (fieldNames (currentValidator run))
                (map_to_list (badFieldCounters (currentValidator run))))
      as (lines & Hrun & Hlines).
    { apply Forall_forall. intros [k c] Hkc.
      apply elem_of_map_to_list in Hkc. apply Hall. eauto. }
    exists lines. split; [exact Hrun|]. split.
    + rewrite (Forall2_length _ _ _ Hlines). apply length_map_to_list.
    + intros fieldName count.
      rewrite (summary_lines_elem _ _ _ _ _ Hlines).
      split; intros (k & Hk & Hn); exists k; split; try exact Hn;
        now apply elem_of_map_to_list.
Qed.

(** X22.  The summary needs a name for every counted position.  The loop
    that prints the per-field counts raises [KeyError] when some position
    with a counter has no field name.  When every such position has one,
    it prints one line per counter, and the lines are exactly the pairs of
    the name and the count of a position. *)
Theorem main_summary_outcome (run : Run) :
  ((exists i : nat,
       is_Some (badFieldCounters (currentValidator run) !! i)
       /\ fieldNames (currentValidator run) !! i = None) ->
   main_summary run = Raise KeyError)
  /\ ((forall i : nat,
          is_Some (badFieldCounters (currentValidator run) !! i) ->
          is_Some (fieldNames (currentValidator run) !! i)) ->
      exists lines : list (string * Z),
        main_summary run = Ret lines
        /\ length lines = size (badFieldCounters (currentValidator run))
        /\ forall (fieldName : string) (count : Z),
            (fieldName, count) ∈ lines
            <-> exists i : nat,
                badFieldCounters (currentValidator run) !! i = Some count
                /\ fieldNames (currentValidator run) !! i = Some fieldName).
Proof. apply main_summary_cases. Qed.

Lemma main_summary_outcome_witness :
  main_summary (mkRun one_field [] [] 0 0 0) = Raise KeyError
  /\ exists lines : list (string * Z),
      main_summary (fst (main_loop sample_run sample_rows)) = Ret lines
      /\ length lines = 2%nat.
Proof.
  split.
  - apply (proj1 (main_summary_outcome (mkRun one_field [] [] 0 0 0))).
    exists 0%nat. split; [eexists|]; reflexivity.
  - destruct (proj2 (main_summary_outcome (fst (main_loop sample_run sample_rows))))
      as (lines & Hrun & Hlen & _).
    + intros i Hi. apply elem_of_dom in Hi.
      assert (Hd : dom (badFieldCounters
                          (currentValidator (fst (main_loop sample_run sample_rows))))
                   =@{gset nat} {[0%nat; 1%nat]}) by (vm_compute; reflexivity).
      rewrite Hd in Hi.
      apply elem_of_union in Hi as [Hi | Hi]; apply elem_of_singleton in Hi;
        subst i; eexists; reflexivity.
    + exists lines. split; [exact Hrun | exact Hlen].
Defined.

Lemma sparse_or_dense (v : CSVDataValidator) :
  (exists p : nat,
      is_Some (validators v !! p) /\ (size (validators v) <= p)%nat)
  \/ (forall p : nat,
         is_Some (validators v !! p) -> (p < size (validators v))%nat).
Proof.
  destruct (Forall_Exists_dec
              (fun kv : nat * Validator => (kv.1 < size (validators v))%nat)
              (fun kv : nat * Validator => (size (validators v) <= kv.1)%nat)
              (fun kv =>
                 match Compare_dec.le_lt_dec (size (validators v)) kv.1 with
                 | left Hle => right Hle
                 | right Hlt => left Hlt
                 end)
              (map_to_list (validators v))) as [Hall | Hex].
  - right. intros p [rule Hp].
    rewrite Forall_forall in Hall.
    apply (Hall (p, rule)). now apply elem_of_map_to_list.
  - left. apply Exists_exists in Hex as ([p rule] & Hin & Hge).
    apply elem_of_map_to_list in Hin. exists p. split; [eauto | exact Hge].
Qed.

(** X23.  Rule positions must be the positions of the header for the summary
    to be printed.  Take an instance as constructed (well formed, no field
    names yet) under a name other than ["novalidate"], a header that is
    accepted, and a row loop that ends normally.  Then the summary raises
    [KeyError] exactly when some rule sits at a position at or beyond the
    number of rules; otherwise it prints one line per rule. *)
Theorem main_summary_needs_dense_positions (v : CSVDataValidator)
  (input rows : list (list string)) (run run' : Run) :
  wf v ->
  fieldNames v = ∅ ->
  name v <> "novalidate" ->
  main_header v input = Ret (run, rows) ->
  main_loop run rows = (run', Ret tt) ->
  (main_summary run' = Raise KeyError
   <-> exists p : nat,
       is_Some (validators v !! p) /\ (size (validators v) <= p)%nat)
  /\ ((forall p : nat,
          is_Some (validators v !! p) -> (p < size (validators v))%nat) ->
      exists lines : list (string * Z),
        main_summary run' = Ret lines
        /\ length lines = size (validators v)).
Proof.
  intros Hwf Hempty Hname Hheader Hloop.
  assert (Hcounters : forall i : nat,
             is_Some (badFieldCounters (currentValidator run') !! i)
             <-> is_Some (validators v !! i)).
  { intros i. apply main_loop_ret in Hloop as (-> & _).
    unfold main_header in Hheader.
    destruct input as [|headerRow rest]; [discriminate|].
    destruct (_ && _); [discriminate|]. injection Hheader as <- _.
    cbn [currentValidator].
    pose proof (same_rules_trans _ _ _
                  (getHeaderNames_keeps_rules v headerRow)
                  (after_rows_keeps_rules rows (getHeaderNames v headerRow)))
      as (_ & _ & _ & _ & Hd).
    destruct Hwf as (_ & _ & Hdom).
    rewrite <- !elem_of_dom, Hd, Hdom. reflexivity. }
  assert (Hnames : forall i : nat,
             is_Some (fieldNames (currentValidator run') !! i)
             <-> (i < size (validators v))%nat).
  { intros i.
    pose proof (main_loop_fieldNames rows run) as Hfn.
    rewrite Hloop in Hfn. cbn [fst] in Hfn. rewrite Hfn.
    unfold main_header in Hheader.
    destruct input as [|headerRow rest]; [discriminate|].
    apply String.eqb_neq in Hname. rewrite Hname in Hheader.
    cbn [negb andb] in Hheader.
    destruct (Z.eqb_spec (Z.of_nat (length headerRow))
                (Z.of_nat (size (validators v)))) as [Hlen|]; [|discriminate].
    cbn [negb] in Hheader. injection Hheader as <- _. cbn [currentValidator].
    rewrite getHeaderNames_fieldNames, Hempty, lookup_empty.
    destruct (headerRow !! i) as [field|] eqn:Hi.
    - apply lookup_lt_Some in Hi. split; [lia | eauto].
    - apply lookup_ge_None in Hi. split; [intros [? [=]] | lia]. }
  assert (Hsize : size (badFieldCounters (currentValidator run'))
                  = size (validators v)).
  { rewrite <- !size_dom. f_equal. apply set_eq. intros i.
    rewrite !elem_of_dom. apply Hcounters. }
  destruct (main_summary_cases run') as [Hmissing Hnamed].
  split; [split|].
  - intros Hraise.
    destruct (sparse_or_dense v) as [Hsparse | Hdense]; [exact Hsparse|].
    destruct Hnamed as (lines & Hrun & _).
    { intros i Hi. apply Hnames, Hdense, Hcounters, Hi. }
    congruence.
  - intros (p & Hp & Hge). apply Hmissing. exists p.
    split; [now apply Hcounters|].
    destruct (fieldNames (currentValidator run') !! p) eqn:Hfn; [|reflexivity].
    assert (p < size (validators v))%nat by (apply Hnames; eauto). lia.
  - intros Hdense. destruct Hnamed as (lines & Hrun & Hlen & _).
    { intros i Hi. apply Hnames, Hdense, Hcounters, Hi. }
    exists lines. split; [exact Hrun | now rewrite Hlen].
Qed.

Lemma main_summary_needs_dense_positions_witness :
  main_summary (fst (main_loop (mkRun (getHeaderNames sparse ["name"])
                                  [["name"]] [["name"; "ERROR_MESSAGE"]] 0 0 0)
                       [["Bob"]; ["Al"]]))
  = Raise KeyError.
Proof.
  assert (Hwf : wf sparse) by (repeat split; vm_compute; reflexivity).
  assert (Hname : name sparse <> "novalidate") by (vm_compute; discriminate).
  destruct (main_summary_needs_dense_positions sparse
              [["name"]; ["Bob"]; ["Al"]] [["Bob"]; ["Al"]]
              (mkRun (getHeaderNames sparse ["name"]) [["name"]]
                 [["name"; "ERROR_MESSAGE"]] 0 0 0)
              (fst (main_loop (mkRun (getHeaderNames sparse ["name"])
                                 [["name"]] [["name"; "ERROR_MESSAGE"]] 0 0 0)
                      [["Bob"]; ["Al"]]))
              Hwf eq_refl Hname eq_refl eq_refl) as [Hiff _].
  apply Hiff. exists 1%nat. split; [eexists; reflexivity | vm_compute; lia].
Defined.

(** ** The length rule *)

(** X24.  What the length rule lets through.  For a nonempty field and a rule
    with both of its keys, [validateLength] returns, and it returns [True]
    exactly when the field is all digits if that is asked for, is at least
    as long as the minimum unless the minimum is 0, and is at most as long
    as the maximum unless the maximum is -1. *)
Theorem validateLength_passes_iff (v : Validator) (field : string)
  (numeric : bool) (lo hi : Z) :
  field <> "" ->
  checkNumeric v = Some numeric ->
  range v = Some (lo, hi) ->
  exists b : bool,
    validateLength v field = Ret b
    /\ (b = true
        <-> (numeric = true -> isdigit field = true)
            /\ (lo = 0 \/ lo <= len field)
            /\ (hi = -1 \/ len field <= hi)).
Proof.
  intros Hne Hnum Hrange. unfold validateLength. cbv zeta.
  rewrite (len_eqb_0_nonempty _ Hne), Hnum, Hrange.
  cbn [getitem bind fst snd].
  assert (Hpos : 0 < len field).
  { assert (len field <> 0) by (rewrite len_0; exact Hne). unfold len in *. lia. }
  destruct (Z.ltb_spec 0 (len field)); [|lia].
  destruct numeric, (isdigit field), (Z.eqb_spec lo 0),
    (Z.ltb_spec (len field) lo), (Z.eqb_spec hi (-1)),
    (Z.ltb_spec hi (len field)); cbn [andb negb];
    eexists; (split; [reflexivity|]);
    intuition (first [lia | congruence]).
Qed.

Lemma validateLength_passes_iff_witness :
  exists b : bool,
    validateLength
      (mkValidator "len" true None None None None (Some true) (Some (4, -1)))
      "123" = Ret b
    /\ (b = true
        <-> (true = true -> isdigit "123" = true)
            /\ (4 = 0 \/ 4 <= len "123")
            /\ (-1 = -1 \/ len "123" <= -1)).
Proof.
  apply (validateLength_passes_iff
           (mkValidator "len" true None None None None (Some true) (Some (4, -1)))
           "123" true 4 (-1)).
  - discriminate.
  - reflexivity.
  - reflexivity.
Defined.

(** ** Padding *)

Lemma lstrip_starts_clean (s : string) : starts_clean (lstrip s).
Proof.
  induction s as [|c s IH]; [exact I|].
  cbn [lstrip]. destruct (isspace c) eqn:Hc; [exact IH | exact Hc].
Qed.

Lemma lstrip_clean (s : string) : starts_clean s -> lstrip s = s.
Proof. destruct s as [|c s]; [reflexivity|]. cbn. now intros ->. Qed.

Lemma rstrip_starts_clean (s : string) : starts_clean s -> starts_clean (rstrip s).
Proof.
  destruct s as [|c s]; [trivial|]. cbn [starts_clean rstrip]. intros Hc.
  destruct (rstrip s); [rewrite Hc|]; exact Hc.
Qed.

Lemma rstrip_idempotent (s : string) : rstrip (rstrip s) = rstrip s.
Proof.
  induction s as [|c s IH]; [reflexivity|].
  cbn [rstrip]. destruct (rstrip s) as [|c' r] eqn:Hr.
  - destruct (isspace c) eqn:Hc; [reflexivity|]. cbn [rstrip]. now rewrite Hc.
  - change (rstrip (String c (String c' r))) with
      (match rstrip (String c' r) with
       | EmptyString => if isspace c then EmptyString else String c EmptyString
       | r0 => String c r0
       end).
    rewrite IH. reflexivity.
Qed.

Lemma strip_idempotent (s : string) : strip (strip s) = strip s.
Proof.
  unfold strip.
  rewrite (lstrip_clean (rstrip (lstrip s)))
    by apply rstrip_starts_clean, lstrip_starts_clean.
  apply rstrip_idempotent.
Qed.

Lemma validateRow_for_strip (self : CSVDataValidator) (fields : list string) :
  forall (index : nat) (n : Z),
    validateRow_for self index n (map strip fields)
    = validateRow_for self index n fields.
Proof.
  induction fields as [|raw rest IH]; intros index0 n; [reflexivity|].
  cbn [map validateRow_for]. cbv zeta. rewrite strip_idempotent.
  destruct (validateField self index0 (strip raw)) as [[|]| |];
    cbn [Bool.eqb negb]; try reflexivity.
  destruct (len (strip raw) =? 0); [|apply IH].
  destruct (maxEmptyFields self <=? n + 1); [reflexivity | apply IH].
Qed.

(** X25.  Padding does not matter to [validateRow].  A row and the row of
    its trimmed fields get the same answer and leave the instance in the
    same state. *)
Theorem validateRow_ignores_padding (self : CSVDataValidator)
  (row : list string) :
  validateRow self (map strip row) = validateRow self row.
Proof.
  unfold validateRow. rewrite length_map.
  destruct (String.eqb (name self) "novalidate"); [reflexivity|].
  destruct (negb _); [reflexivity|].
  apply validateRow_for_strip.
Qed.

(** ** A whole run *)

(** X26.  What a run that ends normally has written.  When the script, from
    the configuration section to the end of the row loop, ends normally,
    the input was a header followed by rows, the instance was constructed
    from a configured dictionary named by the first argument, the good
    file is the header followed by the rows that instance accepts, in
    order and unchanged, the bad file is the header with the column
    [ERROR_MESSAGE] followed by one annotated record per other row, and
    the total counter is the number of rows. *)
Theorem main_normal_end (re_compile : string -> option (string -> bool))
  (config : list ValidatorDict) (argv : list string)
  (input : list (list string)) (run' : Run) :
  main re_compile config argv input = (Some run', Ret tt) ->
  exists (v : CSVDataValidator) (headerRow : list string)
         (rows : list (list string)),
    input = headerRow :: rows
    /\ argv !! 1%nat = Some (name v)
    /\ (exists d : ValidatorDict, d ∈ config /\ init re_compile d = Ret v)
    /\ goodDataFile run' = headerRow :: List.filter (accepted v) rows
    /\ (exists written : list (list string),
           badDataFile run' = (headerRow ++ ["ERROR_MESSAGE"]) :: written
           /\ Forall2 annotated written
                (List.filter (fun row => negb (accepted v row)) rows))
    /\ totalRowCounter run' = Z.of_nat (length rows)
    /\ totalRowCounter run' = goodRowCounter run' + badRowCounter run'.
Proof.
  unfold main. intros Hmain.
  destruct (configure re_compile config []) as [validators| |] eqn:Hconf;
    try discriminate.
  destruct (main_select validators argv) as [v| |] eqn:Hsel; try discriminate.
  destruct (main_header v input) as [[run rows]| |] eqn:Hhdr; try discriminate.
  destruct (main_loop run rows) as [run1 out] eqn:Hloop.
  injection Hmain as -> ->.
  assert (Hreg : registered re_compile config validators).
  { apply (configure_registered re_compile config config (fun d H => H) []);
      [|exact Hconf].
    intros k w Hk. discriminate Hk. }
  assert (Hv : argv !! 1%nat = Some (name v)
               /\ exists d, d ∈ config /\ init re_compile d = Ret v).
  { unfold main_select in Hsel.
    destruct (negb _); [discriminate|]. unfold index in Hsel.
    destruct (argv !! 1%nat) as [sourcetype|]; [|discriminate].
    cbn [bind] in Hsel.
    destruct (lookup_item sourcetype validators) as [w|] eqn:Hw;
      [|discriminate].
    injection Hsel as ->. destruct (Hreg _ _ Hw) as [-> Hd]. auto. }
  unfold main_header in Hhdr.
  destruct input as [|headerRow rest]; [discriminate|].
  destruct (_ && _); [discriminate|]. injection Hhdr as <- <-.
  apply main_loop_ret in Hloop
    as (_ & Hg & (written & Hb & Hann) & Hgc & Hbc & Htc).
  cbn [currentValidator goodDataFile badDataFile goodRowCounter badRowCounter
       totalRowCounter] in *.
  pose proof (getHeaderNames_keeps_rules v headerRow) as Hsame.
  rewrite (filter_accepted_same_rules _ _ _ Hsame) in Hg, Hgc.
  rewrite (filter_rejected_same_rules _ _ _ Hsame) in Hann, Hbc.
  exists v, headerRow, rest.
  split; [reflexivity|]. split; [apply Hv|]. split; [apply Hv|].
  split; [exact Hg|]. split; [exists written; auto|].
  split; [lia|]. rewrite Htc, Hgc, Hbc.
  pose proof (List.filter_length (accepted v) rest). lia.
Qed.

Lemma main_normal_end_witness :
  exists (v : CSVDataValidator) (headerRow : list string)
         (rows : list (list string)),
    ["name"; "code"] :: sample_rows = headerRow :: rows
    /\ goodDataFile
         (default sample_run
            (fst (main (fun _ => None) [two_fields_dict]
                    ["CSVDataValidator.py"; "pair"; "i"; "g"; "b"]
                    (["name"; "code"] :: sample_rows))))
       = headerRow :: List.filter (accepted v) rows.
Proof.
  destruct (main_normal_end (fun _ => None) [two_fields_dict]
              ["CSVDataValidator.py"; "pair"; "i"; "g"; "b"]
              (["name"; "code"] :: sample_rows)
              (default sample_run
                 (fst (main (fun _ => None) [two_fields_dict]
                         ["CSVDataValidator.py"; "pair"; "i"; "g"; "b"]
                         (["name"; "code"] :: sample_rows))))
              eq_refl)
    as (v & headerRow & rows & Hin & _ & _ & Hg & _).
  exists v, headerRow, rows. auto.
Defined.

(** ** The mutable state of an instance *)



(** ** Unknown rule kinds, from the constructor to the row loop *)

(** The constructor takes a dictionary whose ['re'] rules compile, whatever
    the kinds of the other rules are, and stores a rule of an unknown kind
    as it is. *)
Lemma init_keeps_unknown_kinds
  (re_compile : string -> option (string -> bool)) (n : string)
  (vs : gmap nat Validator) :
  (forall (i : nat) (v : Validator), vs !! i = Some v -> compilable re_compile v) ->
  exists self : CSVDataValidator,
    init re_compile (mkValidatorDict (Some n) (Some vs)) = Ret self
    /\ name self = n
    /\ forall (i : nat) (v : Validator),
        vs !! i = Some v -> ~ known_kind (type v) ->
        validators self !! i = Some v.
Proof.
  intros Hall.
  assert (Hex : exists self : CSVDataValidator,
             init re_compile (mkValidatorDict (Some n) (Some vs)) = Ret self).
  { unfold init, dict_len.
    cbn [dict_name dict_validators Z.add Z.ltb Z.compare Pos.add getitem bind].
    apply init_for_succeeds. apply Forall_forall. intros [k v] Hkv.
    apply elem_of_map_to_list in Hkv. cbn [snd]. eauto. }
  destruct Hex as [self Hinit]. exists self. split; [exact Hinit|].
  destruct (init_result _ _ _ Hinit) as (_ & Hn & _ & vs' & Hvs & Hrules).
  cbn [dict_name dict_validators] in Hn, Hvs.
  injection Hn as ->. injection Hvs as <-.
  split; [reflexivity|].
  intros i v Hi Hk. specialize (Hrules i). rewrite Hi in Hrules.
  destruct Hrules as (_ & v' & Hv' & Hcomp). unfold compiled in Hcomp.
  destruct (String.eqb_spec (type v) "re") as [Hre|_].
  - exfalso. apply Hk. right; left. exact Hre.
  - now rewrite Hv', Hcomp.
Qed.

(** [validateRow] exits only from a field check that the row has reached. *)
Lemma validateRow_exit_inv (self s' : CSVDataValidator) (row : list string)
  (msg : string) :
  validateRow self row = (s', Exit msg) ->
  s' = self
  /\ name self <> "novalidate"
  /\ length row = size (validators self)
  /\ exists (i : nat) (raw : string),
      row !! i = Some raw
      /\ passes self 0 (take i row)
      /\ (count_empty (take i row) = 0
          \/ count_empty (take i row) < maxEmptyFields self)
      /\ validateField self i (strip raw) = Exit msg.
Proof.
  intros Hrun.
  assert (Hname : name self <> "novalidate").
  { intros Hn. unfold validateRow in Hrun. rewrite Hn in Hrun.
    cbn in Hrun. discriminate Hrun. }
  rewrite (validateRow_unfold _ _ Hname) in Hrun.
  case_decide as Hlen; [|discriminate Hrun].
  destruct (validateRow_for_inv self row 0 0)
    as [(_ & _ & Hr')
       | [(pre & raw & post & _ & _ & _ & _ & _ & Hr')
         | (pre & raw & post & Hrow & Hp & Hb & _ & Hr')]];
    rewrite Hr' in Hrun; try discriminate Hrun.
  cbn [Nat.add] in *. unfold stop in Hrun.
  destruct (validateField self (length pre) (strip raw)) as [b| |] eqn:Hf.
  - destruct (badFieldCounters self !! length pre); discriminate Hrun.
  - injection Hrun as <- <-.
    split; [reflexivity|]. split; [exact Hname|]. split; [exact Hlen|].
    exists (length pre), raw.
    assert (Htake : take (length pre) row = pre).
    { rewrite Hrow. apply take_app_length. }
    rewrite Htake.
    split; [rewrite Hrow; now apply list_lookup_middle|].
    split; [exact Hp|]. split; [now apply budget_reached_false | exact Hf].
  - discriminate Hrun.
Qed.

(** A field that fails, reached before the budget, decides the row. *)
Lemma validateRow_failure_decides (self : CSVDataValidator)
  (row : list string) (j : nat) (r : string) :
  wf self ->
  name self <> "novalidate" ->
  length row = size (validators self) ->
  row !! j = Some r ->
  validateField self j (strip r) = Ret false ->
  passes self 0 (take j row) ->
  count_empty (take j row) = 0
  \/ count_empty (take j row) < maxEmptyFields self ->
  snd (validateRow self row) = Ret (RejectedFieldFailed j).
Proof.
  intros Hwf Hname Hlen Hj Hfail Hp Hb.
  destruct (failing_field_has_counter _ _ _ Hwf Hfail) as [count Hc].
  destruct (row_split row j r Hj) as [Hsplit Hlenj].
  rewrite (validateRow_shape _ _ Hname Hlen), Hsplit.
  rewrite <- Hlenj in Hfail, Hc.
  rewrite (validateRow_for_first_failure _ _ _ _ _ Hp Hfail Hc).
  apply budget_reached_false in Hb. rewrite Hb, Hlenj. reflexivity.
Qed.

(** An empty field that reaches the budget decides the row. *)
Lemma validateRow_budget_decides (self : CSVDataValidator)
  (row : list string) (j : nat) (r : string) :
  name self <> "novalidate" ->
  length row = size (validators self) ->
  row !! j = Some r ->
  strip r = "" ->
  passes self 0 (take (S j) row) ->
  maxEmptyFields self <= count_empty (take (S j) row) ->
  validateRow self row = (self, Ret RejectedTooManyEmptyFields).
Proof.
  intros Hname Hlen Hj Hr Hp Hmax.
  rewrite (validateRow_shape _ _ Hname Hlen).
  rewrite <- (take_drop (S j) row) at 1.
  rewrite (validateRow_for_app _ _ _ _ _ Hp).
  assert (Hpos : 0 < count_empty (take (S j) row)).
  { rewrite (take_S_r _ _ _ Hj), count_empty_app, count_empty_cons.
    unfold is_empty_field. rewrite Hr, len_eqb_0_empty.
    pose proof (count_empty_nonneg (take j row)).
    change (count_empty []) with 0. lia. }
  unfold budget_reached. rewrite Z.add_0_l.
  destruct (Z.ltb_spec 0 (count_empty (take (S j) row))); [|lia].
  destruct (Z.leb_spec (maxEmptyFields self) (count_empty (take (S j) row)));
    [reflexivity | lia].
Qed.

(** C8, as the code has it.  The constructor accepts a dictionary whose
    rules have unknown kinds (it looks at ["type"] only to find ['re']):
    it succeeds whenever the ['re'] rules compile, and stores a rule of an
    unknown kind unchanged.  The kind is looked at when a field of that
    position is validated: [validateField] then exits with the message of
    the script, whatever the field.  So [validateRow] exits on a row that
    reaches such a position, and only on a row that reaches the position
    where [validateField] exits: a row decided before it (by the name
    ["novalidate"], by its shape, by an earlier failing field, or by an
    earlier empty field that reaches the budget) gets its integer whatever
    the kinds of the rules further on.  The row loop stops at the first
    row on which [validateRow] exits, with the rows before it processed
    and written. *)
Theorem unknown_kind_exits_when_reached :
  (forall (re_compile : string -> option (string -> bool)) (n : string)
      (vs : gmap nat Validator),
      (forall (i : nat) (v : Validator), vs !! i = Some v -> type v <> "re") ->
      exists self : CSVDataValidator,
        init re_compile (mkValidatorDict (Some n) (Some vs)) = Ret self
        /\ validators self = vs /\ name self = n)
  /\ (forall (self : CSVDataValidator) (row : list string) (i : nat)
        (raw : string) (fieldValidator : Validator),
        name self <> "novalidate" ->
        length row = size (validators self) ->
        row !! i = Some raw ->
        validators self !! i = Some fieldValidator ->
        ~ known_kind (type fieldValidator) ->
        (forall (j : nat) (r : string),
            (j < i)%nat -> row !! j = Some r ->
            validateField self j (strip r) = Ret true) ->
        count_empty (take i row) = 0
        \/ count_empty (take i row) < maxEmptyFields self ->
        validateField self i (strip raw)
        = Exit ("ERROR!! BAD Validator Type" +:+ type fieldValidator)
        /\ validateRow self row
           = (self, Exit ("ERROR!! BAD Validator Type" +:+ type fieldValidator)))
  /\ (forall (rows rest : list (list string)) (row : list string)
        (run run' : Run) (validator : CSVDataValidator) (msg : string),
        main_loop run rows = (run', Ret tt) ->
        validateRow (currentValidator run') row = (validator, Exit msg) ->
        main_loop run (rows ++ row :: rest)
        = (mkRun validator (goodDataFile run') (badDataFile run')
             (goodRowCounter run') (badRowCounter run')
             (totalRowCounter run' + 1),
           Exit msg))
  /\ (forall (re_compile : string -> option (string -> bool)) (n : string)
        (vs : gmap nat Validator),
        (forall (i : nat) (v : Validator),
            vs !! i = Some v -> compilable re_compile v) ->
        exists self : CSVDataValidator,
          init re_compile (mkValidatorDict (Some n) (Some vs)) = Ret self
          /\ name self = n
          /\ forall (i : nat) (v : Validator),
              vs !! i = Some v -> ~ known_kind (type v) ->
              validators self !! i = Some v)
  /\ (forall (self : CSVDataValidator) (i : nat) (fieldValidator : Validator)
        (field : string),
        validators self !! i = Some fieldValidator ->
        ~ known_kind (type fieldValidator) ->
        validateField self i field
        = Exit ("ERROR!! BAD Validator Type" +:+ type fieldValidator))
  /\ (forall (self s' : CSVDataValidator) (row : list string) (msg : string),
        validateRow self row = (s', Exit msg) ->
        s' = self
        /\ name self <> "novalidate"
        /\ length row = size (validators self)
        /\ exists (i : nat) (raw : string),
            row !! i = Some raw
            /\ passes self 0 (take i row)
            /\ (count_empty (take i row) = 0
                \/ count_empty (take i row) < maxEmptyFields self)
            /\ validateField self i (strip raw) = Exit msg)
  /\ (forall (self : CSVDataValidator) (row : list string),
        (name self = "novalidate" ->
         validateRow self row = (self, Ret Accepted))
        /\ (name self <> "novalidate" ->
            length row <> size (validators self) ->
            validateRow self row = (self, Ret RejectedShapeMismatch))
        /\ (forall (j : nat) (r : string),
               wf self ->
               name self <> "novalidate" ->
               length row = size (validators self) ->
               row !! j = Some r ->
               validateField self j (strip r) = Ret false ->
               passes self 0 (take j row) ->
               count_empty (take j row) = 0
               \/ count_empty (take j row) < maxEmptyFields self ->
               snd (validateRow self row) = Ret (RejectedFieldFailed j))
        /\ (forall (j : nat) (r : string),
               name self <> "novalidate" ->
               length row = size (validators self) ->
               row !! j = Some r ->
               strip r = "" ->
               passes self 0 (take (S j) row) ->
               maxEmptyFields self <= count_empty (take (S j) row) ->
               validateRow self row = (self, Ret RejectedTooManyEmptyFields))).
Proof.
  split; [|split; [|split; [|split; [|split; [|split]]]]].
  - intros re_compile n vs Hno.
    unfold init. cbn [dict_len dict_name dict_validators getitem bind Z.ltb
                      Z.add Z.compare Pos.add].
    destruct (init_for_no_re re_compile (map_to_list vs)) with
      (self := mkCSVDataValidator n vs (Z.of_nat (size vs))
                 (Z.of_nat (size vs) - 1) ∅ ∅)
      as (self & Hrun & Hv & Hn).
    + apply Forall_forall. intros [k v] Hkv.
      apply elem_of_map_to_list in Hkv. cbn [snd]. eauto.
    + exists self. repeat split; assumption.
  - intros self row i raw fv Hname Hlen Hi Hv Hk Hbefore Hfree.
    pose proof (validateField_unknown_kind self i fv (strip raw) Hv Hk) as Hexit.
    split; [exact Hexit|].
    destruct (row_split row i raw Hi) as [Hsplit Hleni].
    rewrite (validateRow_shape _ _ Hname Hlen), Hsplit.
    rewrite (validateRow_for_app _ _ _ _ _ (passes_take self row i Hbefore)).
    apply budget_reached_false in Hfree. rewrite Hfree, Hleni.
    cbn [Nat.add validateRow_for]. cbv zeta.
    rewrite Hexit. reflexivity.
  - intros rows rest row run run' validator msg.
    apply main_loop_app_exit.
  - apply init_keeps_unknown_kinds.
  - apply validateField_unknown_kind.
  - apply validateRow_exit_inv.
  - intros self row. split; [|split; [|split]].
    + intros Hn. unfold validateRow. rewrite Hn. reflexivity.
    + intros Hname Hlen. rewrite (validateRow_unfold _ _ Hname).
      case_decide; [contradiction | reflexivity].
    + intros j r. apply validateRow_failure_decides.
    + intros j r. apply validateRow_budget_decides.
Qed.

Lemma unknown_kind_exits_when_reached_witness :
  (exists self : CSVDataValidator,
      init (fun _ => None) unknown_kind_dict = Ret self
      /\ name self = "legacy")
  /\ validateRow unknown_kind ["Bob"; "x"]
     = (unknown_kind, Exit "ERROR!! BAD Validator Typebogus")
  /\ snd (main_loop
            (mkRun (getHeaderNames unknown_kind ["name"; "code"]) [] [] 0 0 0)
            ([[""; "x"]] ++ ["Bob"; "x"] :: [["Al"; "y"]]))
     = Exit "ERROR!! BAD Validator Typebogus"
  /\ (exists self : CSVDataValidator,
         init (fun _ => Some (fun _ => true))
           (mkValidatorDict (Some "both") (Some re_then_unknown)) = Ret self
         /\ validators self !! 1%nat
            = Some (mkValidator "bogus" true None None None None None None))
  /\ validateField unknown_kind 1 "anything"
     = Exit "ERROR!! BAD Validator Typebogus"
  /\ (exists (i : nat) (raw : string),
         ["Bob"; "x"] !! i = Some raw
         /\ validateField unknown_kind i (strip raw)
            = Exit "ERROR!! BAD Validator Typebogus")
  /\ validateRow unknown_kind ["Bob"]
     = (unknown_kind, Ret RejectedShapeMismatch)
  /\ snd (validateRow unknown_kind [""; "x"]) = Ret (RejectedFieldFailed 0)
  /\ validateRow optional_then_unknown [""; "x"]
     = (optional_then_unknown, Ret RejectedTooManyEmptyFields).
Proof.
  destruct unknown_kind_exits_when_reached
    as (Hinit & Hrow & Hloop & Hkeep & Hfield & Hexit & Hearlier).
  destruct concrete_wf as (_ & _ & Hwfu & _).
  assert (Hname : name unknown_kind <> "novalidate") by (vm_compute; discriminate).
  assert (Hbogus : ~ known_kind "bogus").
  { unfold known_kind. intros [H | [H | [H | H]]]; discriminate H. }
  split; [|split; [|split; [|split; [|split; [|split; [|split; [|split]]]]]]].
  - destruct (Hinit (fun _ => None) "legacy"
                (list_to_map
                   [(0%nat, str_rule false);
                    (1%nat, mkValidator "bogus" true None None None None None None)]))
      as (self & Hself & _ & Hn).
    + intros i v Hv. apply elem_of_list_to_map_2 in Hv.
      rewrite !elem_of_cons, elem_of_nil in Hv.
      destruct Hv as [Hv | [Hv | []]]; injection Hv as -> ->;
        vm_compute; discriminate.
    + exists self. split; assumption.
  - refine (proj2 (Hrow unknown_kind ["Bob"; "x"] 1%nat "x"
                     (mkValidator "bogus" true None None None None None None)
                     Hname eq_refl eq_refl eq_refl Hbogus _ _)).
    + intros j r Hj Hr. destruct j as [|j]; [|lia].
      injection Hr as <-. reflexivity.
    + left. reflexivity.
  - erewrite Hloop; [reflexivity | vm_compute; reflexivity |].
    vm_compute. reflexivity.
  - destruct (Hkeep (fun _ => Some (fun _ => true)) "both" re_then_unknown)
      as (self & Hself & _ & Hstored).
    + intros i v Hv Hre. apply elem_of_list_to_map_2 in Hv.
      rewrite !elem_of_cons, elem_of_nil in Hv.
      destruct Hv as [Hv | [Hv | []]]; injection Hv as -> ->;
        [eexists _, _; split; reflexivity | discriminate Hre].
    + exists self. split; [exact Hself|].
      apply Hstored; [reflexivity | exact Hbogus].
  - apply (Hfield unknown_kind 1%nat
             (mkValidator "bogus" true None None None None None None)
             "anything" eq_refl Hbogus).
  - destruct (Hexit unknown_kind unknown_kind ["Bob"; "x"]
                "ERROR!! BAD Validator Typebogus" eq_refl)
      as (_ & _ & _ & i & raw & Hi & _ & _ & Hf).
    exists i, raw. split; assumption.
  - apply (proj1 (proj2 (Hearlier unknown_kind ["Bob"])) Hname).
    vm_compute. discriminate.
  - apply (proj1 (proj2 (proj2 (Hearlier unknown_kind [""; "x"])))
             0%nat "" Hwfu Hname eq_refl eq_refl eq_refl).
    + intros j r Hj. discriminate Hj.
    + left. reflexivity.
  - apply (proj2 (proj2 (proj2 (Hearlier optional_then_unknown [""; "x"])))
             0%nat "" ltac:(vm_compute; discriminate) eq_refl eq_refl eq_refl).
    + intros [|j] r Hj; [injection Hj as <-; reflexivity | discriminate Hj].
    + vm_compute. discriminate.
Defined.
